(** * Supervisory loop of the MR60BHA2 radar node (radar_usb.ino)

    A shallow embedding of the watchdog, recovery and duty-cycle logic of
    [src/radar_usb.ino], and the properties of its specification.

    - [unsigned long] is 32 bits wide on the ESP32: values are [Z] in
      [0, 2^32) and every arithmetic result is reduced with [wrap32].
    - [int] variables are [Z] without a bound.  Signed overflow is
      undefined in C++, so the model agrees with the code as long as the
      values stay within [-2^31, 2^31); a theorem that speaks of an
      incremented [int] says so in a hypothesis or proves the range.
    - [float] variables hold sensor readings and small integers in
      [simulate_vital_signs]; they are modelled as rationals [Q] (no NaN,
      no infinity, no rounding).  They are compared with constants,
      except in the position block, where [abs(x - last_x) > 0.1] is
      computed on the exact rationals; only the debug statics [last_x]
      and [last_y] depend on that comparison.
    - The sensor driver, the clock, the heap statistics and [random()] are
      external: their answers come from an oracle, indexed per kind of
      call, so that a theorem quantified over the oracle covers every
      behaviour of the collaborators.
    - Output is recorded in a trace of events, newest first. *)

From Stdlib Require Import ZArith QArith Qabs List Bool Lia Lqa String.
Import ListNotations.
Local Open Scope Z_scope.

(** ** 32-bit unsigned arithmetic *)

Definition wrap32 (x : Z) : Z := x mod 4294967296.

Definition in_u32 (x : Z) : Prop := 0 <= x < 4294967296.

#[global] Arguments wrap32 : simpl never.

(** ** Constants of the sketch (lines 37-84) *)

Definition HEARTBEAT_INTERVAL : Z := 30 * 1000.
Definition HOURLY_SLEEP_INTERVAL : Z := 60 * 60 * 1000.
Definition DEEP_SLEEP_DURATION : Z := 60 * 1000000.
Definition MIN_RESET_INTERVAL : Z := 30 * 60 * 1000.
Definition MAX_RESETS_PER_SESSION : Z := 3.
Definition RESET_TIMEOUT : Z := 10 * 60 * 1000.
Definition DIAGNOSTIC_INTERVAL : Z := 5 * 60 * 1000.
Definition MAX_CONSECUTIVE_FAILURES : Z := 20.
Definition MEMORY_CHECK_INTERVAL : Z := 2 * 60 * 1000.
Definition SERIAL_CHECK_INTERVAL : Z := 1 * 60 * 1000.
Definition TEMPERATURE_CHECK_INTERVAL : Z := 5 * 60 * 1000.
Definition MAX_RECOVERY_ATTEMPTS : Z := 3.

(** ** The interval timer: [check_timeout_safe] (lines 1547-1560)

    [check_timeout_safe_at current_time last_time timeout] is the body of
    the function once [millis()] has been read into [current_time]. *)

Definition wraparound_total_time (current_time last_time : Z) : Z :=
  let time_since_overflow := current_time in
  let time_before_overflow := wrap32 (4294967295 - last_time) in
  wrap32 (time_since_overflow + time_before_overflow).

Definition check_timeout_safe_at (current_time last_time timeout : Z) : bool :=
  if current_time <? last_time then
    let total_time := wraparound_total_time current_time last_time in
    timeout <? total_time
  else
    timeout <? wrap32 (current_time - last_time).

(** The elapsed time the two branches of [check_timeout_safe] compare with
    the timeout. *)
Definition elapsed_time_safe (current_time last_time : Z) : Z :=
  if current_time <? last_time
  then wraparound_total_time current_time last_time
  else wrap32 (current_time - last_time).

(** [get_time_until_next_sleep] (lines 1563-1579), after [millis()]. *)
Definition get_time_until_next_sleep_at (current_time last_hourly_sleep : Z) : Z :=
  let time_since_last_sleep :=
    if current_time <? last_hourly_sleep
    then wrap32 (current_time + wrap32 (4294967295 - last_hourly_sleep))
    else wrap32 (current_time - last_hourly_sleep) in
  if HOURLY_SLEEP_INTERVAL <=? time_since_last_sleep
  then 0
  else wrap32 (HOURLY_SLEEP_INTERVAL - time_since_last_sleep).


(** ** Program variables

    The globals of the sketch and the [static] locals of its functions,
    grouped by C++ type.  [RTC_DATA_ATTR] marks the three variables that
    the source keeps in RTC memory: [bootCount], [last_hourly_sleep] and
    [last_reset_time_rtc]. *)

Inductive ulong_var : Set :=
  (* globals, lines 36-82 *)
  | last_heartbeat | last_hourly_sleep | last_reset_time_rtc
  | reset_count_this_session | last_data_received | last_reset_time
  | last_diagnostic_time | consecutive_failures | total_loops
  | successful_readings | failed_readings | last_memory_check
  | min_free_heap | max_free_heap | last_serial_check
  | last_temperature_check
  (* statics of loop() *)
  | last_status_log | last_communication_check | last_quick_check
  | last_inactive_check | last_complete_failure_check
  | last_position_recovery | last_sensor_debug | last_vitals_debug
  | last_vitals_failed_debug | consecutive_vitals_failed_count
  | last_position_vitals_failed | last_all_failed_debug
  | consecutive_all_failed_count | last_position_debug
  | consecutive_position_failures_found   (* the static at line 2099 *)
  | last_no_targets_debug | last_position_fail_debug
  | consecutive_position_failures          (* the static at line 2121 *)
  | last_fallback_update
  (* statics of simulate_vital_signs, keep_sensor_active and
     detect_sensor_inactive_mode *)
  | last_simulation | last_keep_alive | last_log | inactive_start_time.

Inductive int_var : Set :=
  | bootCount | complete_failure_count | recovery_attempts.

Inductive bool_var : Set :=
  | is_hourly_sleep_mode | serial_available | last_quick_test
  | position_recovery_attempted | was_active.

Inductive float_var : Set :=
  | breath_rate | heart_rate | distance | x_position | y_position
  | last_temperature | last_x | last_y | fallback_angle
  | sim_breath | sim_heart.

Definition ulong_var_eq_dec (a b : ulong_var) : {a = b} + {a <> b}.
Proof. decide equality. Defined.

Definition int_var_eq_dec (a b : int_var) : {a = b} + {a <> b}.
Proof. decide equality. Defined.

Definition bool_var_eq_dec (a b : bool_var) : {a = b} + {a <> b}.
Proof. decide equality. Defined.

Definition float_var_eq_dec (a b : float_var) : {a = b} + {a <> b}.
Proof. decide equality. Defined.

Record Memory : Type := {
  ulongs : ulong_var -> Z;
  ints : int_var -> Z;
  bools : bool_var -> bool;
  floats : float_var -> Q
}.

Definition upd {K V : Type} (eq_dec : forall a b : K, {a = b} + {a <> b})
    (f : K -> V) (k : K) (v : V) : K -> V :=
  fun k' => if eq_dec k k' then v else f k'.

Definition set_ulong (m : Memory) (v : ulong_var) (x : Z) : Memory :=
  {| ulongs := upd ulong_var_eq_dec (ulongs m) v (wrap32 x);
     ints := ints m; bools := bools m; floats := floats m |}.

Definition set_int (m : Memory) (v : int_var) (x : Z) : Memory :=
  {| ulongs := ulongs m; ints := upd int_var_eq_dec (ints m) v x;
     bools := bools m; floats := floats m |}.

Definition set_bool (m : Memory) (v : bool_var) (x : bool) : Memory :=
  {| ulongs := ulongs m; ints := ints m;
     bools := upd bool_var_eq_dec (bools m) v x; floats := floats m |}.

Definition set_float (m : Memory) (v : float_var) (x : Q) : Memory :=
  {| ulongs := ulongs m; ints := ints m; bools := bools m;
     floats := upd float_var_eq_dec (floats m) v x |}.

(** The values the declarations give the variables when the program
    image is loaded. *)
Definition initial_memory : Memory :=
  {| ulongs := fun v => match v with
                        | min_free_heap => 4294967295   (* SIZE_MAX *)
                        | _ => 0
                        end;
     ints := fun _ => 0;
     bools := fun v => match v with
                       | serial_available => true
                       | _ => false
                       end;
     floats := fun v => match v with
                        | last_x | last_y => (-999)%Q
                        | sim_breath => 16%Q
                        | sim_heart => 70%Q
                        | _ => 0%Q
                        end |}.

(** ** The outside world *)

(** One entry of [PeopleCounting::targets]. *)
Record Target : Type := {
  x_point : Q;
  y_point : Q;
  dop_index : Z;
  cluster_index : Z
}.

(** The kinds of calls whose answer comes from outside the sketch. *)
Inductive call : Set :=
  | Cmillis | Cupdate | CgetBreathRate | CgetHeartRate | CgetDistance
  | CgetPeopleCounting | CisHumanDetected | Cavailable | Crandom
  | Cfree_heap.

Definition call_eq_dec (a b : call) : {a = b} + {a <> b}.
Proof. decide equality. Defined.

(** The answers of the collaborators, indexed by how many calls of the
    same kind came before.  A getter answers [None] when it returns
    false and [Some v] when it returns true and stores [v]. *)
Record Oracle : Type := {
  tick_at : nat -> N;        (* time that passed since the last clock read, besides delay() *)
  update_at : nat -> bool;   (* mmWave.update *)
  breath_at : nat -> option Q;
  heart_at : nat -> option Q;
  distance_at : nat -> option Q;
  people_at : nat -> option (list Target);
  human_at : nat -> bool;
  available_at : nat -> Z;   (* mmWaveSerial.available *)
  random_at : nat -> Z;      (* the raw generator behind random(min, max) *)
  free_heap_at : nat -> Z;   (* esp_get_free_heap_size *)
  polar_x : Q -> Q -> Q;     (* distance * cos(angle * PI / 180) *)
  polar_y : Q -> Q -> Q      (* distance * sin(angle * PI / 180) *)
}.

(** Lines of the debug log the properties speak about; the other
    [Serial.print] calls leave no event. *)
Inductive Message : Type :=
  | MsgResetLimit        (* "LIMITE: Maximo de resets por sessao atingido" *)
  | MsgResetWait         (* "AGUARDE: Tempo minimo entre resets nao atingido" *)
  | MsgResetCancelled    (* "Reset cancelado por protecao de seguranca" *)
  | MsgResetAuthorized   (* "Reset autorizado - Executando..." *)
  | MsgCompleteFailure (n : Z)   (* "Falha completa detectada: n/5" *)
  | MsgForcedReinit      (* "Sensor completamente inoperante - reinicializacao forcada!" *)
  | MsgHourlySleep       (* "=== DEEP SLEEP HORARIO ===" *)
  | MsgEmergencyTimeout  (* "TIMEOUT: Sem dados por 10 minutos" *)
  | MsgFailureAlert (n : Z)      (* "ALERTA: n falhas consecutivas detectadas!" *)
  | MsgHumanDetected     (* "-----Human Detected-----" *)
  | MsgVitalsFailed (n : Z)      (* "DADOS VITAIS FALHARAM! (tentativa #n)" *)
  | MsgRobustAttempt     (* "=== TENTATIVA ROBUSTA DE DADOS VITAIS ===" *)
  | MsgSimulated (breath heart : Q)  (* "DADOS SIMULADOS - breath: b, heart: h" *)
  | MsgAllFailed (n : Z)         (* "ALERTA: Todos os dados basicos falharam! (tentativa #n)" *)
  | MsgReadFailure (n : Z)       (* "Falha na leitura do sensor" / "Falhas consecutivas: n" *)
  | MsgWokeHourly        (* "Acordou do deep sleep horario (1 minuto)" *)
  | MsgWokeNormal.       (* "Acordou de deep sleep normal - Resetando sistema..." *)

Inductive Event : Type :=
  | Log (m : Message)
  | Telemetry (breath heart x y : Q)   (* the record of send_formatted_data *)
  | SensorSerialEnd                    (* mmWaveSerial.end() *)
  | SensorSerialBegin (baud : Z)       (* mmWaveSerial.begin(baud) *)
  | SensorDriverBegin                  (* mmWave.begin(&mmWaveSerial, ...) *)
  | SensorDrain                        (* while (mmWaveSerial.available()) mmWaveSerial.read(); *)
  | SensorRead (n : Z)                 (* n calls of mmWaveSerial.read() *)
  | SensorWrite (frame : list Z)       (* mmWaveSerial.write(frame, size) *)
  | SensorPrint (text : string)        (* mmWaveSerial.print / println *)
  | DeepSleep (us : Z).                (* esp_deep_sleep_start after a timer wakeup of us *)

Record World : Type := {
  mem : Memory;
  clock : Z;                (* milliseconds since boot, unbounded *)
  oracle : Oracle;
  calls : call -> nat;      (* calls made so far, per kind *)
  trace : list Event        (* newest event first *)
}.

Definition with_mem (w : World) (m : Memory) : World :=
  {| mem := m; clock := clock w; oracle := oracle w; calls := calls w;
     trace := trace w |}.

Definition with_clock (w : World) (t : Z) : World :=
  {| mem := mem w; clock := t; oracle := oracle w; calls := calls w;
     trace := trace w |}.

Definition with_calls (w : World) (c : call -> nat) : World :=
  {| mem := mem w; clock := clock w; oracle := oracle w; calls := c;
     trace := trace w |}.

Definition with_trace (w : World) (t : list Event) : World :=
  {| mem := mem w; clock := clock w; oracle := oracle w; calls := calls w;
     trace := t |}.

(** ** Actions: state passing over the world *)

Definition Act (A : Type) : Type := World -> A * World.

Definition ret {A : Type} (a : A) : Act A := fun w => (a, w).

Definition bind {A B : Type} (m : Act A) (k : A -> Act B) : Act B :=
  fun w => k (fst (m w)) (snd (m w)).

Notation "x <- m ;; k" := (bind m (fun x => k))
  (at level 61, m at next level, right associativity).
Notation "m ;; k" := (bind m (fun _ => k))
  (at level 61, right associativity).

Definition when (b : bool) (m : Act unit) : Act unit :=
  if b then m else ret tt.

Definition getU (v : ulong_var) : Act Z := fun w => (ulongs (mem w) v, w).
Definition getI (v : int_var) : Act Z := fun w => (ints (mem w) v, w).
Definition getB (v : bool_var) : Act bool := fun w => (bools (mem w) v, w).
Definition getF (v : float_var) : Act Q := fun w => (floats (mem w) v, w).

Definition setU (v : ulong_var) (x : Z) : Act unit :=
  fun w => (tt, with_mem w (set_ulong (mem w) v x)).
Definition setI (v : int_var) (x : Z) : Act unit :=
  fun w => (tt, with_mem w (set_int (mem w) v x)).
Definition setB (v : bool_var) (x : bool) : Act unit :=
  fun w => (tt, with_mem w (set_bool (mem w) v x)).
Definition setF (v : float_var) (x : Q) : Act unit :=
  fun w => (tt, with_mem w (set_float (mem w) v x)).

(** [v++] on an [unsigned long] and on an [int].  The [int] is not
    wrapped: at [INT_MAX] the C++ increment is undefined, and the model
    is faithful only below it. *)
Definition incU (v : ulong_var) : Act unit := c <- getU v ;; setU v (c + 1).
Definition incI (v : int_var) : Act unit := c <- getI v ;; setI v (c + 1).

(** The collaborators, for the functions of the platform that depend on
    nothing else. *)
Definition get_oracle : Act Oracle := fun w => (oracle w, w).

Definition emit (e : Event) : Act unit :=
  fun w => (tt, with_trace w (e :: trace w)).

Definition log (m : Message) : Act unit := emit (Log m).

(** The number of earlier calls of kind [c]; counts the call. *)
Definition ask (c : call) : Act nat :=
  fun w => (calls w c,
            with_calls w (upd call_eq_dec (calls w) c (S (calls w c)))).

(** [delay(ms)] lets exactly [ms] milliseconds pass; whatever else passes
    (driver calls, printing) is accounted for at the next clock read. *)
Definition delay (ms : Z) : Act unit :=
  fun w => (tt, with_clock w (clock w + ms)).

Definition millis : Act Z :=
  n <- ask Cmillis ;;
  fun w => let t := clock w + Z.of_N (tick_at (oracle w) n) in
           (wrap32 t, with_clock w t).

(** Arduino's [random(howsmall, howbig)]. *)
Definition random (howsmall howbig : Z) : Act Z :=
  n <- ask Crandom ;;
  fun w => let raw := Z.abs (random_at (oracle w) n) in
           (if howbig <=? howsmall then howsmall
            else raw mod (howbig - howsmall) + howsmall, w).

(** *** Float comparisons *)

Definition feq (a b : Q) : bool := Qeq_bool a b.
Definition flt (a b : Q) : bool := negb (Qle_bool b a).
Definition fgt (a b : Q) : bool := flt b a.
Definition fge (a b : Q) : bool := Qle_bool b a.

(** *** The sensor driver and its serial link *)

Definition mmWave_update (timeout_ms : Z) : Act bool :=
  n <- ask Cupdate ;; fun w => (update_at (oracle w) n, w).

Definition mmWave_getBreathRate : Act (option Q) :=
  n <- ask CgetBreathRate ;; fun w => (breath_at (oracle w) n, w).

Definition mmWave_getHeartRate : Act (option Q) :=
  n <- ask CgetHeartRate ;; fun w => (heart_at (oracle w) n, w).

Definition mmWave_getDistance : Act (option Q) :=
  n <- ask CgetDistance ;; fun w => (distance_at (oracle w) n, w).

Definition mmWave_getPeopleCountingTartgetInfo : Act (option (list Target)) :=
  n <- ask CgetPeopleCounting ;; fun w => (people_at (oracle w) n, w).

Definition mmWave_isHumanDetected : Act bool :=
  n <- ask CisHumanDetected ;; fun w => (human_at (oracle w) n, w).

Definition mmWave_begin : Act unit := emit SensorDriverBegin.

Definition mmWaveSerial_available : Act Z :=
  n <- ask Cavailable ;; fun w => (available_at (oracle w) n, w).

Definition mmWaveSerial_end : Act unit := emit SensorSerialEnd.
Definition mmWaveSerial_begin (baud : Z) : Act unit := emit (SensorSerialBegin baud).
Definition mmWaveSerial_write (frame : list Z) : Act unit := emit (SensorWrite frame).
Definition mmWaveSerial_print (text : string) : Act unit := emit (SensorPrint text).

(** [while (mmWaveSerial.available()) mmWaveSerial.read();] empties the
    receive buffer; it is one step here. *)
Definition drain_serial : Act unit := emit SensorDrain.

(** [check_timeout_safe] (lines 1547-1560). *)
Definition check_timeout_safe (last_time timeout : Z) : Act bool :=
  current_time <- millis ;;
  ret (check_timeout_safe_at current_time last_time timeout).

(** [get_time_until_next_sleep] (lines 1563-1579). *)
Definition get_time_until_next_sleep : Act Z :=
  current_time <- millis ;;
  last <- getU last_hourly_sleep ;;
  ret (get_time_until_next_sleep_at current_time last).

(** A [for (int i = 0; i < n; i++)] loop whose body does not depend on
    [i]: [n] runs of the body. *)
Fixpoint repeat_act (n : nat) (body : Act unit) : Act unit :=
  match n with
  | O => ret tt
  | S n' => body ;; repeat_act n' body
  end.

(** ** The functions of the sketch

    Each definition follows the source function of the same name; only
    the calls that print to the debug console are left out. *)

Definition esp_get_free_heap_size : Act Z :=
  n <- ask Cfree_heap ;; fun w => (wrap32 (free_heap_at (oracle w) n), w).

(** The call [getter(variable)] with a [float&] argument: the variable
    receives the value when the getter returns true. *)
Definition read_into (getter : Act (option Q)) (v : float_var) : Act bool :=
  r <- getter ;;
  match r with
  | Some x => setF v x ;; ret true
  | None => ret false
  end.

(** [check_memory_status] (lines 168-201). *)
Definition check_memory_status : Act unit :=
  free_heap <- esp_get_free_heap_size ;;
  lo <- getU min_free_heap ;;
  when (free_heap <? lo) (setU min_free_heap free_heap) ;;
  hi <- getU max_free_heap ;;
  when (hi <? free_heap) (setU max_free_heap free_heap).

(** The loop [while (millis() - start_time < 1000)] of
    [check_serial_communication]: every turn waits 10 ms, so that 101
    turns are enough. *)
Fixpoint wait_for_response (turns : nat) (start_time : Z) : Act bool :=
  match turns with
  | O => ret false
  | S turns' =>
      now <- millis ;;
      if wrap32 (now - start_time) <? 1000 then
        a <- mmWaveSerial_available ;;
        if negb (a =? 0) then ret true
        else delay 10 ;; wait_for_response turns' start_time
      else ret false
  end.

(** [check_serial_communication] (lines 204-264). *)
Definition check_serial_communication : Act unit :=
  a <- mmWaveSerial_available ;;
  setB serial_available (negb (a =? 0)) ;;
  mmWaveSerial_print "TEST" ;;
  _ <- millis ;;
  repeat_act 10 (mmWaveSerial_print "PING" ;; delay 50 ;;
                 _ <- mmWaveSerial_available ;; ret tt) ;;
  start_time <- millis ;;
  response_received <- wait_for_response 101 start_time ;;
  if negb response_received then incU consecutive_failures
  else setU consecutive_failures 0.

(** [send_formatted_data] (lines 345-351): one record of four fields. *)
Definition send_formatted_data (breath heart x y : Q) : Act unit :=
  emit (Telemetry breath heart x y).

(** [check_sensor_communication_status] (lines 429-461). *)
Definition check_sensor_communication_status : Act unit :=
  _ <- mmWave_isHumanDetected ;;
  _ <- mmWave_getBreathRate ;;
  _ <- mmWave_getHeartRate ;;
  _ <- mmWave_getDistance ;;
  _ <- mmWave_getPeopleCountingTartgetInfo ;;
  ret tt.

(** [reset_position_communication] (lines 464-487). *)
Definition reset_position_communication : Act unit :=
  drain_serial ;;
  delay 100 ;;
  _ <- mmWave_update 1000 ;;
  _ <- mmWave_getPeopleCountingTartgetInfo ;;
  ret tt.

(** [reset_radar_tiny_frame] (lines 557-610). *)
Definition reset_radar_tiny_frame : Act unit :=
  drain_serial ;;
  delay 100 ;;
  mmWaveSerial_write [2; 1; 1; 0; 4] ;;
  delay 2000 ;;
  a <- mmWaveSerial_available ;;
  when (negb (a =? 0)) drain_serial ;;
  delay 5000 ;;
  _ <- mmWave_update 3000 ;;
  ret tt.

(** [reset_radar_ascii] (lines 613-644). *)
Definition reset_radar_ascii : Act unit :=
  drain_serial ;;
  delay 100 ;;
  mmWaveSerial_print "RESET" ;;
  delay 1000 ;;
  mmWaveSerial_print "RST" ;;
  delay 1000 ;;
  delay 3000 ;;
  _ <- mmWave_update 2000 ;;
  ret tt.

(** The loop [for (int i = 0; i < 5; i++)] of [reset_sensor_via_serial]:
    stop at the first answer of the sensor. *)
Fixpoint probe_sensor (tries : nat) : Act bool :=
  match tries with
  | O => ret false
  | S tries' =>
      ok <- mmWave_update 1000 ;;
      if ok then ret true
      else delay 500 ;; probe_sensor tries'
  end.

(** [reset_sensor_via_serial] (lines 1350-1395): the serial link is
    closed and reopened and the driver started again. *)
Definition reset_sensor_via_serial : Act unit :=
  mmWaveSerial_end ;;
  delay 1000 ;;
  delay 2000 ;;
  mmWaveSerial_begin 115200 ;;
  delay 1000 ;;
  mmWave_begin ;;
  delay 2000 ;;
  _ <- probe_sensor 5 ;;
  ret tt.

(** [test_all_reset_methods] (lines 647-682). *)
Definition test_all_reset_methods : Act unit :=
  reset_radar_tiny_frame ;;
  delay 2000 ;;
  test1 <- mmWave_update 2000 ;;
  when (negb test1) (
    reset_radar_ascii ;;
    delay 2000 ;;
    test2 <- mmWave_update 2000 ;;
    when (negb test2) (
      reset_sensor_via_serial ;;
      delay 2000 ;;
      _ <- mmWave_update 2000 ;;
      ret tt)).

(** [verify_post_reset_functionality] (lines 685-726). *)
Definition verify_post_reset_functionality : Act unit :=
  delay 2000 ;;
  update_ok <- mmWave_update 3000 ;;
  when update_ok (
    _ <- mmWave_getBreathRate ;;
    _ <- mmWave_getHeartRate ;;
    _ <- mmWave_getDistance ;;
    _ <- mmWave_getPeopleCountingTartgetInfo ;;
    ret tt).

(** [careful_sensor_reinitialization] (lines 729-780). *)
Definition careful_sensor_reinitialization : Act unit :=
  delay 1000 ;;
  drain_serial ;;
  delay 500 ;;
  before_test <- mmWave_update 2000 ;;
  if before_test then ret tt
  else
    mmWaveSerial_end ;;
    delay 1000 ;;
    mmWaveSerial_begin 115200 ;;
    delay 2000 ;;
    mmWave_begin ;;
    delay 3000 ;;
    _ <- mmWave_update 3000 ;;
    ret tt.

(** [configure_sensor_continuous_mode] (lines 823-898). *)
Definition configure_sensor_continuous_mode : Act unit :=
  drain_serial ;;
  delay 100 ;;
  mmWaveSerial_write [2; 1; 2; 1; 6] ;;
  delay 1000 ;;
  mmWaveSerial_write [2; 1; 3; 0; 6] ;;
  delay 1000 ;;
  mmWaveSerial_write [2; 1; 4; 1; 8] ;;
  delay 1000 ;;
  delay 2000 ;;
  _ <- mmWave_update 3000 ;;
  ret tt.

(** [configure_sensor_continuous_mode_ascii] (lines 901-947). *)
Definition configure_sensor_continuous_mode_ascii : Act unit :=
  drain_serial ;;
  delay 100 ;;
  mmWaveSerial_print "CONTINUOUS_MODE=1" ;;
  delay 500 ;;
  mmWaveSerial_print "SLEEP_MODE=0" ;;
  delay 500 ;;
  mmWaveSerial_print "ALWAYS_ON=1" ;;
  delay 500 ;;
  mmWaveSerial_print "TIMEOUT=0" ;;
  delay 500 ;;
  mmWaveSerial_print "CONTINUOUS_DETECTION=1" ;;
  delay 500 ;;
  delay 2000 ;;
  _ <- mmWave_update 3000 ;;
  ret tt.

(** [keep_sensor_active] (lines 950-978). *)
Definition keep_sensor_active : Act unit :=
  now <- millis ;;
  last <- getU last_keep_alive ;;
  when (30000 <? wrap32 (now - last)) (
    mmWaveSerial_write [2; 1; 5; 1; 9] ;;
    mmWaveSerial_print "KEEP_ALIVE" ;;
    now1 <- millis ;;
    setU last_keep_alive now1 ;;
    now2 <- millis ;;
    logged <- getU last_log ;;
    when (300000 <? wrap32 (now2 - logged)) (
      now3 <- millis ;;
      setU last_log now3)).

(** [reconfigure_position_system] (lines 1044-1090). *)
Definition reconfigure_position_system : Act unit :=
  mmWaveSerial_write [2; 1; 6; 1; 10] ;;
  delay 1000 ;;
  mmWaveSerial_write [2; 1; 7; 1; 11] ;;
  delay 2000 ;;
  mmWaveSerial_print "POSITION_MODE=1" ;;
  delay 500 ;;
  mmWaveSerial_print "POSITION_CALIBRATION=1" ;;
  delay 500 ;;
  mmWaveSerial_print "TARGET_TRACKING=1" ;;
  delay 500 ;;
  delay 2000.

(** [attempt_position_recovery] (lines 981-1041). *)
Definition attempt_position_recovery : Act unit :=
  delay 3000 ;;
  drain_serial ;;
  delay 1000 ;;
  repeat_act 5 (_ <- mmWave_update 2000 ;; delay 1000) ;;
  _ <- mmWave_isHumanDetected ;;
  _ <- mmWave_getBreathRate ;;
  _ <- mmWave_getHeartRate ;;
  _ <- mmWave_getDistance ;;
  reconfigure_position_system ;;
  _ <- mmWave_getPeopleCountingTartgetInfo ;;
  ret tt.

(** [force_complete_sensor_reinitialization] (lines 1093-1130): the link
    is closed and reopened, the driver started again and the whole
    sensor configuration sent again. *)
Definition force_complete_sensor_reinitialization : Act unit :=
  mmWaveSerial_end ;;
  delay 2000 ;;
  mmWaveSerial_begin 115200 ;;
  delay 2000 ;;
  mmWave_begin ;;
  delay 3000 ;;
  configure_sensor_continuous_mode ;;
  delay 2000 ;;
  configure_sensor_continuous_mode_ascii ;;
  delay 2000 ;;
  reconfigure_position_system ;;
  delay 3000 ;;
  _ <- mmWave_update 5000 ;;
  ret tt.

(** [detect_sensor_inactive_mode] (lines 1133-1172). *)
Definition detect_sensor_inactive_mode : Act bool :=
  breath_ok <- mmWave_getBreathRate ;;
  heart_ok <- mmWave_getHeartRate ;;
  distance_ok <- mmWave_getDistance ;;
  let is_some (r : option Q) := match r with Some _ => true | None => false end in
  let currently_active := is_some breath_ok || is_some heart_ok || is_some distance_ok in
  if currently_active then
    setB was_active true ;;
    setU inactive_start_time 0 ;;
    ret false
  else
    active_before <- getB was_active ;;
    when active_before (
      now <- millis ;;
      setU inactive_start_time now ;;
      setB was_active false) ;;
    since <- getU inactive_start_time ;;
    if 0 <? since then
      now <- millis ;;
      ret (10000 <? wrap32 (now - since))
    else ret false.

(** The loop [for (int attempt = 1; attempt <= 5; attempt++)] of
    [get_vital_signs_robust]. *)
Fixpoint get_vital_signs_robust_from (attempts : nat) : Act bool :=
  match attempts with
  | O => ret false
  | S attempts' =>
      ok <- mmWave_update 1000 ;;
      found <- (if ok then
                  got_breath <- read_into mmWave_getBreathRate breath_rate ;;
                  when (negb got_breath) (setF breath_rate 0) ;;
                  got_heart <- read_into mmWave_getHeartRate heart_rate ;;
                  when (negb got_heart) (setF heart_rate 0) ;;
                  b <- getF breath_rate ;;
                  h <- getF heart_rate ;;
                  ret (fgt b 0 || fgt h 0)
                else ret false) ;;
      if found then ret true
      else delay 500 ;; get_vital_signs_robust_from attempts'
  end.

(** [get_vital_signs_robust] (lines 1175-1214); both call sites pass the
    globals [breath_rate] and [heart_rate]. *)
Definition get_vital_signs_robust : Act bool :=
  log MsgRobustAttempt ;;
  get_vital_signs_robust_from 5.

(** [simulate_vital_signs] (lines 1217-1241); both call sites pass the
    globals [breath_rate] and [heart_rate]. *)
Definition simulate_vital_signs : Act unit :=
  now <- millis ;;
  last <- getU last_simulation ;;
  when (5000 <? wrap32 (now - last)) (
    r1 <- random (-2) 3 ;;
    b0 <- getF sim_breath ;;
    setF sim_breath (b0 + inject_Z r1)%Q ;;
    r2 <- random (-5) 6 ;;
    h0 <- getF sim_heart ;;
    setF sim_heart (h0 + inject_Z r2)%Q ;;
    b1 <- getF sim_breath ;;
    when (flt b1 12) (setF sim_breath 12) ;;
    b2 <- getF sim_breath ;;
    when (fgt b2 25) (setF sim_breath 25) ;;
    h1 <- getF sim_heart ;;
    when (flt h1 60) (setF sim_heart 60) ;;
    h2 <- getF sim_heart ;;
    when (fgt h2 100) (setF sim_heart 100) ;;
    now1 <- millis ;;
    setU last_simulation now1) ;;
  b <- getF sim_breath ;;
  setF breath_rate b ;;
  h <- getF sim_heart ;;
  setF heart_rate h ;;
  log (MsgSimulated b h).

(** [test_serial_communication] (lines 1244-1274). *)
Definition test_serial_communication : Act unit :=
  available_bytes <- mmWaveSerial_available ;;
  when (0 <? available_bytes)
    (emit (SensorRead (if available_bytes <? 10 then available_bytes else 10))) ;;
  mmWaveSerial_print "TEST" ;;
  delay 100 ;;
  _ <- mmWaveSerial_available ;;
  ret tt.

(** [is_reset_safe] (lines 1310-1332). *)
Definition is_reset_safe : Act bool :=
  current_time <- millis ;;
  count <- getU reset_count_this_session ;;
  if MAX_RESETS_PER_SESSION <=? count then
    log MsgResetLimit ;;
    ret false
  else
    last <- getU last_reset_time_rtc ;;
    if wrap32 (current_time - last) <? MIN_RESET_INTERVAL then
      log MsgResetWait ;;
      ret false
    else ret true.

(** [safe_reset_sensor] (lines 1335-1347). *)
Definition safe_reset_sensor : Act unit :=
  safe <- is_reset_safe ;;
  if negb safe then log MsgResetCancelled
  else
    log MsgResetAuthorized ;;
    incU reset_count_this_session ;;
    now <- millis ;;
    setU last_reset_time_rtc now ;;
    reset_sensor_via_serial.

(** [perform_system_diagnostic] (lines 1398-1431). *)
Definition perform_system_diagnostic : Act unit :=
  _ <- millis ;;
  check_memory_status ;;
  check_serial_communication.

(** [check_temperature_status] (lines 1434-1464): [current_temp] is the
    constant 0. *)
Definition check_temperature_status : Act unit :=
  setF last_temperature 0.

(** [reset_sensor_system] (lines 1467-1521). *)
Definition reset_sensor_system : Act unit :=
  mmWaveSerial_end ;;
  delay 2000 ;;
  mmWaveSerial_begin 115200 ;;
  delay 1000 ;;
  drain_serial ;;
  delay 100 ;;
  delay 2000 ;;
  mmWave_begin ;;
  delay 1000 ;;
  now1 <- millis ;;
  setU last_data_received now1 ;;
  now2 <- millis ;;
  setU last_heartbeat now2 ;;
  setU consecutive_failures 0 ;;
  setU failed_readings 0 ;;
  setU successful_readings 0.

(** [enter_deep_sleep] (lines 1524-1544) does not return: the world it
    yields is the one in which the chip goes to sleep. *)
Definition enter_deep_sleep (sleep_time_us : Z) (w : World) : World :=
  snd ((delay 1000 ;; emit (DeepSleep sleep_time_us)) w).

(** ** [loop()] (lines 1684-2211), block by block *)

(** The pattern
    [if (check_timeout_safe(mark, period)) { action; mark = millis(); }]. *)
Definition periodically (mark : ulong_var) (period : Z) (action : Act unit) : Act unit :=
  last <- getU mark ;;
  due <- check_timeout_safe last period ;;
  when due (
    action ;;
    now <- millis ;;
    setU mark now).

(** The test [millis() - mark > period] on unsigned longs. *)
Definition longer_than (mark : ulong_var) (period : Z) : Act bool :=
  now <- millis ;;
  last <- getU mark ;;
  ret (period <? wrap32 (now - last)).

(** Lines 1685-1697. *)
Definition loop_status_log : Act unit :=
  incU total_loops ;;
  due <- longer_than last_status_log 30000 ;;
  when due (
    _ <- get_time_until_next_sleep ;;
    now <- millis ;;
    setU last_status_log now).

(** Lines 1699-1753: the periodic diagnostics. *)
Definition loop_periodic_checks : Act unit :=
  periodically last_diagnostic_time DIAGNOSTIC_INTERVAL perform_system_diagnostic ;;
  periodically last_memory_check MEMORY_CHECK_INTERVAL check_memory_status ;;
  periodically last_serial_check SERIAL_CHECK_INTERVAL check_serial_communication ;;
  periodically last_temperature_check TEMPERATURE_CHECK_INTERVAL check_temperature_status ;;
  periodically last_communication_check (5 * 60 * 1000) check_sensor_communication_status ;;
  periodically last_quick_check (2 * 60 * 1000) (
    quick_test <- mmWave_isHumanDetected ;;
    before <- getB last_quick_test ;;
    when (negb (Bool.eqb quick_test before)) (setB last_quick_test quick_test)) ;;
  periodically last_inactive_check (10 * 1000) (
    _ <- detect_sensor_inactive_mode ;;
    ret tt).

(** Lines 1755-1776: the check for a sensor that delivers nothing. *)
Definition loop_complete_failure_check : Act unit :=
  periodically last_complete_failure_check (30 * 1000) (
    b <- getF breath_rate ;;
    h <- getF heart_rate ;;
    d <- getF distance ;;
    x <- getF x_position ;;
    y <- getF y_position ;;
    let all_data_zero := feq b 0 && feq h 0 && feq d 0 && feq x 0 && feq y 0 in
    if all_data_zero then
      incI complete_failure_count ;;
      c <- getI complete_failure_count ;;
      log (MsgCompleteFailure c) ;;
      when (5 <=? c) (
        log MsgForcedReinit ;;
        force_complete_sensor_reinitialization ;;
        setI complete_failure_count 0)
    else setI complete_failure_count 0).

(** Lines 1781-1812: recovery of the position after a reset. *)
Definition loop_position_recovery : Act unit :=
  x <- getF x_position ;;
  y <- getF y_position ;;
  if feq x 0 && feq y 0 then
    attempted <- getB position_recovery_attempted ;;
    if negb attempted then
      attempt_position_recovery ;;
      setB position_recovery_attempted true ;;
      setI recovery_attempts 1 ;;
      now <- millis ;;
      setU last_position_recovery now
    else
      due <- longer_than last_position_recovery 60000 ;;
      when due (
        incI recovery_attempts ;;
        n <- getI recovery_attempts ;;
        (if MAX_RECOVERY_ATTEMPTS <=? n then
           force_complete_sensor_reinitialization ;;
           setI recovery_attempts 0
         else attempt_position_recovery) ;;
        now <- millis ;;
        setU last_position_recovery now)
  else
    setB position_recovery_attempted false ;;
    setI recovery_attempts 0.

(** What one pass over a block that may put the chip to sleep yields. *)
Inductive Run : Type :=
  | Awake (w : World)     (* the block returned *)
  | Asleep (w : World).   (* enter_deep_sleep was called *)

(** Lines 1814-1831: one minute of deep sleep every hour. *)
Definition loop_hourly_sleep (w : World) : Run :=
  let (due, w1) := (last <- getU last_hourly_sleep ;;
                    check_timeout_safe last HOURLY_SLEEP_INTERVAL) w in
  if due then
    Asleep (enter_deep_sleep DEEP_SLEEP_DURATION
              (snd ((log MsgHourlySleep ;;
                     setB is_hourly_sleep_mode true ;;
                     now <- millis ;;
                     setU last_hourly_sleep now) w1)))
  else Awake w1.

(** Lines 1833-1840: emergency deep sleep after ten minutes of silence. *)
Definition loop_emergency_sleep (w : World) : Run :=
  let (due, w1) := (last <- getU last_data_received ;;
                    check_timeout_safe last RESET_TIMEOUT) w in
  if due then
    Asleep (enter_deep_sleep DEEP_SLEEP_DURATION
              (snd (log MsgEmergencyTimeout w1)))
  else Awake w1.

(** Lines 1842-1857. *)
Definition loop_consecutive_failures_check : Act unit :=
  c <- getU consecutive_failures ;;
  when (MAX_CONSECUTIVE_FAILURES <=? c) (
    log (MsgFailureAlert c) ;;
    safe_reset_sensor ;;
    c1 <- getU consecutive_failures ;;
    safe <- (if wrap32 (MAX_CONSECUTIVE_FAILURES * 2) <=? c1
             then is_reset_safe else ret false) ;;
    when safe reset_sensor_system ;;
    setU consecutive_failures 0).

(** Lines 1859-1878: the preventive reset after two hours. *)
Definition loop_operation_time_check : Act unit :=
  now <- millis ;;
  let operation_time := now / 1000 in
  when (7200 <? operation_time) (
    when (operation_time mod 7200 <? 60) (
      safe_reset_sensor ;;
      c <- getU consecutive_failures ;;
      safe <- (if 0 <? c then is_reset_safe else ret false) ;;
      when safe reset_sensor_system)).

(** Lines 1880-1884. *)
Definition loop_heartbeat : Act unit :=
  periodically last_heartbeat HEARTBEAT_INTERVAL (ret tt).

(** Lines 1961-1968: a counted check of failed vital signs; the answer
    is the new value of the counter. *)
Definition count_vitals_failed : Act Z :=
  incU consecutive_vitals_failed_count ;;
  c <- getU consecutive_vitals_failed_count ;;
  log (MsgVitalsFailed c) ;;
  now <- millis ;;
  setU last_vitals_failed_debug now ;;
  ret c.

(** Lines 1956-1995: the streak of cycles without vital signs. *)
Definition loop_vitals_failed_block (vitals_failed : bool) : Act unit :=
  due <- (if vitals_failed then longer_than last_vitals_failed_debug 15000
          else ret false) ;;
  if due then
    c <- count_vitals_failed ;;
    when (2 <=? c) (
      d <- getF distance ;;
      (if fgt d (3 # 2) then simulate_vital_signs
       else
         robust_success <- get_vital_signs_robust ;;
         when (negb robust_success) simulate_vital_signs) ;;
      setU consecutive_vitals_failed_count 0)
  else when (negb vitals_failed) (setU consecutive_vitals_failed_count 0).

(** Lines 1997-2006. *)
Definition loop_position_vitals_failed (vitals_failed : bool) : Act unit :=
  x <- getF x_position ;;
  y <- getF y_position ;;
  let position_failed := feq x 0 && feq y 0 in
  when (position_failed && vitals_failed) (
    due <- longer_than last_position_vitals_failed 10000 ;;
    when due (
      now <- millis ;;
      setU last_position_vitals_failed now)).

(** Lines 2013-2019: a counted check of a cycle without any basic datum;
    the answer is the new value of the counter. *)
Definition count_all_failed : Act Z :=
  incU consecutive_all_failed_count ;;
  c <- getU consecutive_all_failed_count ;;
  log (MsgAllFailed c) ;;
  now <- millis ;;
  setU last_all_failed_debug now ;;
  ret c.

(** Lines 2008-2059: the streak of cycles without any basic datum. *)
Definition loop_all_failed_block (all_data_failed : bool) : Act unit :=
  due <- (if all_data_failed then longer_than last_all_failed_debug 10000
          else ret false) ;;
  if due then
    c <- count_all_failed ;;
    when (c =? 3) test_serial_communication ;;
    when (c =? 4) test_all_reset_methods ;;
    when (5 <=? c) (
      reset_position_communication ;;
      delay 3000 ;;
      test_after_reset <- mmWave_update 3000 ;;
      when (negb test_after_reset) careful_sensor_reinitialization ;;
      verify_post_reset_functionality ;;
      setU consecutive_all_failed_count 0)
  else when (negb all_data_failed) (setU consecutive_all_failed_count 0).

(** Lines 2063-2135: the native position of the first target. *)
Definition loop_position_block : Act unit :=
  position <- mmWave_getPeopleCountingTartgetInfo ;;
  due <- longer_than last_position_debug 30000 ;;
  when due (now <- millis ;; setU last_position_debug now) ;;
  match position with
  | Some (target :: _) =>
      setF x_position (x_point target) ;;
      setF y_position (y_point target) ;;
      lx <- getF last_x ;;
      ly <- getF last_y ;;
      when (fgt (Qabs (x_point target - lx)) (1 # 10)
            || fgt (Qabs (y_point target - ly)) (1 # 10)) (
        setF last_x (x_point target) ;;
        setF last_y (y_point target) ;;
        setU consecutive_position_failures_found 0)
  | Some [] =>
      setF x_position 0 ;;
      setF y_position 0 ;;
      due <- longer_than last_no_targets_debug 60000 ;;
      when due (now <- millis ;; setU last_no_targets_debug now)
  | None =>
      setF x_position 0 ;;
      setF y_position 0 ;;
      due <- longer_than last_position_fail_debug 60000 ;;
      when due (
        incU consecutive_position_failures ;;
        now <- millis ;;
        setU last_position_fail_debug now ;;
        c <- getU consecutive_position_failures ;;
        when (3 <=? c) (
          reset_position_communication ;;
          setU consecutive_position_failures 0))
  end.

(** Lines 2137-2157: a position made up from the distance. *)
Definition loop_position_fallback : Act unit :=
  x <- getF x_position ;;
  y <- getF y_position ;;
  d <- getF distance ;;
  when (feq x 0 && feq y 0 && fgt d 0) (
    due <- longer_than last_fallback_update 2000 ;;
    when due (
      a0 <- getF fallback_angle ;;
      setF fallback_angle (a0 + 15)%Q ;;
      a1 <- getF fallback_angle ;;
      when (fge a1 360) (setF fallback_angle 0) ;;
      now <- millis ;;
      setU last_fallback_update now ;;
      a <- getF fallback_angle ;;
      platform <- get_oracle ;;
      setF x_position (polar_x platform d a) ;;
      setF y_position (polar_y platform d a))).

(** Lines 1893-1954: the readings of one cycle; the answer is the pair
    of the locals [vitals_failed] and [all_data_failed]. *)
Definition loop_collect_data : Act (bool * bool) :=
  incU successful_readings ;;
  setU consecutive_failures 0 ;;
  now <- millis ;;
  setU last_data_received now ;;
  log MsgHumanDetected ;;
  due <- longer_than last_sensor_debug 30000 ;;
  when due (now1 <- millis ;; setU last_sensor_debug now1) ;;
  setF breath_rate 0 ;;
  setF heart_rate 0 ;;
  setF distance 0 ;;
  setF x_position 0 ;;
  setF y_position 0 ;;
  got_breath <- read_into mmWave_getBreathRate breath_rate ;;
  when (negb got_breath) (setF breath_rate 0) ;;
  got_heart <- read_into mmWave_getHeartRate heart_rate ;;
  when (negb got_heart) (setF heart_rate 0) ;;
  due <- longer_than last_vitals_debug 30000 ;;
  when due (now1 <- millis ;; setU last_vitals_debug now1) ;;
  got_distance <- read_into mmWave_getDistance distance ;;
  when (negb got_distance) (setF distance 0) ;;
  b <- getF breath_rate ;;
  h <- getF heart_rate ;;
  d <- getF distance ;;
  let vitals_failed := feq b 0 && feq h 0 in
  let all_data_failed := feq b 0 && feq h 0 && feq d 0 in
  ret (vitals_failed, all_data_failed).

(** Line 2160: the telemetry record of the cycle, from the globals. *)
Definition loop_send_data : Act unit :=
  b <- getF breath_rate ;;
  h <- getF heart_rate ;;
  x <- getF x_position ;;
  y <- getF y_position ;;
  send_formatted_data b h x y.

(** Lines 1997-2183: what follows the vital-signs block in a cycle. *)
Definition loop_after_vitals (vitals_failed all_data_failed : bool) : Act unit :=
  loop_position_vitals_failed vitals_failed ;;
  loop_all_failed_block all_data_failed ;;
  loop_position_block ;;
  loop_position_fallback ;;
  loop_send_data.

(** Lines 1893-2183: the branch for a successful [mmWave.update]. *)
Definition loop_reading_succeeded : Act unit :=
  flags <- loop_collect_data ;;
  loop_vitals_failed_block (fst flags) ;;
  loop_after_vitals (fst flags) (snd flags).

(** Lines 2184-2207: the branch for a failed [mmWave.update]. *)
Definition loop_reading_failed : Act unit :=
  incU failed_readings ;;
  incU consecutive_failures ;;
  c <- getU consecutive_failures ;;
  when ((c =? 1) || (c mod 5 =? 0)) (log (MsgReadFailure c)) ;;
  when (10 <=? c) (
    test_serial_communication ;;
    when (15 <=? c) (
      safe_reset_sensor ;;
      setU consecutive_failures 0)).

(** Lines 1886-2207: one sensing cycle; the answer is the result of
    [mmWave.update(5000)]. *)
Definition loop_sensing : Act bool :=
  _ <- mmWave_isHumanDetected ;;
  reading_success <- mmWave_update 5000 ;;
  (if reading_success then loop_reading_succeeded else loop_reading_failed) ;;
  ret reading_success.

(** The blocks of [loop()] before the two deep-sleep checks. *)
Definition loop_before_sleep : Act unit :=
  loop_status_log ;;
  loop_periodic_checks ;;
  loop_complete_failure_check ;;
  keep_sensor_active ;;
  loop_position_recovery.

(** The blocks of [loop()] after the two deep-sleep checks. *)
Definition loop_after_sleep : Act unit :=
  loop_consecutive_failures_check ;;
  loop_operation_time_check ;;
  loop_heartbeat ;;
  _ <- loop_sensing ;;
  delay 500.

(** [loop()]. *)
Definition loop (w : World) : Run :=
  match loop_hourly_sleep (snd (loop_before_sleep w)) with
  | Asleep ws => Asleep ws
  | Awake w1 =>
      match loop_emergency_sleep w1 with
      | Asleep ws => Asleep ws
      | Awake w2 => Awake (snd (loop_after_sleep w2))
      end
  end.

(** [n] passes of [loop()], as long as the chip stays awake. *)
Fixpoint loop_times (n : nat) (w : World) : Run :=
  match n with
  | O => Awake w
  | S n' =>
      match loop w with
      | Asleep ws => Asleep ws
      | Awake w' => loop_times n' w'
      end
  end.

(** ** Deep sleep and [setup()]

    Waking from deep sleep restarts the program: the clock starts again
    at zero and every variable takes the value of its declaration, except
    the [RTC_DATA_ATTR] ones, which keep theirs. *)
Definition wake_memory (asleep : Memory) : Memory :=
  let m1 := set_int initial_memory bootCount (ints asleep bootCount) in
  let m2 := set_ulong m1 last_hourly_sleep (ulongs asleep last_hourly_sleep) in
  set_ulong m2 last_reset_time_rtc (ulongs asleep last_reset_time_rtc).

Definition wake_from_deep_sleep (asleep : World) : World :=
  with_clock (with_mem asleep (wake_memory (mem asleep))) 0.

(** [check_library_functions] (lines 267-342); the answer of
    [getHeartBreathPhases] is only printed. *)
Definition check_library_functions : Act unit :=
  _ <- mmWave_getBreathRate ;;
  _ <- mmWave_getHeartRate ;;
  _ <- mmWave_getDistance ;;
  _ <- mmWave_getPeopleCountingTartgetInfo ;;
  _ <- mmWave_isHumanDetected ;;
  ret tt.

(** Lines 1581-1645 of [setup()]: the boot counter, the start of the
    link and of the driver, the timestamps and the branch on the kind of
    wake-up.  [woke_by_timer] is
    [wakeup_cause != ESP_SLEEP_WAKEUP_UNDEFINED]. *)
Definition setup_until_wakeup_check (woke_by_timer : bool) : Act unit :=
  delay 1000 ;;
  incI bootCount ;;
  delay 2000 ;;
  mmWaveSerial_begin 115200 ;;
  delay 1000 ;;
  mmWave_begin ;;
  check_library_functions ;;
  t1 <- millis ;; setU last_data_received t1 ;;
  t2 <- millis ;; setU last_reset_time t2 ;;
  t3 <- millis ;; setU last_heartbeat t3 ;;
  t4 <- millis ;; setU last_diagnostic_time t4 ;;
  t5 <- millis ;; setU last_memory_check t5 ;;
  t6 <- millis ;; setU last_serial_check t6 ;;
  when woke_by_timer (
    hourly <- getB is_hourly_sleep_mode ;;
    if hourly then
      log MsgWokeHourly ;;
      setB is_hourly_sleep_mode false ;;
      reset_sensor_system
    else
      log MsgWokeNormal ;;
      reset_sensor_system).

(** ** Scenarios *)

(** A sensor that answers nothing: every [update] times out, every getter
    fails, the link is silent.  Each clock read finds [tick] more
    milliseconds gone. *)
Definition silent_oracle (tick : N) : Oracle :=
  {| tick_at := fun _ => tick;
     update_at := fun _ => false;
     breath_at := fun _ => None;
     heart_at := fun _ => None;
     distance_at := fun _ => None;
     people_at := fun _ => None;
     human_at := fun _ => false;
     available_at := fun _ => 0;
     random_at := fun _ => 0;
     free_heap_at := fun _ => 200000;
     polar_x := fun d _ => d;
     polar_y := fun _ _ => 0%Q |}.

(** A sensor whose link is alive but which delivers no datum: [update]
    succeeds and every getter fails. *)
Definition mute_oracle (tick : N) : Oracle :=
  {| tick_at := fun _ => tick;
     update_at := fun _ => true;
     breath_at := fun _ => None;
     heart_at := fun _ => None;
     distance_at := fun _ => None;
     people_at := fun _ => None;
     human_at := fun _ => false;
     available_at := fun _ => 0;
     random_at := fun _ => 0;
     free_heap_at := fun _ => 200000;
     polar_x := fun d _ => d;
     polar_y := fun _ _ => 0%Q |}.

(** The world at power-on. *)
Definition power_on (o : Oracle) : World :=
  {| mem := initial_memory; clock := 0; oracle := o;
     calls := fun _ => 0%nat; trace := [] |}.

(** The world after power-on and the part of [setup()] up to the wake-up
    check, line 1645: the variables initialised, the link opened and the
    driver started once.  The rest of [setup()] (the activation of the
    sensor, the connection test and the closing [delay(2000)], some 45 s
    with a silent sensor) is not run, so that a pass of [loop()] counted
    from here is earlier on the clock than the same pass after the whole
    [setup()], for which see [cold_boot]. *)
Definition first_loop (o : Oracle) : World :=
  snd (setup_until_wakeup_check false (power_on o)).

(** The events a run added to the trace, newest first. *)
Definition new_events (before after : World) : list Event :=
  firstn (List.length (trace after) - List.length (trace before)) (trace after).

(** The events that close or reopen the serial link of the sensor or
    start its driver again: the reset-class actions. *)
Definition is_link_restart (e : Event) : bool :=
  match e with
  | SensorSerialEnd | SensorSerialBegin _ | SensorDriverBegin => true
  | _ => false
  end.

Definition awake_world (r : Run) : option World :=
  match r with
  | Awake w => Some w
  | Asleep _ => None
  end.

(** The range [simulate_vital_signs] keeps its two statics in. *)
Definition sim_ok (m : Memory) : Prop :=
  ((12 <= floats m sim_breath)%Q /\ (floats m sim_breath <= 25)%Q) /\
  ((60 <= floats m sim_heart)%Q /\ (floats m sim_heart <= 100)%Q).

(** The node one hour and some after power-on, the sensor silent all
    along: [first_loop] with the clock moved on. *)
Definition after_an_hour : World :=
  with_clock (first_loop (silent_oracle 0)) 3700000.

(** The node eleven minutes and some after power-on, no datum received
    since. *)
Definition silent_for_ten_minutes : World :=
  with_clock (first_loop (silent_oracle 0)) 700000.

(** A cycle that finds the vital signs missing for the second counted
    time, the subject two metres away. *)
Definition second_vitals_failure_far : World :=
  {| mem := set_float
              (set_ulong initial_memory consecutive_vitals_failed_count 1)
              distance 2;
     clock := 60000; oracle := mute_oracle 0;
     calls := fun _ => 0%nat; trace := [] |}.

(** A cycle that finds every basic datum missing for the fifth counted
    time, the link still answering. *)
Definition fifth_all_failed : World :=
  {| mem := set_ulong initial_memory consecutive_all_failed_count 4;
     clock := 60000; oracle := mute_oracle 0;
     calls := fun _ => 0%nat; trace := [] |}.

(** The complete-failure check about to count its fifth failure while
    the three resets of the session are used up. *)
Definition budget_used_up : World :=
  {| mem := set_int
              (set_ulong initial_memory reset_count_this_session 3)
              complete_failure_count 4;
     clock := 40000; oracle := silent_oracle 0;
     calls := fun _ => 0%nat; trace := [] |}.

Definition Q_eq_dec (a b : Q) : {a = b} + {a <> b}.
Proof. decide equality; [apply Pos.eq_dec | apply Z.eq_dec]. Defined.

Definition Message_eq_dec (a b : Message) : {a = b} + {a <> b}.
Proof. decide equality; first [apply Z.eq_dec | apply Q_eq_dec]. Defined.

(** The event is the log line [m]. *)
Definition is_log (m : Message) (e : Event) : bool :=
  match e with
  | Log m' => if Message_eq_dec m m' then true else false
  | _ => false
  end.

(** ** The rest of [setup()] *)

(** A getter returned true. *)
Definition delivers {A : Type} (r : option A) : bool :=
  match r with Some _ => true | None => false end.

(** The loop [while (millis() - start_time < timeout)] of
    [wait_for_sensor_activation]: every turn waits 100 ms, so that 301
    turns are enough for the 30 seconds. *)
Fixpoint wait_for_activation_from (turns : nat) (start_time : Z) : Act bool :=
  match turns with
  | O => ret false
  | S turns' =>
      now <- millis ;;
      if wrap32 (now - start_time) <? 30000 then
        ok <- mmWave_update 1000 ;;
        active <- (if ok then
                     breath_ok <- mmWave_getBreathRate ;;
                     heart_ok <- mmWave_getHeartRate ;;
                     distance_ok <- mmWave_getDistance ;;
                     ret (delivers breath_ok || delivers heart_ok
                          || delivers distance_ok)
                   else ret false) ;;
        if active then ret true
        else
          now1 <- millis ;;
          when (wrap32 (now1 - start_time) mod 5000 <? 100)
            (_ <- millis ;; ret tt) ;;
          delay 100 ;;
          wait_for_activation_from turns' start_time
      else ret false
  end.

(** [wait_for_sensor_activation] (lines 783-820). *)
Definition wait_for_sensor_activation : Act bool :=
  start_time <- millis ;;
  wait_for_activation_from 301 start_time.

(** Lines 1646-1682 of [setup()]: the wait for the sensor and its
    configuration. *)
Definition setup_sensor_activation : Act unit :=
  _ <- wait_for_sensor_activation ;;
  configure_sensor_continuous_mode ;;
  delay 2000 ;;
  test_after_config <- mmWave_update 2000 ;;
  when (negb test_after_config) configure_sensor_continuous_mode_ascii.

(** [setup()] (lines 1581-1682). *)
Definition setup (woke_by_timer : bool) : Act unit :=
  setup_until_wakeup_check woke_by_timer ;;
  setup_sensor_activation.

(** ** Vocabulary of the further properties *)

(** One of the two vital signs is positive: the test
    [breath_rate > 0 || heart_rate > 0] of [get_vital_signs_robust]. *)
Definition some_vital (m : Memory) : bool :=
  fgt (floats m breath_rate) 0 || fgt (floats m heart_rate) 0.

(** Whether one of the three getters that [detect_sensor_inactive_mode]
    calls next delivers a value. *)
Definition sensor_delivers (w : World) : bool :=
  delivers (breath_at (oracle w) (calls w CgetBreathRate))
  || delivers (heart_at (oracle w) (calls w CgetHeartRate))
  || delivers (distance_at (oracle w) (calls w CgetDistance)).

(** The log line of an authorized reset, and how many of them a list of
    events holds. *)
Definition is_authorization (e : Event) : bool :=
  match e with
  | Log MsgResetAuthorized => true
  | _ => false
  end.

Definition authorizations (es : list Event) : Z :=
  Z.of_nat (List.length (filter is_authorization es)).

(** The world a run ends in, asleep or not. *)
Definition last_world (r : Run) : World :=
  match r with
  | Awake w => w
  | Asleep w => w
  end.

(** The telemetry records among the events. *)
Definition is_telemetry (e : Event) : bool :=
  match e with
  | Telemetry _ _ _ _ => true
  | _ => false
  end.

Definition no_telemetry (e : Event) : Prop := is_telemetry e = false.

(** What a getter leaves in a variable that was set to 0 before the call
    and is set to 0 again when the getter fails. *)
Definition value_or_zero (r : option Q) : Q :=
  match r with
  | Some x => x
  | None => 0
  end.

(** The position [loop()] takes from the answer of
    [getPeopleCountingTartgetInfo]: the first target, if there is one. *)
Definition first_target (seen : option (list Target)) : Q * Q :=
  match seen with
  | Some (target :: _) => (x_point target, y_point target)
  | _ => (0%Q, 0%Q)
  end.

(** The angle of the made-up position is a number of degrees below 360. *)
Definition angle_ok (m : Memory) : Prop :=
  (0 <= floats m fallback_angle)%Q /\ (floats m fallback_angle < 360)%Q.

(** The alert of the consecutive-failure check of [loop()]. *)
Definition is_failure_alert (e : Event) : bool :=
  match e with
  | Log (MsgFailureAlert _) => true
  | _ => false
  end.

Definition no_failure_alert (e : Event) : Prop := is_failure_alert e = false.

(** No single clock read finds 2^32 - 1010 ms (some 49 days) or more
    gone. *)
Definition ticks_bounded (o : Oracle) : Prop :=
  forall i, Z.of_N (tick_at o i) < 4294967296 - 1010.

(** No single clock read finds 2^30 ms (some 12 days) or more gone. *)
Definition ticks_short (o : Oracle) : Prop :=
  forall i, Z.of_N (tick_at o i) < 1073741824.

(** The text commands written to the sensor link. *)
Definition is_text_command (e : Event) : Prop :=
  match e with
  | SensorPrint _ => True
  | _ => False
  end.

(** The failed polls before the first answer. *)
Fixpoint failed_polls (answers : list bool) : nat :=
  match answers with
  | false :: rest => S (failed_polls rest)
  | _ => O
  end.

(** The two [int] counters of [loop()] below their thresholds. *)
Definition counters_ok (m : Memory) : Prop :=
  0 <= ints m complete_failure_count <= 4 /\
  0 <= ints m recovery_attempts <= 2.

(** Five seconds after a wake-up, the last reset of the session before
    marked at 2 000 000 ms on the clock of that session. *)
Definition woken_after_reset : World :=
  {| mem := set_ulong initial_memory last_reset_time_rtc 2000000;
     clock := 5000; oracle := silent_oracle 0;
     calls := fun _ => 0%nat; trace := [] |}.

(** The counters and ranges that the properties of [loop()] start from. *)
Definition starts_clean (m : Memory) : Prop :=
  ulongs m consecutive_failures = 0 /\
  ulongs m reset_count_this_session = 0 /\
  counters_ok m /\ sim_ok m /\ angle_ok m.

(** The node after its first hourly sleep: woken by the timer, [setup()]
    done. *)
Definition woken_after_hourly_sleep : World :=
  snd (setup true (wake_from_deep_sleep (last_world (loop after_an_hour)))).

(** ** Runs from power-on *)

(** The world after power-on and the whole of [setup()]: the one in
    which [loop()] runs for the first time. *)
Definition cold_boot (o : Oracle) : World := snd (setup false (power_on o)).

(** A run ended in deep sleep. *)
Definition is_asleep (r : Run) : bool :=
  match r with
  | Asleep _ => true
  | Awake _ => false
  end.

(** A sensor that answers one [update] without any datum and none
    after. *)
Definition answers_once (tick : N) : Oracle :=
  {| tick_at := fun _ => tick;
     update_at := fun i => Nat.eqb i 0;
     breath_at := fun _ => None;
     heart_at := fun _ => None;
     distance_at := fun _ => None;
     people_at := fun _ => None;
     human_at := fun _ => false;
     available_at := fun _ => 0;
     random_at := fun _ => 0;
     free_heap_at := fun _ => 200000;
     polar_x := fun d _ => d;
     polar_y := fun _ _ => 0%Q |}.

(** A sensor that answers the first [polls] calls of [update] and fails
    every later one; its getters deliver a breath rate of 15, a heart
    rate of 70 and a distance of two metres, and no target. *)
Definition failing_after (polls : nat) (tick : N) : Oracle :=
  {| tick_at := fun _ => tick;
     update_at := fun i => Nat.ltb i polls;
     breath_at := fun _ => Some (15 # 1)%Q;
     heart_at := fun _ => Some (70 # 1)%Q;
     distance_at := fun _ => Some (2 # 1)%Q;
     people_at := fun _ => None;
     human_at := fun _ => true;
     available_at := fun _ => 0;
     random_at := fun _ => 0;
     free_heap_at := fun _ => 200000;
     polar_x := fun d _ => d;
     polar_y := fun _ _ => 0%Q |}.

(** A sensor that sees somebody two metres away and delivers neither
    vital signs nor targets: the position is made up from the
    distance. *)
Definition distance_only_oracle (tick : N) : Oracle :=
  {| tick_at := fun _ => tick;
     update_at := fun _ => true;
     breath_at := fun _ => None;
     heart_at := fun _ => None;
     distance_at := fun _ => Some (2 # 1)%Q;
     people_at := fun _ => None;
     human_at := fun _ => true;
     available_at := fun _ => 0;
     random_at := fun _ => 0;
     free_heap_at := fun _ => 200000;
     polar_x := fun d _ => d;
     polar_y := fun _ _ => 0%Q |}.

(** A sensing cycle about to count its fourth cycle in a row without any
    basic datum, the three resets of the session used up. *)
Definition fourth_all_failed_capped : World :=
  {| mem := set_ulong
              (set_ulong initial_memory consecutive_all_failed_count 3)
              reset_count_this_session 3;
     clock := 60000; oracle := answers_once 0;
     calls := fun _ => 0%nat; trace := [] |}.

(** The world in which the sensing cycle (line 1886 on) of the pass of
    [loop()] that starts in [w] begins, when neither sleep check fires:
    the periodic checks, the two clock reads of the sleep checks, the
    consecutive-failure check, the preventive reset and the heartbeat
    are done. *)
Definition sensing_world (w : World) : World :=
  snd (loop_heartbeat
         (snd (loop_operation_time_check
                 (snd (loop_consecutive_failures_check
                         (snd (millis (snd (millis
                                 (snd (loop_before_sleep w))))))))))).
(** * Properties *)

(** ** 32-bit arithmetic *)

Lemma wrap32_range (x : Z) : in_u32 (wrap32 x).
Proof. unfold in_u32, wrap32. apply Z.mod_pos_bound. lia. Qed.

Lemma wrap32_small (x : Z) : in_u32 x -> wrap32 x = x.
Proof. unfold in_u32, wrap32. intros H. apply Z.mod_small. exact H. Qed.

Lemma wrap32_idem (x : Z) : wrap32 (wrap32 x) = wrap32 x.
Proof. apply wrap32_small, wrap32_range. Qed.

Lemma wrap32_borrow (x : Z) :
  -4294967296 <= x < 0 -> wrap32 x = x + 4294967296.
Proof.
  intros H. unfold wrap32.
  rewrite <- (Z.mod_add x 1 4294967296) by lia.
  apply Z.mod_small. lia.
Qed.

(** *** Arithmetic of the two branches *)

Lemma wraparound_total_time_exact (now mark : Z) :
  in_u32 now -> in_u32 mark -> now < mark ->
  wraparound_total_time now mark = now + (4294967295 - mark).
Proof.
  unfold in_u32, wraparound_total_time. intros Hn Hm Hlt. cbv zeta.
  rewrite (wrap32_small (4294967295 - mark)) by (unfold in_u32; lia).
  apply wrap32_small. unfold in_u32. lia.
Qed.

Lemma wrapped_distance_exact (now mark : Z) :
  in_u32 now -> in_u32 mark -> now < mark ->
  wrap32 (now - mark) = now - mark + 4294967296.
Proof.
  unfold in_u32. intros Hn Hm Hlt. apply wrap32_borrow. lia.
Qed.

(** In the wraparound branch the computed time is always one tick short
    of the wrapped distance. *)
Lemma wraparound_total_time_one_short (now mark : Z) :
  in_u32 now -> in_u32 mark -> now < mark ->
  wraparound_total_time now mark = wrap32 (now - mark) - 1.
Proof.
  intros Hn Hm Hlt.
  rewrite wraparound_total_time_exact, wrapped_distance_exact by assumption.
  lia.
Qed.

Lemma elapsed_time_safe_no_wrap (now mark : Z) :
  in_u32 now -> in_u32 mark -> mark <= now ->
  elapsed_time_safe now mark = now - mark.
Proof.
  unfold in_u32, elapsed_time_safe. intros Hn Hm Hle.
  destruct (Z.ltb_spec now mark); [lia|].
  apply wrap32_small. unfold in_u32. lia.
Qed.

Lemma check_timeout_safe_at_elapsed (now mark timeout : Z) :
  check_timeout_safe_at now mark timeout = (timeout <? elapsed_time_safe now mark).
Proof.
  unfold check_timeout_safe_at, elapsed_time_safe.
  destruct (now <? mark); reflexivity.
Qed.

(** C2 (code defect). At [now = 0], [mark = 2^32 - 1] the counter has
    advanced by exactly one tick across the wraparound, yet the wraparound
    branch of [check_timeout_safe] computes an elapsed time of 0: it adds
    [0xFFFFFFFF - mark] where the wrapped distance needs [2^32 - mark]. *)
Theorem C2_wraparound_branch_off_by_one :
  0 < 4294967295 /\
  wraparound_total_time 0 4294967295 = 0 /\
  wrap32 (0 - 4294967295) = 1 /\
  wraparound_total_time 0 4294967295 <> wrap32 (0 - 4294967295).
Proof. vm_compute. repeat split; congruence. Qed.

(** C8 (counterexample). With [mark = 0], [now = 1000] and a period of
    1000 ticks the elapsed time equals the period, and the predicate
    answers false: it is not "elapsed >= period". *)
Lemma C8_due_at_exact_period_fails :
  ~ (check_timeout_safe_at 1000 0 1000 = true <-> 1000 <= elapsed_time_safe 1000 0).
Proof.
  intros [_ H]. assert (E : 1000 <= elapsed_time_safe 1000 0) by (vm_compute; congruence).
  specialize (H E). vm_compute in H. discriminate.
Qed.

(** C8 (amended). For all 32-bit ticks, [check_timeout_safe] answers true
    exactly when the overflow-safe elapsed time, [now - mark] without
    wraparound and [now + (0xFFFFFFFF - mark)] across one, is strictly
    greater than the period; at an elapsed time equal to the period it
    answers false. *)
Theorem C8_check_timeout_safe_strict (now mark period : Z) :
  in_u32 now -> in_u32 mark -> in_u32 period ->
  (check_timeout_safe_at now mark period = true <->
     period < (if now <? mark then now + (4294967295 - mark) else now - mark)) /\
  (elapsed_time_safe now mark = period ->
     check_timeout_safe_at now mark period = false).
Proof.
  intros Hn Hm Hp. split.
  - unfold check_timeout_safe_at.
    destruct (Z.ltb_spec now mark) as [Hlt|Hge].
    + cbv zeta. rewrite wraparound_total_time_exact by assumption.
      apply Z.ltb_lt.
    + rewrite wrap32_small by (unfold in_u32 in *; lia).
      apply Z.ltb_lt.
  - intros E. rewrite check_timeout_safe_at_elapsed, E. apply Z.ltb_irrefl.
Qed.

Lemma C8_check_timeout_safe_strict_witness :
  (check_timeout_safe_at 1001 0 1000 = true <->
     1000 < (if 1001 <? 0 then 1001 + (4294967295 - 0) else 1001 - 0)) /\
  (elapsed_time_safe 1001 0 = 1000 -> check_timeout_safe_at 1001 0 1000 = false).
Proof.
  apply (C8_check_timeout_safe_strict 1001 0 1000); unfold in_u32; lia.
Defined.

(** ** Reasoning about actions

    [rel R m] says that every run of [m] takes a world to an [R]-related
    one.  For a preorder [R] the judgment follows the structure of the
    action; three kinds of relations are used: memory frames, trace
    extensions and invariants. *)

Definition rel (R : World -> World -> Prop) {A : Type} (m : Act A) : Prop :=
  forall w, R w (snd (m w)).

(** Relations that do not look at the clock or at the call counters. *)
Definition ambient (R : World -> World -> Prop) : Prop :=
  (forall w t, R w (with_clock w t)) /\ (forall w c, R w (with_calls w c)).

(** A relation on worlds that is a preorder and ignores clock and call
    counters: what the structural rules need. *)
Record proper_rel (R : World -> World -> Prop) : Prop := {
  pr_refl : forall w, R w w;
  pr_trans : forall a b c, R a b -> R b c -> R a c;
  pr_ambient : ambient R
}.

Section RelRules.
Variable R : World -> World -> Prop.
Hypothesis PR : proper_rel R.

Let R_refl : forall w, R w w := pr_refl R PR.
Let R_trans : forall a b c, R a b -> R b c -> R a c := pr_trans R PR.
Let R_ambient : ambient R := pr_ambient R PR.

Lemma rel_ret {A : Type} (a : A) : rel R (ret a).
Proof. intros w. apply R_refl. Qed.

Lemma rel_bind {A B : Type} (m : Act A) (k : A -> Act B) :
  rel R m -> (forall a, rel R (k a)) -> rel R (bind m k).
Proof.
  intros Hm Hk w. unfold bind.
  eapply R_trans; [apply Hm | apply Hk].
Qed.

Lemma rel_when (b : bool) (m : Act unit) : rel R m -> rel R (when b m).
Proof. intros H. destruct b; [exact H | apply rel_ret]. Qed.

Lemma rel_repeat_act (n : nat) (body : Act unit) :
  rel R body -> rel R (repeat_act n body).
Proof.
  intros H. induction n as [|n IH]; simpl.
  - apply rel_ret.
  - apply rel_bind; [exact H | intros _; exact IH].
Qed.

Lemma rel_getU v : rel R (getU v).
Proof. intros w. apply R_refl. Qed.
Lemma rel_getI v : rel R (getI v).
Proof. intros w. apply R_refl. Qed.
Lemma rel_getB v : rel R (getB v).
Proof. intros w. apply R_refl. Qed.
Lemma rel_getF v : rel R (getF v).
Proof. intros w. apply R_refl. Qed.

Lemma rel_get_oracle : rel R get_oracle.
Proof. intros w. apply R_refl. Qed.

Lemma rel_ask c : rel R (ask c).
Proof. intros w. apply R_ambient. Qed.

Lemma rel_delay ms : rel R (delay ms).
Proof. intros w. apply R_ambient. Qed.

Lemma rel_answer {A : Type} (c : call) (f : Oracle -> nat -> A) :
  rel R (n <- ask c ;; fun w => (f (oracle w) n, w)).
Proof.
  apply rel_bind; [apply rel_ask | intros n w; apply R_refl].
Qed.

Lemma rel_millis : rel R millis.
Proof.
  apply rel_bind; [apply rel_ask | intros n w; apply R_ambient].
Qed.

Lemma rel_random lo hi : rel R (random lo hi).
Proof.
  apply rel_bind; [apply rel_ask | intros n w; apply R_refl].
Qed.

Lemma rel_mmWave_update t : rel R (mmWave_update t).
Proof. apply rel_answer. Qed.
Lemma rel_mmWave_getBreathRate : rel R mmWave_getBreathRate.
Proof. apply rel_answer. Qed.
Lemma rel_mmWave_getHeartRate : rel R mmWave_getHeartRate.
Proof. apply rel_answer. Qed.
Lemma rel_mmWave_getDistance : rel R mmWave_getDistance.
Proof. apply rel_answer. Qed.
Lemma rel_mmWave_getPeople : rel R mmWave_getPeopleCountingTartgetInfo.
Proof. apply rel_answer. Qed.
Lemma rel_mmWave_isHumanDetected : rel R mmWave_isHumanDetected.
Proof. apply rel_answer. Qed.
Lemma rel_mmWaveSerial_available : rel R mmWaveSerial_available.
Proof. apply rel_answer. Qed.

Lemma rel_esp_get_free_heap_size : rel R esp_get_free_heap_size.
Proof.
  apply rel_bind; [apply rel_ask | intros n w; apply R_refl].
Qed.

Lemma rel_check_timeout_safe last timeout : rel R (check_timeout_safe last timeout).
Proof.
  apply rel_bind; [apply rel_millis | intros n; apply rel_ret].
Qed.

Lemma rel_longer_than mark period : rel R (longer_than mark period).
Proof.
  apply rel_bind; [apply rel_millis | intros n].
  apply rel_bind; [apply rel_getU | intros l; apply rel_ret].
Qed.

Lemma rel_get_time_until_next_sleep : rel R get_time_until_next_sleep.
Proof.
  apply rel_bind; [apply rel_millis | intros n].
  apply rel_bind; [apply rel_getU | intros l; apply rel_ret].
Qed.
End RelRules.

(** *** Memory frames: [S] relates the memory before and after. *)

Definition frame (S : Memory -> Memory -> Prop) : World -> World -> Prop :=
  fun w w' => S (mem w) (mem w').

(** *** Trace extensions: every new event satisfies [P]. *)

Definition extends (P : Event -> Prop) : World -> World -> Prop :=
  fun w w' => exists es, trace w' = es ++ trace w /\ Forall P es.

(** Actions that leave the memory alone. *)
Definition same_mem : World -> World -> Prop := frame (fun m m' => m' = m).

Lemma frame_refl S : (forall m, S m m) -> forall w, frame S w w.
Proof. intros H w. apply H. Qed.

Lemma frame_trans S :
  (forall a b c, S a b -> S b c -> S a c) ->
  forall a b c, frame S a b -> frame S b c -> frame S a c.
Proof. intros H a b c. apply H. Qed.

Lemma frame_ambient S : (forall m, S m m) -> ambient (frame S).
Proof. intros H. split; intros w ?; apply H. Qed.

Lemma extends_refl P w : extends P w w.
Proof. exists []. split; [reflexivity | constructor]. Qed.

Lemma extends_trans P a b c : extends P a b -> extends P b c -> extends P a c.
Proof.
  intros [e1 [H1 F1]] [e2 [H2 F2]]. exists (e2 ++ e1). split.
  - rewrite H2, H1. apply app_assoc.
  - apply Forall_app. split; assumption.
Qed.

Lemma extends_ambient P : ambient (extends P).
Proof.
  split; intros w ?; exists []; (split; [reflexivity | constructor]).
Qed.

Lemma extends_emit P e : P e -> rel (extends P) (emit e).
Proof.
  intros H w. exists [e]. split; [reflexivity | constructor; [exact H | constructor]].
Qed.

Lemma extends_set P (f : World -> Memory) w : extends P w (with_mem w (f w)).
Proof. exists []. split; [reflexivity | constructor]. Qed.

Lemma frame_emit S e : (forall m, S m m) -> rel (frame S) (emit e).
Proof. intros H w. apply H. Qed.

Lemma proper_frame S :
  (forall m, S m m) -> (forall a b c, S a b -> S b c -> S a c) -> proper_rel (frame S).
Proof.
  intros Hr Ht. constructor.
  - apply frame_refl, Hr.
  - apply frame_trans, Ht.
  - apply frame_ambient, Hr.
Qed.

Lemma proper_extends P : proper_rel (extends P).
Proof.
  constructor.
  - apply extends_refl.
  - apply extends_trans.
  - apply extends_ambient.
Qed.

Lemma proper_same_mem : proper_rel same_mem.
Proof. apply proper_frame; [reflexivity | intros a b c H1 H2; congruence]. Qed.

Lemma proper_and R1 R2 :
  proper_rel R1 -> proper_rel R2 -> proper_rel (fun w w' => R1 w w' /\ R2 w w').
Proof.
  intros [r1 t1 [a1 b1]] [r2 t2 [a2 b2]]. constructor.
  - intros w. split; auto.
  - intros a b c [H1 H2] [H3 H4]. split; eauto.
  - split; intros; split; auto.
Qed.

(** The structural step of a [rel] proof; [leaf] closes what is left. *)
Ltac rel_structure PR :=
  lazymatch goal with
  | |- rel _ (ret _) => apply (rel_ret _ PR)
  | |- rel _ (bind _ _) =>
      apply (rel_bind _ PR); [ | intros ? ]
  | |- rel _ (when _ _) => apply (rel_when _ PR)
  | |- rel _ (repeat_act _ _) =>
      apply (rel_repeat_act _ PR)
  | |- rel _ (if ?b then _ else _) => destruct b
  | |- rel _ (match ?o with _ => _ end) => destruct o
  | |- rel _ (getU _) => apply (rel_getU _ PR)
  | |- rel _ (getI _) => apply (rel_getI _ PR)
  | |- rel _ (getB _) => apply (rel_getB _ PR)
  | |- rel _ (getF _) => apply (rel_getF _ PR)
  | |- rel _ get_oracle => apply (rel_get_oracle _ PR)
  | |- rel _ (delay _) => apply (rel_delay _ PR)
  | |- rel _ millis => apply (rel_millis _ PR)
  | |- rel _ (random _ _) =>
      apply (rel_random _ PR)
  | |- rel _ (mmWave_update _) =>
      apply (rel_mmWave_update _ PR)
  | |- rel _ mmWave_getBreathRate =>
      apply (rel_mmWave_getBreathRate _ PR)
  | |- rel _ mmWave_getHeartRate =>
      apply (rel_mmWave_getHeartRate _ PR)
  | |- rel _ mmWave_getDistance =>
      apply (rel_mmWave_getDistance _ PR)
  | |- rel _ mmWave_getPeopleCountingTartgetInfo =>
      apply (rel_mmWave_getPeople _ PR)
  | |- rel _ mmWave_isHumanDetected =>
      apply (rel_mmWave_isHumanDetected _ PR)
  | |- rel _ mmWaveSerial_available =>
      apply (rel_mmWaveSerial_available _ PR)
  | |- rel _ esp_get_free_heap_size =>
      apply (rel_esp_get_free_heap_size _ PR)
  | |- rel _ (check_timeout_safe _ _) =>
      apply (rel_check_timeout_safe _ PR)
  | |- rel _ (longer_than _ _) =>
      apply (rel_longer_than _ PR)
  | |- rel _ get_time_until_next_sleep =>
      apply (rel_get_time_until_next_sleep _ PR)
  end.

(** Unfold the function at the head of the action. *)
Ltac rel_unfold :=
  lazymatch goal with
  | |- rel _ ?m =>
      let rec head t := lazymatch t with ?f _ => head f | _ => t end in
      let h := head m in unfold h
  end.

(** *** Functions that only talk to the sensor *)

Create HintDb same_mem.

Ltac same_mem_leaf :=
  lazymatch goal with
  | |- rel _ (emit _) => apply frame_emit; reflexivity
  | |- _ => solve [auto with same_mem nocore]
  end.

Ltac same_mem_go :=
  repeat first [ rel_structure proper_same_mem | same_mem_leaf | rel_unfold ].

Lemma same_mem_probe_sensor n : rel same_mem (probe_sensor n).
Proof. induction n as [|n IH]; cbn [probe_sensor]; same_mem_go. Qed.

Lemma same_mem_wait_for_response n start : rel same_mem (wait_for_response n start).
Proof. induction n as [|n IH]; cbn [wait_for_response]; same_mem_go. Qed.

#[local] Hint Resolve same_mem_probe_sensor same_mem_wait_for_response : same_mem.

Lemma same_mem_test_serial_communication : rel same_mem test_serial_communication.
Proof. same_mem_go. Qed.

Lemma same_mem_reset_position_communication : rel same_mem reset_position_communication.
Proof. same_mem_go. Qed.

Lemma same_mem_reset_sensor_via_serial : rel same_mem reset_sensor_via_serial.
Proof. same_mem_go. Qed.

Lemma same_mem_test_all_reset_methods : rel same_mem test_all_reset_methods.
Proof. same_mem_go. Qed.

Lemma same_mem_verify_post_reset_functionality : rel same_mem verify_post_reset_functionality.
Proof. same_mem_go. Qed.

Lemma same_mem_careful_sensor_reinitialization : rel same_mem careful_sensor_reinitialization.
Proof. same_mem_go. Qed.

Lemma same_mem_attempt_position_recovery : rel same_mem attempt_position_recovery.
Proof. same_mem_go. Qed.

Lemma same_mem_force_complete_sensor_reinitialization :
  rel same_mem force_complete_sensor_reinitialization.
Proof. same_mem_go. Qed.

Lemma same_mem_check_sensor_communication_status :
  rel same_mem check_sensor_communication_status.
Proof. same_mem_go. Qed.

Lemma same_mem_is_reset_safe : rel same_mem is_reset_safe.
Proof. same_mem_go. Qed.

#[local] Hint Resolve same_mem_test_serial_communication
  same_mem_reset_position_communication same_mem_reset_sensor_via_serial
  same_mem_test_all_reset_methods same_mem_verify_post_reset_functionality
  same_mem_careful_sensor_reinitialization same_mem_attempt_position_recovery
  same_mem_force_complete_sensor_reinitialization
  same_mem_check_sensor_communication_status same_mem_is_reset_safe : same_mem.

Lemma same_mem_frame S {A : Type} (m : Act A) :
  (forall m0, S m0 m0) -> rel same_mem m -> rel (frame S) m.
Proof.
  intros HS H w. specialize (H w). unfold same_mem, frame in *.
  rewrite H. apply HS.
Qed.

(** ** Running actions

    [run] unfolds the plumbing of an action applied to a world and leaves
    arithmetic and the oracle untouched. *)

Lemma upd_same {K V : Type} d (f : K -> V) k v : upd d f k v k = v.
Proof. unfold upd. destruct (d k k); [reflexivity | congruence]. Qed.

Lemma upd_other {K V : Type} d (f : K -> V) k k' v : k <> k' -> upd d f k v k' = f k'.
Proof. unfold upd. intros H. destruct (d k k'); [congruence | reflexivity]. Qed.

Ltac run_upd :=
  repeat first [ rewrite upd_same | rewrite upd_other by discriminate ].

Ltac run_prims :=
  unfold millis, random, longer_than, check_timeout_safe,
    periodically, count_vitals_failed, count_all_failed, incU, incI, log,
    read_into,
    mmWave_update, mmWave_getBreathRate, mmWave_getHeartRate,
    mmWave_getDistance, mmWave_getPeopleCountingTartgetInfo,
    mmWave_isHumanDetected, mmWave_begin, mmWaveSerial_available,
    mmWaveSerial_end, mmWaveSerial_begin, mmWaveSerial_write,
    mmWaveSerial_print, drain_serial, send_formatted_data,
    esp_get_free_heap_size, ask, when;
  cbn [ret get_oracle getU getI getB getF setU setI setB setF emit delay fst snd
       mem clock oracle calls trace with_mem with_clock with_calls with_trace
       ulongs ints bools floats set_ulong set_int set_bool set_float negb].

(** One [bind] at a time, in the order of execution, and none past a
    branch that waits for its condition: the world is never copied into
    both arms. *)
Ltac settled w :=
  lazymatch w with
  | context [@bind _ _ _ _ _] => fail
  | context [(if _ then _ else _) _] => fail
  | context [match _ with Some _ => _ | None => _ end _] => fail
  | _ => idtac
  end.

Ltac run_bind :=
  match goal with
  | |- context [@bind ?A ?B ?m ?k ?w] =>
      settled w;
      change (@bind A B m k w) with (k (fst (m w)) (snd (m w))); cbn beta
  end.

Ltac run := repeat (progress run_prims); repeat (run_bind; run_prims); run_upd.

(** [hide f] turns the action [f] of the goal into a variable, and
    [hide_with f H fact] keeps the fact [H] about it: the steps that
    follow then never look inside [f]. *)
Ltac hide f := let act := fresh "act" in generalize f; intro act.

Ltac hide_with f H fact :=
  let act := fresh "act" in
  pose proof H as fact; revert fact; generalize f; intros act fact.

(** ** The reset budget: [is_reset_safe] and [safe_reset_sensor] *)

Lemma is_reset_safe_answer (w : World) :
  fst (is_reset_safe w) =
  negb (MAX_RESETS_PER_SESSION <=? ulongs (mem w) reset_count_this_session)
  && negb (wrap32 (fst (millis w) - ulongs (mem w) last_reset_time_rtc)
           <? MIN_RESET_INTERVAL).
Proof.
  unfold is_reset_safe. run.
  destruct (MAX_RESETS_PER_SESSION <=? _); [reflexivity|]. run.
  destruct (_ <? MIN_RESET_INTERVAL); reflexivity.
Qed.

(** A refusal of [is_reset_safe] writes one line to the log and nothing
    else; an authorization writes nothing. *)
Lemma is_reset_safe_trace (w : World) :
  (fst (is_reset_safe w) = true /\ trace (snd (is_reset_safe w)) = trace w) \/
  (fst (is_reset_safe w) = false /\
   exists reason, (reason = MsgResetLimit \/ reason = MsgResetWait) /\
     trace (snd (is_reset_safe w)) = Log reason :: trace w).
Proof.
  unfold is_reset_safe. run.
  destruct (MAX_RESETS_PER_SESSION <=? _).
  - right. run. split; [reflexivity|]. exists MsgResetLimit. auto.
  - run. destruct (_ <? MIN_RESET_INTERVAL).
    + right. run. split; [reflexivity|]. exists MsgResetWait. auto.
    + left. run. auto.
Qed.

Lemma is_reset_safe_authorized_world (w : World) :
  fst (is_reset_safe w) = true -> snd (is_reset_safe w) = snd (millis w).
Proof.
  unfold is_reset_safe. run.
  destruct (MAX_RESETS_PER_SESSION <=? _); [discriminate|]. run.
  destruct (_ <? MIN_RESET_INTERVAL); [discriminate|]. reflexivity.
Qed.

Lemma safe_reset_sensor_denied (w : World) :
  fst (is_reset_safe w) = false ->
  snd (safe_reset_sensor w) =
  with_trace (snd (is_reset_safe w))
    (Log MsgResetCancelled :: trace (snd (is_reset_safe w))).
Proof.
  intros H. unfold safe_reset_sensor. unfold bind at 1. rewrite H. reflexivity.
Qed.

Lemma safe_reset_sensor_authorized (w : World) :
  fst (is_reset_safe w) = true ->
  snd (safe_reset_sensor w) =
  snd (reset_sensor_via_serial
         (snd ((log MsgResetAuthorized ;;
                incU reset_count_this_session ;;
                now <- millis ;;
                setU last_reset_time_rtc now) (snd (is_reset_safe w))))).
Proof.
  intros H. unfold safe_reset_sensor. unfold bind at 1. rewrite H.
  reflexivity.
Qed.

(** X27.  Inside [safe_reset_sensor], and there only, the reset runs
    exactly when fewer than [MAX_RESETS_PER_SESSION] resets were counted
    in the session and the unsigned 32-bit difference between the clock
    of the session and [last_reset_time_rtc] is at least
    [MIN_RESET_INTERVAL]; an authorized call first increments
    [reset_count_this_session] and sets [last_reset_time_rtc] to the tick
    it then reads, touching no other variable and no device, and only
    then runs [reset_sensor_via_serial]; a denied call changes no
    variable at all and only writes to the log. *)
Theorem safe_reset_sensor_budget (w : World) :
  let now := fst (millis w) in
  let count := ulongs (mem w) reset_count_this_session in
  let last := ulongs (mem w) last_reset_time_rtc in
  (fst (is_reset_safe w) = true <->
     count < MAX_RESETS_PER_SESSION /\ MIN_RESET_INTERVAL <= wrap32 (now - last)) /\
  (fst (is_reset_safe w) = true ->
     exists marked,
       snd (safe_reset_sensor w) = snd (reset_sensor_via_serial marked) /\
       ulongs (mem marked) reset_count_this_session = wrap32 (count + 1) /\
       ulongs (mem marked) last_reset_time_rtc = fst (millis (snd (is_reset_safe w))) /\
       (forall v, v <> reset_count_this_session -> v <> last_reset_time_rtc ->
                  ulongs (mem marked) v = ulongs (mem w) v) /\
       ints (mem marked) = ints (mem w) /\
       bools (mem marked) = bools (mem w) /\
       floats (mem marked) = floats (mem w) /\
       trace marked = Log MsgResetAuthorized :: trace w) /\
  (fst (is_reset_safe w) = false ->
     mem (snd (safe_reset_sensor w)) = mem w /\
     exists reason, (reason = MsgResetLimit \/ reason = MsgResetWait) /\
       trace (snd (safe_reset_sensor w)) =
       Log MsgResetCancelled :: Log reason :: trace w).
Proof.
  cbv zeta. split; [|split].
  - rewrite is_reset_safe_answer, andb_true_iff, !negb_true_iff.
    rewrite Z.leb_gt, Z.ltb_ge. reflexivity.
  - intros Hsafe. eexists. split; [apply safe_reset_sensor_authorized, Hsafe|].
    rewrite (is_reset_safe_authorized_world w Hsafe).
    run. rewrite wrap32_idem.
    repeat split.
    intros v H1 H2. rewrite !upd_other by congruence. reflexivity.
  - intros Hden. rewrite (safe_reset_sensor_denied w Hden). cbn [mem trace with_trace].
    split; [apply (same_mem_is_reset_safe w)|].
    destruct (is_reset_safe_trace w) as [[Ht _]|[_ [r [Hr Ht]]]]; [congruence|].
    exists r. split; [exact Hr|]. rewrite Ht. reflexivity.
Qed.

(** ** The duty cycle: the two deep-sleep checks of [loop()] *)

Lemma loop_hourly_sleep_awake (w w1 : World) :
  loop_hourly_sleep w = Awake w1 ->
  w1 = snd (millis w) /\
  check_timeout_safe_at (fst (millis w)) (ulongs (mem w) last_hourly_sleep)
    HOURLY_SLEEP_INTERVAL = false.
Proof.
  unfold loop_hourly_sleep.
  destruct ((last <- getU last_hourly_sleep ;;
             check_timeout_safe last HOURLY_SLEEP_INTERVAL) w) as [due w'] eqn:E.
  revert E. run. intros E. inversion E; subst; clear E.
  destruct (check_timeout_safe_at _ _ _) eqn:D; [discriminate|].
  intros H. inversion H. auto.
Qed.

Lemma loop_emergency_sleep_due (w : World) :
  check_timeout_safe_at (fst (millis w)) (ulongs (mem w) last_data_received)
    RESET_TIMEOUT = true ->
  loop_emergency_sleep w =
  Asleep (enter_deep_sleep DEEP_SLEEP_DURATION
            (snd (log MsgEmergencyTimeout (snd (millis w))))).
Proof.
  intros D. unfold loop_emergency_sleep.
  destruct ((last <- getU last_data_received ;;
             check_timeout_safe last RESET_TIMEOUT) w) as [due w'] eqn:E.
  revert E. run. intros E. inversion E; subst; clear E.
  revert D. run. intros D. rewrite D. reflexivity.
Qed.


(** ** Frames

    [keeps view] relates two memories that agree on [view]; [holds I]
    relates them when [I] carries over. *)

Abbreviation keeps view := (frame (fun m m' => view m' = view m)).
Abbreviation holds I := (frame (fun m m' => I m -> I m')).

Lemma proper_keeps {T : Type} (view : Memory -> T) : proper_rel (keeps view).
Proof. apply proper_frame; [reflexivity | intros a b c H1 H2; congruence]. Qed.

Lemma proper_holds (I : Memory -> Prop) : proper_rel (holds I).
Proof. apply proper_frame; [auto | intros a b c H1 H2; auto]. Qed.

(** Actions that write nothing to the trace. *)
Definition quiet : World -> World -> Prop := fun w w' => trace w' = trace w.

Lemma proper_quiet : proper_rel quiet.
Proof.
  constructor.
  - reflexivity.
  - unfold quiet. intros a b c H1 H2. congruence.
  - split; reflexivity.
Qed.

Lemma rel_setU R v x :
  (forall w, R w (with_mem w (set_ulong (mem w) v x))) -> rel R (setU v x).
Proof. intros H w. apply H. Qed.

Lemma rel_setI R v x :
  (forall w, R w (with_mem w (set_int (mem w) v x))) -> rel R (setI v x).
Proof. intros H w. apply H. Qed.

Lemma rel_setB R v x :
  (forall w, R w (with_mem w (set_bool (mem w) v x))) -> rel R (setB v x).
Proof. intros H w. apply H. Qed.

Lemma rel_setF R v x :
  (forall w, R w (with_mem w (set_float (mem w) v x))) -> rel R (setF v x).
Proof. intros H w. apply H. Qed.

Lemma rel_emit R e :
  (forall w, R w (with_trace w (e :: trace w))) -> rel R (emit e).
Proof. intros H w. apply H. Qed.

Ltac frame_side := solve [ intros; reflexivity | intros ? H; exact H ].

Lemma rel_get_vital_signs_robust_from R n :
  proper_rel R ->
  (forall w x, R w (with_mem w (set_float (mem w) breath_rate x))) ->
  (forall w x, R w (with_mem w (set_float (mem w) heart_rate x))) ->
  rel R (get_vital_signs_robust_from n).
Proof.
  intros PR Hb Hh. induction n as [|n IH]; cbn [get_vital_signs_robust_from].
  - apply (rel_ret _ PR).
  - repeat first
      [ rel_structure PR
      | lazymatch goal with
        | |- rel _ (setF breath_rate _) => apply rel_setF; intros; apply Hb
        | |- rel _ (setF heart_rate _) => apply rel_setF; intros; apply Hh
        | |- rel _ (get_vital_signs_robust_from _) => exact IH
        | |- rel _ (read_into _ _) => unfold read_into
        end ].
Qed.

Create HintDb frames.

Ltac frame_leaf PR :=
  lazymatch goal with
  | |- rel _ (emit _) => apply rel_emit; frame_side
  | |- rel _ (setU _ _) => apply rel_setU; frame_side
  | |- rel _ (setI _ _) => apply rel_setI; frame_side
  | |- rel _ (setB _ _) => apply rel_setB; frame_side
  | |- rel _ (setF _ _) => apply rel_setF; frame_side
  | |- rel _ (get_vital_signs_robust_from _) =>
      apply (rel_get_vital_signs_robust_from _ _ PR); frame_side
  | |- rel _ _ =>
      first [ solve [ apply same_mem_frame; [frame_side | auto with same_mem nocore] ]
            | solve [ auto with frames nocore ] ]
  end.

Ltac frame_go PR := repeat first [ rel_structure PR | frame_leaf PR | rel_unfold ].

(** *** What the blocks of a sensing cycle leave alone *)

Lemma safe_reset_sensor_keeps_counters :
  rel (keeps (fun m => (ulongs m consecutive_failures,
                        ulongs m consecutive_all_failed_count,
                        ulongs m consecutive_vitals_failed_count))) safe_reset_sensor.
Proof. frame_go (proper_keeps (fun m => (ulongs m consecutive_failures,
                        ulongs m consecutive_all_failed_count,
                        ulongs m consecutive_vitals_failed_count))). Qed.

Lemma loop_vitals_failed_block_keeps_failures vf :
  rel (keeps (fun m => ulongs m consecutive_failures)) (loop_vitals_failed_block vf).
Proof. frame_go (proper_keeps (fun m => ulongs m consecutive_failures)). Qed.

Lemma loop_after_vitals_keeps_failures vf af :
  rel (keeps (fun m => ulongs m consecutive_failures)) (loop_after_vitals vf af).
Proof. frame_go (proper_keeps (fun m => ulongs m consecutive_failures)). Qed.

(** ** The failure counters of a sensing cycle *)

Abbreviation failures_view := (fun m : Memory => ulongs m consecutive_failures).
Abbreviation all_failed_view := (fun m : Memory => ulongs m consecutive_all_failed_count).

Lemma loop_collect_data_clears_failures (w : World) :
  ulongs (mem (snd (loop_collect_data w))) consecutive_failures = 0.
Proof.
  unfold loop_collect_data.
  match goal with
  | |- ulongs (mem (snd (bind ?m1 (fun _ => bind ?m2 (fun _ => ?rest)) ?w0))) _ = _ =>
      assert (F : rel (keeps failures_view) rest)
        by frame_go (proper_keeps failures_view);
      change (ulongs (mem (snd (rest (snd (m2 (snd (m1 w0))))))) consecutive_failures = 0);
      rewrite (F _)
  end.
  run. reflexivity.
Qed.

Lemma loop_reading_succeeded_clears_failures (w : World) :
  ulongs (mem (snd (loop_reading_succeeded w))) consecutive_failures = 0.
Proof.
  unfold loop_reading_succeeded. unfold bind.
  rewrite (loop_after_vitals_keeps_failures _ _ _).
  rewrite (loop_vitals_failed_block_keeps_failures _ _).
  apply loop_collect_data_clears_failures.
Qed.

(** A failed cycle counts one more failure; the fifteenth asks for a
    reset and starts the count again. *)
Lemma loop_reading_failed_counts (w : World) :
  let c := wrap32 (ulongs (mem w) consecutive_failures + 1) in
  ulongs (mem (snd (loop_reading_failed w))) consecutive_failures =
  if 15 <=? c then 0 else c.
Proof.
  cbv zeta. unfold loop_reading_failed.
  hide_with test_serial_communication same_mem_test_serial_communication Hdiag.
  hide safe_reset_sensor.
  run.
  remember (wrap32 (ulongs (mem w) consecutive_failures + 1)) as c eqn:Hc.
  destruct ((c =? 1) || (c mod 5 =? 0)); run.
  - destruct (Z.leb_spec 10 c) as [H10|H10]; run.
    + destruct (Z.leb_spec 15 c) as [H15|H15]; run.
      * reflexivity.
      * rewrite (Hdiag _). run. rewrite Hc. reflexivity.
    + destruct (Z.leb_spec 15 c) as [H15|H15]; [lia|].
      rewrite Hc. reflexivity.
  - destruct (Z.leb_spec 10 c) as [H10|H10]; run.
    + destruct (Z.leb_spec 15 c) as [H15|H15]; run.
      * reflexivity.
      * rewrite (Hdiag _). run. rewrite Hc. reflexivity.
    + destruct (Z.leb_spec 15 c) as [H15|H15]; [lia|].
      rewrite Hc. reflexivity.
Qed.

Lemma loop_sensing_counts (w : World) :
  let c := wrap32 (ulongs (mem w) consecutive_failures + 1) in
  ulongs (mem (snd (loop_sensing w))) consecutive_failures =
  if fst (loop_sensing w) then 0 else if 15 <=? c then 0 else c.
Proof.
  cbv zeta. unfold loop_sensing. run.
  destruct (update_at (oracle w) (calls w Cupdate)).
  - apply loop_reading_succeeded_clears_failures.
  - rewrite loop_reading_failed_counts. run. reflexivity.
Qed.

(** The block counts a check of [all_data_failed] only when more than ten
    seconds passed since the last counted one, and starts again at the
    fifth. *)
Lemma loop_all_failed_block_counts (all_data_failed : bool) (w : World) :
  let c := ulongs (mem w) consecutive_all_failed_count in
  ulongs (mem (snd (loop_all_failed_block all_data_failed w)))
    consecutive_all_failed_count =
  if all_data_failed then
    if fst (longer_than last_all_failed_debug 10000 w) then
      if 5 <=? wrap32 (c + 1) then 0 else wrap32 (c + 1)
    else c
  else 0.
Proof.
  cbv zeta. unfold loop_all_failed_block.
  hide_with test_serial_communication same_mem_test_serial_communication Hdiag.
  hide_with test_all_reset_methods same_mem_test_all_reset_methods Hall.
  hide reset_position_communication.
  hide careful_sensor_reinitialization.
  hide verify_post_reset_functionality.
  destruct all_data_failed.
  2: { run. reflexivity. }
  run. destruct (10000 <? _).
  2: { run. reflexivity. }
  run.
  remember (wrap32 (ulongs (mem w) consecutive_all_failed_count + 1)) as c eqn:Hc.
  destruct (Z.leb_spec 5 c) as [H5|H5].
  - run. reflexivity.
  - destruct (Z.eqb_spec c 3) as [H3|H3].
    + destruct (Z.eqb_spec c 4) as [H4|H4]; [lia|].
      run. rewrite (Hdiag _). run. rewrite Hc. reflexivity.
    + destruct (Z.eqb_spec c 4) as [H4|H4].
      * run. rewrite (Hall _). run. rewrite Hc. reflexivity.
      * run. rewrite Hc. reflexivity.
Qed.

Lemma loop_reading_failed_keeps_all_failed :
  rel (keeps all_failed_view) loop_reading_failed.
Proof. frame_go (proper_keeps all_failed_view). Qed.

(** ** Simulated vital signs *)

Lemma flt_false (a b : Q) : flt a b = false -> (b <= a)%Q.
Proof.
  unfold flt. rewrite negb_false_iff. apply Qle_bool_iff.
Qed.

Lemma flt_true (a b : Q) : flt a b = true -> (a <= b)%Q.
Proof.
  unfold flt. rewrite negb_true_iff. intros H.
  apply Qlt_le_weak, Qnot_le_lt. intros Hle.
  apply Qle_bool_iff in Hle. congruence.
Qed.

(** The two tests of [simulate_vital_signs] on one static: below [lo] it
    becomes [lo], above [hi] it becomes [hi]. *)
Lemma clamp_range (lo hi x : Q) :
  (lo <= hi)%Q ->
  let y := if flt x lo then lo else x in
  let z := if fgt y hi then hi else y in
  (lo <= z)%Q /\ (z <= hi)%Q.
Proof.
  intros Hlh. cbv zeta. unfold fgt.
  destruct (flt x lo) eqn:E1; destruct (flt hi _) eqn:E2;
    repeat match goal with
           | H : flt _ _ = true |- _ => apply flt_true in H
           | H : flt _ _ = false |- _ => apply flt_false in H
           end;
    split; auto using Qle_refl.
Qed.

Lemma simulate_vital_signs_spec (w : World) :
  sim_ok (mem w) ->
  let w' := snd (simulate_vital_signs w) in
  sim_ok (mem w') /\
  floats (mem w') breath_rate = floats (mem w') sim_breath /\
  floats (mem w') heart_rate = floats (mem w') sim_heart /\
  trace w' =
    Log (MsgSimulated (floats (mem w') breath_rate) (floats (mem w') heart_rate))
    :: trace w.
Proof.
  intros [Hb Hh]. cbv zeta. unfold simulate_vital_signs. run.
  destruct (5000 <? _); run.
  - match goal with
    | |- context [random_at ?o ?n] => generalize (random_at o n) (random_at o (S n))
    end.
    intros r1 r2.
    set (b1 := (floats (mem w) sim_breath + inject_Z _)%Q).
    set (h1 := (floats (mem w) sim_heart + inject_Z _)%Q).
    pose proof (clamp_range 12 25 b1 ltac:(discriminate)) as Cb.
    pose proof (clamp_range 60 100 h1 ltac:(discriminate)) as Ch.
    cbv zeta in Cb, Ch. unfold fgt in *.
    destruct (flt b1 12); run;
      (destruct (flt 25 _); run);
      (destruct (flt h1 60); run);
      (destruct (flt 100 _); run);
      (split; [split; assumption|]); repeat split; reflexivity.
  - split; [split; assumption|]. repeat split; reflexivity.
Qed.

(** *** The range is an invariant of the program *)

Lemma simulate_vital_signs_holds_sim_ok : rel (holds sim_ok) simulate_vital_signs.
Proof. intros w H. apply (simulate_vital_signs_spec w H). Qed.

#[local] Hint Resolve simulate_vital_signs_holds_sim_ok : frames.

Lemma sim_ok_initial_memory : sim_ok initial_memory.
Proof. unfold sim_ok. cbn. repeat split; discriminate. Qed.

Lemma sim_ok_wake_memory (m : Memory) : sim_ok (wake_memory m).
Proof. unfold sim_ok. cbn. repeat split; discriminate. Qed.

Lemma setup_until_wakeup_check_holds_sim_ok woke :
  rel (holds sim_ok) (setup_until_wakeup_check woke).
Proof. frame_go (proper_holds sim_ok). Qed.

Lemma loop_before_sleep_holds_sim_ok : rel (holds sim_ok) loop_before_sleep.
Proof. frame_go (proper_holds sim_ok). Qed.

Lemma loop_after_sleep_holds_sim_ok : rel (holds sim_ok) loop_after_sleep.
Proof. frame_go (proper_holds sim_ok). Qed.

Lemma loop_hourly_sleep_holds_sim_ok (w : World) :
  sim_ok (mem w) ->
  match loop_hourly_sleep w with
  | Awake w' | Asleep w' => sim_ok (mem w')
  end.
Proof.
  intros H. unfold loop_hourly_sleep, enter_deep_sleep. run.
  destruct (check_timeout_safe_at _ _ _); run; exact H.
Qed.

Lemma loop_emergency_sleep_holds_sim_ok (w : World) :
  sim_ok (mem w) ->
  match loop_emergency_sleep w with
  | Awake w' | Asleep w' => sim_ok (mem w')
  end.
Proof.
  intros H. unfold loop_emergency_sleep, enter_deep_sleep. run.
  destruct (check_timeout_safe_at _ _ _); run; exact H.
Qed.

(** Every pass of [loop()] keeps the simulated values in their range. *)
Lemma loop_holds_sim_ok (w : World) :
  sim_ok (mem w) ->
  match loop w with
  | Awake w' | Asleep w' => sim_ok (mem w')
  end.
Proof.
  intros H. unfold loop.
  pose proof (loop_hourly_sleep_holds_sim_ok _ (loop_before_sleep_holds_sim_ok w H)) as H1.
  destruct (loop_hourly_sleep _) as [w1|w1]; [|exact H1].
  pose proof (loop_emergency_sleep_holds_sim_ok _ H1) as H2.
  destruct (loop_emergency_sleep w1) as [w2|w2]; [|exact H2].
  apply (loop_after_sleep_holds_sim_ok w2 H2).
Qed.

(** *** From the substitution to the telemetry record *)

Abbreviation vitals_view :=
  (fun m : Memory => (floats m breath_rate, floats m heart_rate)).
Abbreviation sim_view :=
  (fun m : Memory => (floats m sim_breath, floats m sim_heart)).

Lemma count_vitals_failed_keeps_floats :
  rel (keeps (fun m : Memory => floats m)) count_vitals_failed.
Proof. frame_go (proper_keeps (fun m : Memory => floats m)). Qed.

Lemma longer_than_same_mem mark period : rel same_mem (longer_than mark period).
Proof. same_mem_go. Qed.

Lemma get_vital_signs_robust_holds_sim_ok : rel (holds sim_ok) get_vital_signs_robust.
Proof. frame_go (proper_holds sim_ok). Qed.

Lemma loop_send_data_trace (w : World) :
  trace (snd (loop_send_data w)) =
  Telemetry (floats (mem w) breath_rate) (floats (mem w) heart_rate)
            (floats (mem w) x_position) (floats (mem w) y_position)
  :: trace w.
Proof. unfold loop_send_data. run. reflexivity. Qed.

Lemma loop_after_vitals_sends (vf af : bool) (w : World) :
  exists x y older,
    trace (snd (loop_after_vitals vf af w)) =
    Telemetry (floats (mem w) breath_rate) (floats (mem w) heart_rate) x y
    :: older.
Proof.
  unfold loop_after_vitals.
  assert (K1 : rel (keeps vitals_view) (loop_position_vitals_failed vf))
    by frame_go (proper_keeps vitals_view).
  assert (K2 : rel (keeps vitals_view) (loop_all_failed_block af))
    by frame_go (proper_keeps vitals_view).
  assert (K3 : rel (keeps vitals_view) loop_position_block)
    by frame_go (proper_keeps vitals_view).
  assert (K4 : rel (keeps vitals_view) loop_position_fallback)
    by frame_go (proper_keeps vitals_view).
  revert K1 K2 K3 K4.
  generalize (loop_position_vitals_failed vf) (loop_all_failed_block af)
    loop_position_block loop_position_fallback.
  intros m1 m2 m3 m4 K1 K2 K3 K4. unfold bind. cbn beta.
  rewrite loop_send_data_trace.
  pose proof (K1 w) as E1. pose proof (K2 (snd (m1 w))) as E2.
  pose proof (K3 (snd (m2 (snd (m1 w))))) as E3.
  pose proof (K4 (snd (m3 (snd (m2 (snd (m1 w))))))) as E4.
  cbv beta in E1, E2, E3, E4.
  assert (E : vitals_view (mem (snd (m4 (snd (m3 (snd (m2 (snd (m1 w)))))))))
              = vitals_view (mem w)) by congruence.
  cbv beta in E. inversion E as [[Eb Eh]]. rewrite Eb, Eh.
  eexists _, _, _. reflexivity.
Qed.

(** The substitution inside the vital-signs block. *)
Lemma loop_vitals_failed_block_substitutes (w : World) :
  sim_ok (mem w) ->
  fst (longer_than last_vitals_failed_debug 15000 w) = true ->
  let counted :=
    snd (count_vitals_failed (snd (longer_than last_vitals_failed_debug 15000 w))) in
  2 <= fst (count_vitals_failed (snd (longer_than last_vitals_failed_debug 15000 w))) ->
  fgt (floats (mem w) distance) (3 # 2) = true \/
  fst (get_vital_signs_robust counted) = false ->
  let w' := snd (loop_vitals_failed_block true w) in
  sim_ok (mem w') /\
  floats (mem w') breath_rate = floats (mem w') sim_breath /\
  floats (mem w') heart_rate = floats (mem w') sim_heart /\
  exists older,
    trace w' =
    Log (MsgSimulated (floats (mem w') breath_rate) (floats (mem w') heart_rate))
    :: older.
Proof.
  intros Hok Hdue. cbv zeta. intros Hc Htrig.
  apply Z.leb_le in Hc.
  set (w1 := snd (longer_than last_vitals_failed_debug 15000 w)) in *.
  set (w2 := snd (count_vitals_failed w1)) in *.
  assert (Hm1 : mem w1 = mem w)
    by exact (longer_than_same_mem last_vitals_failed_debug 15000 w).
  assert (Hf2 : floats (mem w2) = floats (mem w)).
  { rewrite <- Hm1. apply (count_vitals_failed_keeps_floats w1). }
  assert (Hok2 : sim_ok (mem w2)).
  { revert Hok. unfold sim_ok. rewrite Hf2. auto. }
  assert (E : exists w3, sim_ok (mem w3) /\
                snd (loop_vitals_failed_block true w) =
                snd (setU consecutive_vitals_failed_count 0
                       (snd (simulate_vital_signs w3)))).
  { unfold loop_vitals_failed_block, bind, when. rewrite Hdue.
    fold w1. rewrite Hc. fold w2.
    unfold getF. cbn [fst snd]. rewrite Hf2.
    destruct (fgt (floats (mem w) distance) (3 # 2)) eqn:Hd.
    - exists w2. split; [exact Hok2 | reflexivity].
    - destruct Htrig as [?|Hr]; [discriminate|].
      rewrite Hr. cbn [negb].
      exists (snd (get_vital_signs_robust w2)).
      split; [apply (get_vital_signs_robust_holds_sim_ok w2 Hok2) | reflexivity]. }
  destruct E as (w3 & Hok3 & E). rewrite E.
  pose proof (simulate_vital_signs_spec w3 Hok3) as S. cbv zeta in S.
  destruct S as (S1 & S2 & S3 & S4).
  unfold setU. cbn [fst snd mem trace with_mem floats set_ulong].
  repeat split; try assumption; try apply S1. eexists. exact S4.
Qed.

(** ** Escalation inside a sensing cycle *)

(** Events other than a restart of the sensor link. *)
Definition no_link_restart (e : Event) : Prop := is_link_restart e = false.

Lemma extends_same_trace P (w w' : World) : trace w' = trace w -> extends P w w'.
Proof. intros H. exists []. split; [exact H | constructor]. Qed.

Lemma setU_trace v x (w : World) : trace (snd (setU v x w)) = trace w.
Proof. reflexivity. Qed.

Ltac extends_side := solve [ intros; apply extends_same_trace; reflexivity ].

Ltac extends_leaf :=
  lazymatch goal with
  | |- rel _ (emit _) => apply extends_emit; reflexivity
  | |- rel _ (setU _ _) => apply rel_setU; extends_side
  | |- rel _ (setI _ _) => apply rel_setI; extends_side
  | |- rel _ (setB _ _) => apply rel_setB; extends_side
  | |- rel _ (setF _ _) => apply rel_setF; extends_side
  end.

Ltac extends_go P := repeat first [ rel_structure (proper_extends P) | extends_leaf | rel_unfold ].

Lemma reset_position_communication_no_restart :
  rel (extends no_link_restart) reset_position_communication.
Proof. extends_go no_link_restart. Qed.

Lemma verify_post_reset_functionality_no_restart :
  rel (extends no_link_restart) verify_post_reset_functionality.
Proof. extends_go no_link_restart. Qed.

Lemma longer_than_no_restart mark period :
  rel (extends no_link_restart) (longer_than mark period).
Proof. extends_go no_link_restart. Qed.

Lemma count_all_failed_no_restart : rel (extends no_link_restart) count_all_failed.
Proof. extends_go no_link_restart. Qed.

(** What the vital-signs block does at a counted check. *)
Lemma loop_vitals_failed_block_due (w : World) :
  fst (longer_than last_vitals_failed_debug 15000 w) = true ->
  let counting :=
    count_vitals_failed (snd (longer_than last_vitals_failed_debug 15000 w)) in
  snd (loop_vitals_failed_block true w) =
  snd (when (2 <=? fst counting) (
         d <- getF distance ;;
         (if fgt d (3 # 2) then simulate_vital_signs
          else
            robust_success <- get_vital_signs_robust ;;
            when (negb robust_success) simulate_vital_signs) ;;
         setU consecutive_vitals_failed_count 0) (snd counting)).
Proof.
  intros Hdue. cbv zeta. unfold loop_vitals_failed_block.
  unfold bind at 1. rewrite Hdue. reflexivity.
Qed.

(** What the all-data block does at a counted check. *)
Lemma loop_all_failed_block_due (w : World) :
  fst (longer_than last_all_failed_debug 10000 w) = true ->
  let counting :=
    count_all_failed (snd (longer_than last_all_failed_debug 10000 w)) in
  snd (loop_all_failed_block true w) =
  snd ((when (fst counting =? 3) test_serial_communication ;;
        when (fst counting =? 4) test_all_reset_methods ;;
        when (5 <=? fst counting) (
          reset_position_communication ;;
          delay 3000 ;;
          test_after_reset <- mmWave_update 3000 ;;
          when (negb test_after_reset) careful_sensor_reinitialization ;;
          verify_post_reset_functionality ;;
          setU consecutive_all_failed_count 0)) (snd counting)).
Proof.
  intros Hdue. cbv zeta. unfold loop_all_failed_block.
  unfold bind at 1. rewrite Hdue. reflexivity.
Qed.

(** The shape of the two blocks, whatever the recovery actions do. *)
Section EscalationShape.
Variables diagnose all_methods flush careful verify : Act unit.
Variable simulate : Act unit.
Variable robust : Act bool.
Variable counted : World.

Let escalate (c : Z) : Act unit :=
  when (c =? 3) diagnose ;;
  when (c =? 4) all_methods ;;
  when (5 <=? c) (
    flush ;;
    delay 3000 ;;
    test_after_reset <- mmWave_update 3000 ;;
    when (negb test_after_reset) careful ;;
    verify ;;
    setU consecutive_all_failed_count 0).

Let substitute (c : Z) : Act unit :=
  when (2 <=? c) (
    d <- getF distance ;;
    (if fgt d (3 # 2) then simulate
     else
       robust_success <- robust ;;
       when (negb robust_success) simulate) ;;
    setU consecutive_vitals_failed_count 0).

Lemma escalate_third : snd (escalate 3 counted) = snd (diagnose counted).
Proof. reflexivity. Qed.

Lemma escalate_fourth : snd (escalate 4 counted) = snd (all_methods counted).
Proof. reflexivity. Qed.

Lemma escalate_fifth (c : Z) :
  5 <= c ->
  let retest := mmWave_update 3000 (snd (delay 3000 (snd (flush counted)))) in
  ulongs (mem (snd (escalate c counted))) consecutive_all_failed_count = 0 /\
  (fst retest = false ->
     snd (escalate c counted) =
     snd ((careful ;; verify ;; setU consecutive_all_failed_count 0) (snd retest))) /\
  (fst retest = true ->
     snd (escalate c counted) =
     snd ((verify ;; setU consecutive_all_failed_count 0) (snd retest))).
Proof.
  intros H5. cbv zeta. unfold escalate.
  assert (E3 : (c =? 3) = false) by (apply Z.eqb_neq; lia).
  assert (E4 : (c =? 4) = false) by (apply Z.eqb_neq; lia).
  apply Z.leb_le in H5. rewrite E3, E4, H5. cbn [when].
  split; [|split].
  - unfold bind, setU. cbn [snd mem with_mem ulongs set_ulong].
    rewrite upd_same. reflexivity.
  - intros Hr. unfold bind at 1 2 3 4 5. cbn [ret fst snd].
    rewrite Hr. reflexivity.
  - intros Hr. unfold bind at 1 2 3 4 5. cbn [ret fst snd].
    rewrite Hr. reflexivity.
Qed.

Lemma substitute_second (c : Z) :
  2 <= c ->
  ulongs (mem (snd (substitute c counted))) consecutive_vitals_failed_count = 0 /\
  (fgt (floats (mem counted) distance) (3 # 2) = true ->
     snd (substitute c counted) =
     snd ((simulate ;; setU consecutive_vitals_failed_count 0) counted)) /\
  (fgt (floats (mem counted) distance) (3 # 2) = false ->
     snd (substitute c counted) =
     snd ((robust_success <- robust ;;
           when (negb robust_success) simulate ;;
           setU consecutive_vitals_failed_count 0) counted)).
Proof.
  intros H2. unfold substitute. apply Z.leb_le in H2. rewrite H2. cbn [when].
  split; [|split].
  - unfold bind, setU. cbn [snd mem with_mem ulongs set_ulong].
    rewrite upd_same. reflexivity.
  - intros Hd. unfold bind at 1. unfold getF at 1. cbn [fst snd].
    rewrite Hd. reflexivity.
  - intros Hd. unfold bind at 1. unfold getF at 1. cbn [fst snd].
    rewrite Hd. reflexivity.
Qed.
End EscalationShape.

(** C5 (amended).  At a counted check of failed vital signs that brings
    the counter to 2 or more, the best-effort read [get_vital_signs_robust]
    is attempted only when the distance is at most 1.5; beyond it the
    simulated values are substituted at once; the counter is cleared.  At
    the third counted check without any datum the block runs the serial
    diagnostics, at the fourth [test_all_reset_methods]; from the fifth on
    it empties the link, tests the driver again and restarts the link with
    [careful_sensor_reinitialization] only if that test fails: when the
    test succeeds no event of the pass restarts the link.  The counter is
    cleared from the fifth check on, whatever the recovery achieved. *)
Theorem C5_escalation_thresholds (w : World) :
  (fst (longer_than last_vitals_failed_debug 15000 w) = true ->
   let counting :=
     count_vitals_failed (snd (longer_than last_vitals_failed_debug 15000 w)) in
   let w' := snd (loop_vitals_failed_block true w) in
   2 <= fst counting ->
   ulongs (mem w') consecutive_vitals_failed_count = 0 /\
   (fgt (floats (mem (snd counting)) distance) (3 # 2) = true ->
      w' = snd ((simulate_vital_signs ;;
                 setU consecutive_vitals_failed_count 0) (snd counting))) /\
   (fgt (floats (mem (snd counting)) distance) (3 # 2) = false ->
      w' = snd ((robust_success <- get_vital_signs_robust ;;
                 when (negb robust_success) simulate_vital_signs ;;
                 setU consecutive_vitals_failed_count 0) (snd counting)))) /\
  (fst (longer_than last_all_failed_debug 10000 w) = true ->
   let counting :=
     count_all_failed (snd (longer_than last_all_failed_debug 10000 w)) in
   let w' := snd (loop_all_failed_block true w) in
   (fst counting = 3 -> w' = snd (test_serial_communication (snd counting))) /\
   (fst counting = 4 -> w' = snd (test_all_reset_methods (snd counting))) /\
   (5 <= fst counting ->
      let flushed := snd (reset_position_communication (snd counting)) in
      let retest := mmWave_update 3000 (snd (delay 3000 flushed)) in
      ulongs (mem w') consecutive_all_failed_count = 0 /\
      (fst retest = false ->
         w' = snd ((careful_sensor_reinitialization ;;
                    verify_post_reset_functionality ;;
                    setU consecutive_all_failed_count 0) (snd retest))) /\
      (fst retest = true ->
         w' = snd ((verify_post_reset_functionality ;;
                    setU consecutive_all_failed_count 0) (snd retest)) /\
         extends no_link_restart w w'))).
Proof.
  split.
  - intros Hdue. cbv zeta. intros Hc.
    rewrite (loop_vitals_failed_block_due w Hdue). cbv zeta.
    exact (substitute_second simulate_vital_signs get_vital_signs_robust _ _ Hc).
  - intros Hdue. cbv zeta.
    rewrite (loop_all_failed_block_due w Hdue). cbv zeta.
    set (counting := count_all_failed _).
    split; [|split].
    + intros H3. rewrite H3. apply escalate_third.
    + intros H4. rewrite H4. apply escalate_fourth.
    + intros H5.
      destruct (escalate_fifth test_serial_communication test_all_reset_methods
                  reset_position_communication careful_sensor_reinitialization
                  verify_post_reset_functionality (snd counting) _ H5)
        as (F1 & F2 & F3).
      split; [exact F1|]. split; [exact F2|].
      intros Hr. split; [exact (F3 Hr)|].
      rewrite (F3 Hr).
      eapply extends_trans;
        [exact (longer_than_no_restart last_all_failed_debug 10000 w)|].
      eapply extends_trans; [exact (count_all_failed_no_restart _)|].
      fold counting.
      eapply extends_trans;
        [exact (reset_position_communication_no_restart _)|].
      eapply extends_trans;
        [exact (rel_delay _ (proper_extends no_link_restart) 3000 _)|].
      eapply extends_trans;
        [exact (rel_mmWave_update _ (proper_extends no_link_restart) 3000 _)|].
      unfold bind.
      eapply extends_trans;
        [exact (verify_post_reset_functionality_no_restart _)|].
      apply extends_same_trace. apply setU_trace.
Qed.

(** ** The claims on the reset budget and on the counters *)

(** C1 (code defect).  Power-on with a sensor that never answers, one
    second going by at every clock read.  In the eighth pass of [loop()]
    counted from [first_loop], less than five minutes on the clock, the
    complete-failure check counts its fifth failure and runs
    [force_complete_sensor_reinitialization]: the serial link is closed and
    reopened and the driver started again, although [is_reset_safe] refuses
    a reset before and after the pass (less than [MIN_RESET_INTERVAL]
    since [last_reset_time_rtc]) and no reset was authorized.  The same
    check restarts the link with the three resets of the session used up.
    After the whole of [setup()] the same happens one pass earlier, see
    [forced_reinitialization_after_setup]. *)
Theorem C1_forced_reinitialization_ignores_budget :
  match loop_times 7 (first_loop (silent_oracle 1000)) with
  | Asleep _ => False
  | Awake w =>
      fst (is_reset_safe w) = false /\
      match loop w with
      | Asleep _ => False
      | Awake w' =>
          clock w' < MIN_RESET_INTERVAL /\
          ulongs (mem w') last_reset_time_rtc = 0 /\
          fst (is_reset_safe w') = false /\
          existsb (is_log MsgForcedReinit) (new_events w w') = true /\
          filter is_link_restart (new_events w w') =
            [SensorDriverBegin; SensorSerialBegin 115200; SensorSerialEnd] /\
          existsb (is_log MsgResetAuthorized) (trace w') = false
      end
  end /\
  (MAX_RESETS_PER_SESSION <= ulongs (mem budget_used_up) reset_count_this_session /\
   fst (is_reset_safe budget_used_up) = false /\
   filter is_link_restart (trace (snd (loop_complete_failure_check budget_used_up))) =
     [SensorDriverBegin; SensorSerialBegin 115200; SensorSerialEnd]).
Proof. vm_compute. repeat split; congruence. Qed.

(** The same run after the whole of [setup()]: the forced
    reinitialization comes in the seventh pass of [loop()], which ends a
    little more than five minutes after power-on, and the position
    recovery of that pass restarts the link once more. *)
Lemma forced_reinitialization_after_setup :
  let w := last_world (loop_times 6 (cold_boot (silent_oracle 1000))) in
  let w' := last_world (loop w) in
  is_asleep (loop_times 7 (cold_boot (silent_oracle 1000))) = false /\
  fst (is_reset_safe w) = false /\
  fst (is_reset_safe w') = false /\
  clock w' = 303000 /\
  existsb (is_log MsgForcedReinit) (new_events w w') = true /\
  filter is_link_restart (new_events w w') =
    [SensorDriverBegin; SensorSerialBegin 115200; SensorSerialEnd;
     SensorDriverBegin; SensorSerialBegin 115200; SensorSerialEnd] /\
  authorizations (trace w') = 0.
Proof. vm_compute. repeat split; reflexivity. Qed.

(** C4 (counterexample).  Power-on with a silent sensor: after fourteen
    passes of [loop()] the counter is at 14; the fifteenth pass asks for a
    reset, which is denied and logged, no link restart happens, and the
    counter is back at 0 instead of 15. *)
Lemma C4_denied_reset_clears_the_counter :
  match loop_times 14 (first_loop (silent_oracle 0)) with
  | Asleep _ => False
  | Awake w =>
      ulongs (mem w) consecutive_failures = 14 /\
      match loop w with
      | Asleep _ => False
      | Awake w' =>
          new_events w w' =
            [Log MsgResetCancelled; Log MsgResetWait; SensorPrint "TEST";
             Log (MsgReadFailure 15)] /\
          ulongs (mem w') consecutive_failures = 0
      end
  end.
Proof. vm_compute. repeat split. Qed.

Lemma loop_reading_failed_clears (w : World) :
  15 <= wrap32 (ulongs (mem w) consecutive_failures + 1) ->
  ulongs (mem (snd (loop_reading_failed w))) consecutive_failures = 0.
Proof.
  intros H. rewrite loop_reading_failed_counts. cbv zeta.
  apply Z.leb_le in H. rewrite H. reflexivity.
Qed.

Lemma loop_consecutive_failures_check_clears (w : World) :
  MAX_CONSECUTIVE_FAILURES <= ulongs (mem w) consecutive_failures ->
  ulongs (mem (snd (loop_consecutive_failures_check w))) consecutive_failures = 0.
Proof.
  intros H. unfold loop_consecutive_failures_check.
  hide safe_reset_sensor. hide is_reset_safe. hide reset_sensor_system.
  apply Z.leb_le in H. run. rewrite H. run. reflexivity.
Qed.

(** The preventive reset of lines 1859-1878 asks [safe_reset_sensor] and
    then [is_reset_safe]; with the resets of the session used up both
    refuse, and the block changes no variable. *)
Lemma loop_operation_time_check_capped (w : World) :
  MAX_RESETS_PER_SESSION <= ulongs (mem w) reset_count_this_session ->
  mem (snd (loop_operation_time_check w)) = mem w.
Proof.
  intros Hcap.
  assert (Hden : forall v, mem v = mem w -> fst (is_reset_safe v) = false).
  { intros v Hv. rewrite is_reset_safe_answer, Hv.
    apply Z.leb_le in Hcap. rewrite Hcap. reflexivity. }
  assert (Hmem : forall v, mem (snd (is_reset_safe v)) = mem v)
    by exact same_mem_is_reset_safe.
  assert (Hsafe : forall v, mem v = mem w ->
                            mem (snd (safe_reset_sensor v)) = mem w).
  { intros v Hv. rewrite (safe_reset_sensor_denied v (Hden v Hv)).
    cbn [mem with_trace]. rewrite Hmem. exact Hv. }
  revert Hden Hmem Hsafe. unfold loop_operation_time_check.
  generalize safe_reset_sensor is_reset_safe reset_sensor_system.
  intros safe_reset check_safe reset_system Hden Hmem Hsafe. run.
  destruct (7200 <? _); [|reflexivity].
  destruct (_ mod 7200 <? 60); [|reflexivity]. run.
  match goal with
  | |- context [safe_reset ?v] =>
      pose proof (Hsafe v eq_refl) as H1; revert H1;
      generalize (snd (safe_reset v)); intros w1 H1
  end.
  destruct (0 <? ulongs (mem w1) consecutive_failures); run.
  - rewrite (Hden w1 H1). run. rewrite Hmem. exact H1.
  - exact H1.
Qed.

(** C4 (amended).  A reset that [is_reset_safe] refuses leaves every
    variable as it was inside [safe_reset_sensor], which only logs the
    reason and the cancellation and touches no device; the two places of
    [loop()] that ask for the reset on failures then set
    [consecutive_failures] to 0, as they do after an authorized reset;
    the third place that asks, the preventive reset after two hours,
    leaves every variable as it was when the resets of the session are
    used up. *)
Theorem C4_denied_reset (w : World) :
  fst (is_reset_safe w) = false ->
  mem (snd (safe_reset_sensor w)) = mem w /\
  (exists reason, (reason = MsgResetLimit \/ reason = MsgResetWait) /\
     trace (snd (safe_reset_sensor w)) =
     Log MsgResetCancelled :: Log reason :: trace w) /\
  (forall before,
     15 <= wrap32 (ulongs (mem before) consecutive_failures + 1) ->
     ulongs (mem (snd (loop_reading_failed before))) consecutive_failures = 0) /\
  (forall before,
     MAX_CONSECUTIVE_FAILURES <= ulongs (mem before) consecutive_failures ->
     ulongs (mem (snd (loop_consecutive_failures_check before)))
       consecutive_failures = 0) /\
  (forall before,
     MAX_RESETS_PER_SESSION <= ulongs (mem before) reset_count_this_session ->
     mem (snd (loop_operation_time_check before)) = mem before).
Proof.
  intros Hden. rewrite (safe_reset_sensor_denied w Hden).
  cbn [mem trace with_trace].
  split; [apply (same_mem_is_reset_safe w)|]. split.
  - destruct (is_reset_safe_trace w) as [[Ht _]|[_ [r [Hr Ht]]]]; [congruence|].
    exists r. split; [exact Hr|]. rewrite Ht. reflexivity.
  - split; [exact loop_reading_failed_clears|].
    split; [exact loop_consecutive_failures_check_clears
           | exact loop_operation_time_check_capped].
Qed.

Lemma C4_denied_reset_witness :
  fst (is_reset_safe (first_loop (silent_oracle 0))) = false /\
  mem (snd (safe_reset_sensor (first_loop (silent_oracle 0)))) =
  mem (first_loop (silent_oracle 0)).
Proof.
  split; [reflexivity|].
  apply (C4_denied_reset (first_loop (silent_oracle 0))). reflexivity.
Defined.

(** ** The claims on escalation, deep sleep and substitution *)

(** C5 (counterexample).  The fifth counted cycle without any datum, the
    link answering the re-test: the block flushes the receive buffer and
    clears the counter; the link is not restarted and the sensor not
    reinitialized.  And a second counted cycle without vital signs, the
    subject two metres away: the values are simulated at once and no
    recovery read is attempted. *)
Lemma C5_fifth_failure_without_reinitialization :
  trace (snd (loop_all_failed_block true fifth_all_failed)) =
    [SensorDrain; Log (MsgAllFailed 5)] /\
  existsb is_link_restart
    (trace (snd (loop_all_failed_block true fifth_all_failed))) = false /\
  ulongs (mem (snd (loop_all_failed_block true fifth_all_failed)))
    consecutive_all_failed_count = 0 /\
  trace (snd (loop_vitals_failed_block true second_vitals_failure_far)) =
    [Log (MsgSimulated 14 65); Log (MsgVitalsFailed 2)] /\
  existsb (is_log MsgRobustAttempt)
    (trace (snd (loop_vitals_failed_block true second_vitals_failure_far))) = false.
Proof. vm_compute. repeat split. Qed.

(** C6 (code defect).  A pass of [loop()] an hour after the first one
    ends in the hourly deep sleep: [is_hourly_sleep_mode] is set,
    [last_hourly_sleep] is the tick of the decision (one second, the
    [delay(1000)] of [enter_deep_sleep], before the chip sleeps) and the
    sleep primitive is called for [DEEP_SLEEP_DURATION].  Across the deep sleep
    [last_hourly_sleep], which is [RTC_DATA_ATTR], keeps its value and
    [is_hourly_sleep_mode], which is not, is false again: [setup()] then
    takes the branch of a normal wake-up, not the hourly one. *)
Theorem C6_hourly_flag_lost_in_deep_sleep :
  match loop after_an_hour with
  | Awake _ => False
  | Asleep asleep =>
      hd_error (trace asleep) = Some (DeepSleep DEEP_SLEEP_DURATION) /\
      bools (mem asleep) is_hourly_sleep_mode = true /\
      ulongs (mem asleep) last_hourly_sleep = clock asleep - 1000 /\
      ulongs (mem (wake_from_deep_sleep asleep)) last_hourly_sleep =
        ulongs (mem asleep) last_hourly_sleep /\
      bools (mem (wake_from_deep_sleep asleep)) is_hourly_sleep_mode = false /\
      filter (fun e => is_log MsgWokeHourly e || is_log MsgWokeNormal e)
        (trace (snd (setup_until_wakeup_check true (wake_from_deep_sleep asleep)))) =
        [Log MsgWokeNormal]
  end.
Proof. vm_compute. repeat split. Qed.


(** C9 (code defect).  A reset of the link runs outside the budget in
    two ways.  First, in a sensing cycle that counts its fourth cycle in
    a row without any basic datum, [test_all_reset_methods] ends in
    [reset_sensor_via_serial] when the sensor answers neither of its two
    commands: the link is closed and reopened and the driver started
    again with the three resets of the session used up, [is_reset_safe]
    refusing before and after; nothing is authorized or counted and
    [last_reset_time_rtc] is not marked.  This is the defect of C1, on
    another path.  Second, the budget itself measures the interval on a
    clock that starts again at every wake-up: a sensor that delivers for
    half an hour and then falls silent gets a reset authorized 2 150 s
    after power-on, the node goes to its emergency sleep 361.5 s later,
    sleeps 60 s, and 432 s after the wake-up [safe_reset_sensor]
    authorizes the next reset, 853.5 s after the last one instead of the
    1800 s of [MIN_RESET_INTERVAL]. *)
Theorem C9_reset_outside_the_budget :
  (let w := fourth_all_failed_capped in
   let w' := snd (loop_sensing w) in
   fst (is_reset_safe w) = false /\
   fst (is_reset_safe w') = false /\
   filter is_link_restart (new_events w w') =
     [SensorDriverBegin; SensorSerialBegin 115200; SensorSerialEnd] /\
   authorizations (new_events w w') = 0 /\
   ulongs (mem w') reset_count_this_session =
     ulongs (mem w) reset_count_this_session /\
   ulongs (mem w') last_reset_time_rtc = ulongs (mem w) last_reset_time_rtc) /\
  (let first_session := loop_times 81 (cold_boot (failing_after 70 1000)) in
   let asleep := last_world first_session in
   let woken := snd (setup true (wake_from_deep_sleep asleep)) in
   let second_session := loop_times 11 woken in
   let w := last_world second_session in
   is_asleep first_session = true /\
   is_asleep second_session = false /\
   authorizations (trace asleep) = 1 /\
   ulongs (mem asleep) last_reset_time_rtc = 2150000 /\
   clock asleep = 2511500 /\
   hd (Log MsgResetCancelled) (trace asleep) = DeepSleep DEEP_SLEEP_DURATION /\
   authorizations (new_events woken w) = 1 /\
   ulongs (mem w) last_reset_time_rtc = 432000 /\
   (clock asleep - ulongs (mem asleep) last_reset_time_rtc)
     + DEEP_SLEEP_DURATION / 1000
     + ulongs (mem w) last_reset_time_rtc < MIN_RESET_INTERVAL).
Proof. split; vm_compute; repeat split; reflexivity. Qed.

(** C10.  In a cycle whose vital signs are missing, when the rate-limited
    check is due, counts at least its second failure, and either the
    distance exceeds 1.5 or the robust retry fails, and the two statics of
    [simulate_vital_signs] are in range (as they are at power-on and after
    every pass of [loop()]): the block leaves [breath_rate] in [12, 25]
    and [heart_rate] in [60, 100], logs them as simulated on the console,
    and the cycle sends exactly these two values in its telemetry record,
    whose fields are the two rates and the position and nothing else: a
    cycle holding the same four values from the sensor sends the same
    record. *)
Theorem C10_simulated_vital_signs_in_telemetry (all_data_failed : bool) (w : World) :
  sim_ok (mem w) ->
  fst (longer_than last_vitals_failed_debug 15000 w) = true ->
  2 <= fst (count_vitals_failed
              (snd (longer_than last_vitals_failed_debug 15000 w))) ->
  fgt (floats (mem w) distance) (3 # 2) = true \/
  fst (get_vital_signs_robust
         (snd (count_vitals_failed
                 (snd (longer_than last_vitals_failed_debug 15000 w))))) = false ->
  let w' := snd (loop_vitals_failed_block true w) in
  let b := floats (mem w') breath_rate in
  let h := floats (mem w') heart_rate in
  ((12 <= b)%Q /\ (b <= 25)%Q) /\
  ((60 <= h)%Q /\ (h <= 100)%Q) /\
  (exists older, trace w' = Log (MsgSimulated b h) :: older) /\
  (exists x y older,
     trace (snd (loop_after_vitals true all_data_failed w')) =
     Telemetry b h x y :: older) /\
  (forall genuine : World,
     floats (mem genuine) breath_rate = b ->
     floats (mem genuine) heart_rate = h ->
     forall simulated : World,
     floats (mem simulated) breath_rate = b ->
     floats (mem simulated) heart_rate = h ->
     floats (mem simulated) x_position = floats (mem genuine) x_position ->
     floats (mem simulated) y_position = floats (mem genuine) y_position ->
     hd_error (trace (snd (loop_send_data simulated))) =
     hd_error (trace (snd (loop_send_data genuine)))).
Proof.
  intros Hok Hdue Hc Htrig.
  destruct (loop_vitals_failed_block_substitutes w Hok Hdue Hc Htrig)
    as ([Sb Sh] & Eb & Eh & Ht).
  cbv zeta. rewrite Eb, Eh.
  split; [exact Sb|]. split; [exact Sh|]. split.
  - rewrite <- Eb, <- Eh. exact Ht.
  - split.
    + rewrite <- Eb, <- Eh. apply loop_after_vitals_sends.
    + intros g Gb Gh s Hb Hh Hx Hy. rewrite !loop_send_data_trace.
      cbn [hd_error]. congruence.
Qed.

Lemma C10_simulated_vital_signs_in_telemetry_witness :
  sim_ok (mem second_vitals_failure_far) /\
  (exists older,
     trace (snd (loop_vitals_failed_block true second_vitals_failure_far)) =
     Log (MsgSimulated
            (floats (mem (snd (loop_vitals_failed_block true
                                 second_vitals_failure_far))) breath_rate)
            (floats (mem (snd (loop_vitals_failed_block true
                                 second_vitals_failure_far))) heart_rate))
     :: older).
Proof.
  assert (Hok : sim_ok (mem second_vitals_failure_far)).
  { unfold sim_ok. cbn. repeat split; discriminate. }
  split; [exact Hok|].
  apply (C10_simulated_vital_signs_in_telemetry true second_vitals_failure_far Hok).
  - reflexivity.
  - vm_compute. discriminate.
  - left. reflexivity.
Defined.

(** * Further properties of the sketch *)

(** ** The interval timer and the time left until the hourly sleep *)

(** X1.  [check_timeout_safe] never answers early, and at most one tick late:
    when it answers true the wrapped distance from the mark exceeds the
    timeout, and it answers true as soon as the distance exceeds the
    timeout by more than one tick (the one tick is lost across a
    wraparound of [millis()] only). *)
Theorem check_timeout_safe_at_most_one_tick_late (now mark timeout : Z) :
  in_u32 now -> in_u32 mark -> in_u32 timeout ->
  (check_timeout_safe_at now mark timeout = true ->
     timeout < wrap32 (now - mark)) /\
  (timeout + 1 < wrap32 (now - mark) ->
     check_timeout_safe_at now mark timeout = true) /\
  (mark <= now ->
     (check_timeout_safe_at now mark timeout = true <-> timeout < now - mark)) /\
  (now < mark ->
     (check_timeout_safe_at now mark timeout = true <->
      timeout + 1 < wrap32 (now - mark))).
Proof.
  intros Hn Hm Ht. rewrite check_timeout_safe_at_elapsed.
  unfold elapsed_time_safe.
  destruct (Z.ltb_spec now mark) as [Hlt|Hge].
  - rewrite (wraparound_total_time_one_short now mark Hn Hm Hlt).
    rewrite Z.ltb_lt. repeat split; intros; lia.
  - rewrite (wrap32_small (now - mark)) by (unfold in_u32 in *; lia).
    rewrite Z.ltb_lt. repeat split; intros; lia.
Qed.

Lemma check_timeout_safe_at_most_one_tick_late_witness :
  8 < wrap32 (5 - 4294967290).
Proof.
  apply (check_timeout_safe_at_most_one_tick_late 5 4294967290 8);
    [unfold in_u32; lia .. | reflexivity].
Defined.

(** X2.  [get_time_until_next_sleep] answers a time between 0 and
    [HOURLY_SLEEP_INTERVAL]: 0 exactly when the elapsed time it computes
    (the one of [check_timeout_safe]) has reached the interval, and the
    rest of the interval otherwise; whenever [check_timeout_safe] finds the
    hourly sleep due, the answer is 0.  It changes no variable. *)
Theorem get_time_until_next_sleep_remaining (w : World) :
  in_u32 (ulongs (mem w) last_hourly_sleep) ->
  let remaining := fst (get_time_until_next_sleep w) in
  let elapsed :=
    elapsed_time_safe (fst (millis w)) (ulongs (mem w) last_hourly_sleep) in
  0 <= remaining <= HOURLY_SLEEP_INTERVAL /\
  (remaining = 0 <-> HOURLY_SLEEP_INTERVAL <= elapsed) /\
  (0 < remaining -> remaining + elapsed = HOURLY_SLEEP_INTERVAL) /\
  (check_timeout_safe_at (fst (millis w)) (ulongs (mem w) last_hourly_sleep)
     HOURLY_SLEEP_INTERVAL = true -> remaining = 0) /\
  mem (snd (get_time_until_next_sleep w)) = mem w.
Proof.
  intros Hl. cbv zeta. rewrite check_timeout_safe_at_elapsed.
  unfold get_time_until_next_sleep. run.
  set (now := wrap32 _).
  assert (Hn : in_u32 now) by apply wrap32_range.
  unfold get_time_until_next_sleep_at, elapsed_time_safe, wraparound_total_time.
  cbv zeta.
  set (e := if now <? ulongs (mem w) last_hourly_sleep then _ else _).
  assert (He : in_u32 e) by (unfold e; destruct (now <? _); apply wrap32_range).
  unfold HOURLY_SLEEP_INTERVAL in *. unfold in_u32 in *.
  destruct (Z.leb_spec (60 * 60 * 1000) e) as [Hd|Hd].
  - rewrite Z.ltb_lt. repeat split; intros; lia.
  - rewrite wrap32_small by (unfold in_u32; lia).
    rewrite Z.ltb_lt. repeat split; intros; lia.
Qed.

Lemma get_time_until_next_sleep_remaining_witness :
  0 <= fst (get_time_until_next_sleep after_an_hour) <= HOURLY_SLEEP_INTERVAL.
Proof.
  apply (get_time_until_next_sleep_remaining after_an_hour).
  vm_compute. split; [discriminate | reflexivity].
Defined.

(** ** The heap watermarks: [check_memory_status] *)

(** X3.  After [check_memory_status] the two watermarks bracket the heap size
    just read: [min_free_heap] is the smaller of its old value and the
    reading, [max_free_heap] the larger, so the minimum never rises and
    the maximum never falls; no other variable changes. *)
Theorem check_memory_status_watermarks (w : World) :
  let reading := fst (esp_get_free_heap_size w) in
  let w' := snd (check_memory_status w) in
  ulongs (mem w') min_free_heap = Z.min (ulongs (mem w) min_free_heap) reading /\
  ulongs (mem w') max_free_heap = Z.max (ulongs (mem w) max_free_heap) reading /\
  ulongs (mem w') min_free_heap <= reading <= ulongs (mem w') max_free_heap /\
  (forall v, v <> min_free_heap -> v <> max_free_heap ->
             ulongs (mem w') v = ulongs (mem w) v) /\
  ints (mem w') = ints (mem w) /\ bools (mem w') = bools (mem w) /\
  floats (mem w') = floats (mem w) /\ trace w' = trace w.
Proof.
  cbv zeta. unfold check_memory_status. run.
  set (reading := wrap32 _).
  assert (Hr : wrap32 reading = reading) by apply wrap32_idem.
  destruct (Z.ltb_spec reading (ulongs (mem w) min_free_heap)) as [Hlo|Hlo]; run;
    (destruct (Z.ltb_spec (ulongs (mem w) max_free_heap) reading) as [Hhi|Hhi]; run);
    rewrite ?Hr;
    (repeat split; try lia;
     try (intros v H1 H2; rewrite ?upd_other by congruence; reflexivity)).
Qed.

(** ** The simulated vital signs drift slowly *)

Lemma variation_range (raw span lo : Z) :
  0 < span ->
  (inject_Z lo <= inject_Z (Z.abs raw mod span + lo))%Q /\
  (inject_Z (Z.abs raw mod span + lo) <= inject_Z (lo + span - 1))%Q.
Proof.
  intros H. pose proof (Z.mod_pos_bound (Z.abs raw) span H).
  split; rewrite <- Zle_Qle; lia.
Qed.

(** X4.  One call of [simulate_vital_signs] moves the simulated breath rate by
    at most 2 and the simulated heart rate by at most 5, and not at all
    when at most 5000 ms passed since the values were last changed. *)
Theorem simulate_vital_signs_drift (w : World) :
  sim_ok (mem w) ->
  let w' := snd (simulate_vital_signs w) in
  (floats (mem w) sim_breath - 2 <= floats (mem w') sim_breath)%Q /\
  (floats (mem w') sim_breath <= floats (mem w) sim_breath + 2)%Q /\
  (floats (mem w) sim_heart - 5 <= floats (mem w') sim_heart)%Q /\
  (floats (mem w') sim_heart <= floats (mem w) sim_heart + 5)%Q /\
  (wrap32 (fst (millis w) - ulongs (mem w) last_simulation) <= 5000 ->
   floats (mem w') sim_breath = floats (mem w) sim_breath /\
   floats (mem w') sim_heart = floats (mem w) sim_heart).
Proof.
  intros [[Hb1 Hb2] [Hh1 Hh2]]. cbv zeta. unfold simulate_vital_signs. run.
  destruct (Z.ltb_spec 5000 (wrap32 (wrap32 (clock w + Z.of_N (tick_at (oracle w) (calls w Cmillis))) - ulongs (mem w) last_simulation))) as [Hdue|Hdue]; run.
  - change (3 <=? -2) with false. change (6 <=? -5) with false. cbv iota.
    match goal with
    | |- context [random_at ?o ?n] =>
        pose proof (variation_range (random_at o n) (3 - -2) (-2) eq_refl) as R1;
        pose proof (variation_range (random_at o (S n)) (6 - -5) (-5) eq_refl) as R2;
        revert R1 R2;
        generalize (inject_Z (Z.abs (random_at o n) mod (3 - -2) + -2));
        generalize (inject_Z (Z.abs (random_at o (S n)) mod (6 - -5) + -5))
    end.
    intros r2 r1 [R1a R1b] [R2a R2b].
    change (inject_Z (-2)) with (-2)%Q in R1a.
    change (inject_Z (-2 + (3 - -2) - 1)) with 2%Q in R1b.
    change (inject_Z (-5)) with (-5)%Q in R2a.
    change (inject_Z (-5 + (6 - -5) - 1)) with 5%Q in R2b.
    set (b1 := (floats (mem w) sim_breath + r1)%Q).
    set (h1 := (floats (mem w) sim_heart + r2)%Q).
    pose proof (clamp_range 12 25 b1 ltac:(discriminate)) as Cb.
    pose proof (clamp_range 60 100 h1 ltac:(discriminate)) as Ch.
    cbv zeta in Cb, Ch. unfold fgt in *.
    destruct (flt b1 12) eqn:E1; run;
      (destruct (flt 25 _) eqn:E2; run);
      (destruct (flt h1 60) eqn:E3; run);
      (destruct (flt 100 _) eqn:E4; run);
      repeat match goal with
             | H : flt _ _ = true |- _ => apply flt_true in H
             | H : flt _ _ = false |- _ => apply flt_false in H
             end;
      subst b1 h1;
      (repeat split; try lra; intros; lia).
  - repeat split; try lra; reflexivity.
Qed.

Lemma simulate_vital_signs_drift_witness :
  (floats (mem second_vitals_failure_far) sim_breath - 2 <=
   floats (mem (snd (simulate_vital_signs second_vitals_failure_far))) sim_breath)%Q.
Proof.
  apply (simulate_vital_signs_drift second_vitals_failure_far).
  unfold sim_ok. cbn. repeat split; discriminate.
Defined.

(** ** The robust read of the vital signs *)

Lemma get_vital_signs_robust_from_answer (n : nat) (w : World) :
  let r := get_vital_signs_robust_from n w in
  (fst r = true -> some_vital (mem (snd r)) = true) /\
  (some_vital (mem w) = false -> fst r = false -> some_vital (mem (snd r)) = false).
Proof.
  revert w. induction n as [|n IH]; intros w; cbv zeta; cbn [get_vital_signs_robust_from].
  - run. split; [discriminate | auto].
  - run. destruct (update_at _ _); run.
    + destruct (breath_at _ _) as [b|]; run;
        (destruct (heart_at _ _) as [h|]; run);
        match goal with
        | |- context [if ?c then _ else _] => destruct c eqn:Found
        end; run;
        try (split; [intros _; unfold some_vital; run; exact Found | discriminate]);
        match goal with
        | |- context [get_vital_signs_robust_from n ?w1] =>
            destruct (IH w1) as [I1 I2]; split; [exact I1 | intros _; apply I2;
              unfold some_vital; run; exact Found]
        end.
    + match goal with
      | |- context [get_vital_signs_robust_from n ?w1] =>
          destruct (IH w1) as [I1 I2]; split; [exact I1 | exact I2]
      end.
Qed.

(** X5.  [get_vital_signs_robust] answers true only with a positive breath or
    heart rate in the two variables; called, as [loop()] does, when neither
    is positive, it answers false only when neither is positive
    afterwards either.  It writes no other variable. *)
Theorem get_vital_signs_robust_answer (w : World) :
  let r := get_vital_signs_robust w in
  (fst r = true -> some_vital (mem (snd r)) = true) /\
  (some_vital (mem w) = false -> fst r = false ->
     some_vital (mem (snd r)) = false) /\
  ulongs (mem (snd r)) = ulongs (mem w) /\
  ints (mem (snd r)) = ints (mem w) /\
  bools (mem (snd r)) = bools (mem w) /\
  (forall v, v <> breath_rate -> v <> heart_rate ->
             floats (mem (snd r)) v = floats (mem w) v).
Proof.
  cbv zeta. unfold get_vital_signs_robust. run.
  match goal with
  | |- context [get_vital_signs_robust_from 5 ?w1] =>
      destruct (get_vital_signs_robust_from_answer 5 w1) as [A1 A2];
      pose proof (rel_get_vital_signs_robust_from
        (frame (fun m m' => ulongs m' = ulongs m /\ ints m' = ints m /\
                            bools m' = bools m /\
                            forall v, v <> breath_rate -> v <> heart_rate ->
                                      floats m' v = floats m v)) 5) as F;
      specialize (fun P Hb Hh => F P Hb Hh w1)
  end.
  split; [exact A1|]. split; [exact A2|].
  apply F.
  - apply proper_frame.
    + intros m. auto.
    + intros a b c (U1 & I1 & B1 & F1) (U2 & I2 & B2 & F2).
      repeat split; try congruence. intros v H1 H2.
      rewrite F2, F1 by assumption. reflexivity.
  - intros w0 x. unfold frame. cbn. repeat split; try reflexivity.
    intros v H1 H2. apply upd_other. congruence.
  - intros w0 x. unfold frame. cbn. repeat split; try reflexivity.
    intros v H1 H2. apply upd_other. congruence.
Qed.

(** ** The inactivity detector *)

(** X6.  [detect_sensor_inactive_mode] reports inactivity only in a call in
    which none of the three getters delivers, and only after the sensor
    was seen active before: a delivering getter makes the answer false and
    marks the sensor active; and as long as the sensor has never been seen
    active (the state after boot), a call without data answers false and
    leaves that state as it is. *)
Theorem detect_sensor_inactive_mode_answer (w : World) :
  let r := detect_sensor_inactive_mode w in
  (sensor_delivers w = true ->
     fst r = false /\
     bools (mem (snd r)) was_active = true /\
     ulongs (mem (snd r)) inactive_start_time = 0) /\
  (fst r = true ->
     sensor_delivers w = false /\
     0 < ulongs (mem (snd r)) inactive_start_time /\
     bools (mem (snd r)) was_active = false) /\
  (sensor_delivers w = false ->
   bools (mem w) was_active = false ->
   ulongs (mem w) inactive_start_time = 0 ->
     fst r = false /\
     bools (mem (snd r)) was_active = false /\
     ulongs (mem (snd r)) inactive_start_time = 0).
Proof.
  cbv zeta. unfold sensor_delivers, detect_sensor_inactive_mode. run.
  destruct (breath_at _ _) as [b|]; destruct (heart_at _ _) as [h|];
    destruct (distance_at _ _) as [d|]; cbn [delivers orb]; run;
    try (split; [auto | split; [discriminate | discriminate]]).
  destruct (bools (mem w) was_active) eqn:Wa; run.
  - set (t := wrap32 (wrap32 _)).
    destruct (Z.ltb_spec 0 t) as [Ht|Ht]; run.
    + split; [discriminate|]. split; [auto | discriminate].
    + split; [discriminate|]. split; [discriminate | discriminate].
  - destruct (Z.ltb_spec 0 (ulongs (mem w) inactive_start_time)) as [Ht|Ht]; run.
    + split; [discriminate|]. split; [auto | intros _ _ E; lia].
    + split; [discriminate|]. split; [discriminate | auto].
Qed.

(** ** More rules for relations between worlds *)

Section LoopRules.
Variable R : World -> World -> Prop.
Hypothesis PR : proper_rel R.

Lemma rel_probe_sensor (n : nat) : rel R (probe_sensor n).
Proof.
  induction n as [|n IH]; cbn [probe_sensor];
    repeat first [ rel_structure PR | exact IH ].
Qed.

Lemma rel_wait_for_response (n : nat) (start : Z) :
  rel R (wait_for_response n start).
Proof.
  induction n as [|n IH]; cbn [wait_for_response];
    repeat first [ rel_structure PR | exact IH ].
Qed.

Lemma loop_emergency_sleep_awake (w w1 : World) :
  loop_emergency_sleep w = Awake w1 -> w1 = snd (millis w).
Proof.
  unfold loop_emergency_sleep.
  destruct ((last <- getU last_data_received ;;
             check_timeout_safe last RESET_TIMEOUT) w) as [due w'] eqn:E.
  revert E. run. intros E. inversion E; subst; clear E.
  destruct (check_timeout_safe_at _ _ _); [discriminate|].
  intros H. inversion H. reflexivity.
Qed.

Hypothesis before : rel R loop_before_sleep.
Hypothesis after : rel R loop_after_sleep.

(** A relation that the blocks of [loop()] keep holds over a pass that
    returns, and over any number of them. *)
Lemma loop_awake_rel (w w' : World) : loop w = Awake w' -> R w w'.
Proof.
  unfold loop.
  pose proof (before w) as Hb. revert Hb.
  generalize (snd (loop_before_sleep w)). intros w0 Hb.
  destruct (loop_hourly_sleep w0) as [w1|w1] eqn:E1; [|discriminate].
  destruct (loop_emergency_sleep w1) as [w2|w2] eqn:E2; [|discriminate].
  pose proof (after w2) as Ha. revert Ha.
  generalize (snd (loop_after_sleep w2)). intros w3 Ha H.
  assert (E : w3 = w') by congruence. subst w3.
  apply loop_hourly_sleep_awake in E1. destruct E1 as [E1 _].
  apply loop_emergency_sleep_awake in E2.
  assert (H01 : R w0 w1) by (rewrite E1; apply (rel_millis R PR)).
  assert (H12 : R w1 w2) by (rewrite E2; apply (rel_millis R PR)).
  exact (pr_trans R PR _ _ _ Hb
           (pr_trans R PR _ _ _ H01 (pr_trans R PR _ _ _ H12 Ha))).
Qed.

Lemma loop_times_awake_rel (n : nat) (w w' : World) :
  loop_times n w = Awake w' -> R w w'.
Proof.
  revert w. induction n as [|n IH]; intros w; cbn [loop_times].
  - intros H. inversion H. apply (pr_refl R PR).
  - destruct (loop w) as [w1|w1] eqn:E; [|discriminate].
    intros H. eapply (pr_trans R PR); [exact (loop_awake_rel w w1 E) | exact (IH w1 H)].
Qed.
End LoopRules.

Ltac rel_leaf PR side :=
  lazymatch goal with
  | |- rel _ (emit _) => apply rel_emit; side
  | |- rel _ (setU _ _) => apply rel_setU; side
  | |- rel _ (setI _ _) => apply rel_setI; side
  | |- rel _ (setB _ _) => apply rel_setB; side
  | |- rel _ (setF _ _) => apply rel_setF; side
  | |- rel _ (probe_sensor _) => apply (rel_probe_sensor _ PR)
  | |- rel _ (wait_for_response _ _) => apply (rel_wait_for_response _ PR)
  | |- rel _ (get_vital_signs_robust_from _) =>
      apply (rel_get_vital_signs_robust_from _ _ PR); side
  end.

(** [known] closes the goals about functions already dealt with, [side]
    the conditions on single writes and events. *)
Ltac rel_go PR side known :=
  repeat first [ known | rel_structure PR | rel_leaf PR side | rel_unfold ].

(** ** The reset budget over a session *)

(** [reset_count_this_session] counts the authorizations in the log and
    stays within [MAX_RESETS_PER_SESSION]. *)
Definition budget_counted (w w' : World) : Prop :=
  0 <= ulongs (mem w) reset_count_this_session <= MAX_RESETS_PER_SESSION ->
  exists es,
    trace w' = es ++ trace w /\
    ulongs (mem w') reset_count_this_session =
      ulongs (mem w) reset_count_this_session + authorizations es /\
    ulongs (mem w') reset_count_this_session <= MAX_RESETS_PER_SESSION.

Lemma authorizations_nonneg es : 0 <= authorizations es.
Proof. unfold authorizations. lia. Qed.

Lemma authorizations_app es1 es2 :
  authorizations (es1 ++ es2) = authorizations es1 + authorizations es2.
Proof.
  unfold authorizations. rewrite filter_app, length_app. lia.
Qed.

Lemma budget_counted_same (w w' : World) :
  trace w' = trace w ->
  ulongs (mem w') reset_count_this_session = ulongs (mem w) reset_count_this_session ->
  budget_counted w w'.
Proof.
  intros Ht Hc Hpre. exists []. rewrite Ht, Hc. cbn.
  repeat split; lia.
Qed.

Lemma budget_counted_event (w : World) (e : Event) :
  is_authorization e = false ->
  budget_counted w (with_trace w (e :: trace w)).
Proof.
  intros He Hpre. exists [e]. cbn [trace with_trace mem app].
  unfold authorizations. cbn [filter]. rewrite He. cbn.
  repeat split; lia.
Qed.

Lemma proper_budget_counted : proper_rel budget_counted.
Proof.
  constructor.
  - intros w. apply budget_counted_same; reflexivity.
  - intros a b c Hab Hbc Hpre.
    destruct (Hab Hpre) as (e1 & T1 & C1 & M1).
    pose proof (authorizations_nonneg e1).
    destruct (Hbc ltac:(lia)) as (e2 & T2 & C2 & M2).
    exists (e2 ++ e1). rewrite authorizations_app, T2, T1, app_assoc.
    repeat split; lia.
  - split; intros w ?; apply budget_counted_same; reflexivity.
Qed.

Ltac budget_side :=
  solve [ intros; apply budget_counted_same; reflexivity
        | intros; apply budget_counted_event; reflexivity ].

Lemma is_reset_safe_budget_counted : rel budget_counted is_reset_safe.
Proof. rel_go proper_budget_counted budget_side fail. Qed.

Lemma reset_sensor_via_serial_budget_counted :
  rel budget_counted reset_sensor_via_serial.
Proof. rel_go proper_budget_counted budget_side fail. Qed.

Lemma safe_reset_sensor_budget_counted : rel budget_counted safe_reset_sensor.
Proof.
  intros w Hpre. destruct (fst (is_reset_safe w)) eqn:E.
  - rewrite (safe_reset_sensor_authorized w E).
    rewrite (is_reset_safe_authorized_world w E).
    rewrite is_reset_safe_answer in E. apply andb_true_iff in E.
    destruct E as [E _]. apply negb_true_iff, Z.leb_gt in E.
    set (marked := snd (_ (snd (millis w)))).
    assert (Ht : trace marked = Log MsgResetAuthorized :: trace w) by reflexivity.
    assert (Hc : ulongs (mem marked) reset_count_this_session =
                 ulongs (mem w) reset_count_this_session + 1).
    { unfold marked. run. apply wrap32_small. unfold in_u32.
      unfold MAX_RESETS_PER_SESSION in *. lia. }
    destruct (reset_sensor_via_serial_budget_counted marked) as (es & T & C & M);
      [lia|].
    exists (es ++ [Log MsgResetAuthorized]).
    rewrite authorizations_app, T, Ht, C, Hc, <- app_assoc.
    change (authorizations [Log MsgResetAuthorized]) with 1.
    repeat split; lia.
  - rewrite (safe_reset_sensor_denied w E).
    destruct (is_reset_safe_budget_counted w Hpre) as (es & T & C & M).
    exists (Log MsgResetCancelled :: es). cbn [trace with_trace mem].
    rewrite T. change (authorizations (Log MsgResetCancelled :: es))
      with (authorizations es).
    repeat split; lia.
Qed.

Ltac budget_known :=
  idtac;
  lazymatch goal with
  | |- rel _ safe_reset_sensor => exact safe_reset_sensor_budget_counted
  end.

Lemma loop_before_sleep_budget_counted : rel budget_counted loop_before_sleep.
Proof. rel_go proper_budget_counted budget_side budget_known. Qed.

Lemma loop_after_sleep_budget_counted : rel budget_counted loop_after_sleep.
Proof. rel_go proper_budget_counted budget_side budget_known. Qed.

(** A run that is not asleep is awake in its last world. *)
Lemma awake_last_world (r : Run) : is_asleep r = false -> r = Awake (last_world r).
Proof. destruct r; [reflexivity | discriminate]. Qed.

(** X7.  Over any number of passes of [loop()] that return,
    [reset_count_this_session] grows by exactly the number of resets that
    [safe_reset_sensor] authorized, and never beyond
    [MAX_RESETS_PER_SESSION]: a session that starts with the counter at 0
    sees at most three authorized resets. *)
Theorem session_reset_budget (n : nat) (w w' : World) :
  0 <= ulongs (mem w) reset_count_this_session <= MAX_RESETS_PER_SESSION ->
  loop_times n w = Awake w' ->
  exists es,
    trace w' = es ++ trace w /\
    ulongs (mem w') reset_count_this_session =
      ulongs (mem w) reset_count_this_session + authorizations es /\
    ulongs (mem w') reset_count_this_session <= MAX_RESETS_PER_SESSION /\
    authorizations es <= MAX_RESETS_PER_SESSION.
Proof.
  intros Hpre Hrun.
  destruct (loop_times_awake_rel budget_counted proper_budget_counted
              loop_before_sleep_budget_counted loop_after_sleep_budget_counted
              n w w' Hrun Hpre) as (es & T & C & M).
  exists es. repeat split; try assumption. lia.
Qed.

Lemma session_reset_budget_witness :
  exists es,
    trace (last_world (loop_times 64 (cold_boot (failing_after 70 1000)))) =
      es ++ trace (cold_boot (failing_after 70 1000)) /\
    authorizations es = 1 /\
    ulongs (mem (last_world (loop_times 64 (cold_boot (failing_after 70 1000)))))
      reset_count_this_session = 1.
Proof.
  destruct (session_reset_budget 64 (cold_boot (failing_after 70 1000))
              (last_world (loop_times 64 (cold_boot (failing_after 70 1000)))))
    as (es & T & C & _ & _).
  - vm_compute. split; discriminate.
  - apply awake_last_world. vm_compute. reflexivity.
  - exists es. split; [exact T|].
    assert (E : ulongs (mem (last_world
                  (loop_times 64 (cold_boot (failing_after 70 1000)))))
                  reset_count_this_session = 1) by (vm_compute; reflexivity).
    assert (E0 : ulongs (mem (cold_boot (failing_after 70 1000)))
                   reset_count_this_session = 0) by (vm_compute; reflexivity).
    split; [|exact E]. rewrite E, E0 in C. lia.
Defined.

(** ** Running an action step by step

    [run_all] is [run] with each [bind] stepped by rewriting, and the
    world flattened and the call counters simplified on the way;
    [split_stuck] splits on the branch the run waits for. *)

Lemma bind_step {A B : Type} (m : Act A) (k : A -> Act B) (w : World) :
  bind m k w = k (fst (m w)) (snd (m w)).
Proof. reflexivity. Qed.

Ltac step_bind :=
  match goal with
  | |- context [@bind ?A ?B ?m ?k ?w] =>
      settled w; rewrite (@bind_step A B m k w); cbn beta
  end.
(** The world as one record, so that it stays small. *)
Ltac flat :=
  unfold with_mem, with_clock, with_calls, with_trace;
  cbn [mem clock oracle calls trace ulongs ints bools floats fst snd].

Ltac run_step := step_bind; run_prims; flat; run_upd.
Ltac run_all := repeat (progress run_prims); flat; run_upd; repeat run_step.

(** The branch the run waits for. *)
Ltac split_stuck :=
  match goal with
  | |- context [(if ?c then _ else _) ?w] =>
      lazymatch type of w with World => settled w; destruct c eqn:? end
  | |- context [(match ?o with Some _ => _ | None => _ end) ?w] =>
      lazymatch type of w with World => settled w; destruct o eqn:? end
  | |- context [(match ?l with nil => _ | cons _ _ => _ end) ?w] =>
      lazymatch type of w with World => settled w; destruct l eqn:? end
  end.


(** ** One sensing cycle, one record *)

Lemma extends_event P (w : World) (e : Event) :
  P e -> extends P w (with_trace w (e :: trace w)).
Proof.
  intros H. exists [e]. split; [reflexivity | constructor; [exact H | constructor]].
Qed.

Ltac telemetry_side :=
  solve [ intros; apply extends_same_trace; reflexivity
        | intros; apply extends_event; reflexivity ].

Ltac no_known := idtac; fail.

Lemma loop_reading_failed_no_telemetry : rel (extends no_telemetry) loop_reading_failed.
Proof. rel_go (proper_extends no_telemetry) telemetry_side no_known. Qed.

Lemma loop_collect_data_no_telemetry : rel (extends no_telemetry) loop_collect_data.
Proof. rel_go (proper_extends no_telemetry) telemetry_side no_known. Qed.

Lemma loop_vitals_failed_block_no_telemetry vf :
  rel (extends no_telemetry) (loop_vitals_failed_block vf).
Proof. rel_go (proper_extends no_telemetry) telemetry_side no_known. Qed.

Lemma loop_position_vitals_failed_no_telemetry vf :
  rel (extends no_telemetry) (loop_position_vitals_failed vf).
Proof. rel_go (proper_extends no_telemetry) telemetry_side no_known. Qed.

Lemma loop_all_failed_block_no_telemetry af :
  rel (extends no_telemetry) (loop_all_failed_block af).
Proof. rel_go (proper_extends no_telemetry) telemetry_side no_known. Qed.

Lemma loop_position_block_no_telemetry : rel (extends no_telemetry) loop_position_block.
Proof. rel_go (proper_extends no_telemetry) telemetry_side no_known. Qed.

Lemma loop_position_fallback_no_telemetry :
  rel (extends no_telemetry) loop_position_fallback.
Proof. rel_go (proper_extends no_telemetry) telemetry_side no_known. Qed.

Lemma loop_send_data_world (w : World) :
  snd (loop_send_data w) =
  with_trace w
    (Telemetry (floats (mem w) breath_rate) (floats (mem w) heart_rate)
               (floats (mem w) x_position) (floats (mem w) y_position)
     :: trace w).
Proof. reflexivity. Qed.

Section CycleShape.
Variable collect : Act (bool * bool).
Variables vitals position_vitals all_failed : bool -> Act unit.
Variables position fallback : Act unit.
Variable P : Event -> Prop.
Hypothesis collect_ok : rel (extends P) collect.
Hypothesis vitals_ok : forall b, rel (extends P) (vitals b).
Hypothesis position_vitals_ok : forall b, rel (extends P) (position_vitals b).
Hypothesis all_failed_ok : forall b, rel (extends P) (all_failed b).
Hypothesis position_ok : rel (extends P) position.
Hypothesis fallback_ok : rel (extends P) fallback.

Let cycle : Act unit :=
  flags <- collect ;;
  vitals (fst flags) ;;
  (position_vitals (fst flags) ;;
   all_failed (snd flags) ;;
   position ;;
   fallback ;;
   loop_send_data).

Lemma cycle_sends_last (w : World) :
  exists es,
    trace (snd (cycle w)) =
      Telemetry (floats (mem (snd (cycle w))) breath_rate)
                (floats (mem (snd (cycle w))) heart_rate)
                (floats (mem (snd (cycle w))) x_position)
                (floats (mem (snd (cycle w))) y_position)
      :: es ++ trace w /\
    Forall P es.
Proof.
  unfold cycle, bind. rewrite loop_send_data_world.
  cbn [trace mem with_trace].
  set (w1 := snd (collect w)).
  set (w2 := snd (vitals _ w1)).
  set (w3 := snd (position_vitals _ w2)).
  set (w4 := snd (all_failed _ w3)).
  set (w5 := snd (position w4)).
  set (w6 := snd (fallback w5)).
  assert (E : extends P w w6).
  { eapply extends_trans; [apply collect_ok|]. fold w1.
    eapply extends_trans; [apply vitals_ok|]. fold w2.
    eapply extends_trans; [apply position_vitals_ok|]. fold w3.
    eapply extends_trans; [apply all_failed_ok|]. fold w4.
    eapply extends_trans; [apply position_ok|]. fold w5.
    apply fallback_ok. }
  destruct E as (es & T & F). exists es. rewrite T. split; [reflexivity | exact F].
Qed.
End CycleShape.

(** X8.  A sensing cycle whose [mmWave.update] fails sends no telemetry
    record; a cycle whose update succeeds sends exactly one, as its last
    event, with the values the four variables hold when the cycle ends. *)
Theorem loop_sensing_one_record (w : World) :
  let r := loop_sensing w in
  (fst r = false -> extends no_telemetry w (snd r)) /\
  (fst r = true ->
   exists es,
     trace (snd r) =
       Telemetry (floats (mem (snd r)) breath_rate) (floats (mem (snd r)) heart_rate)
                 (floats (mem (snd r)) x_position) (floats (mem (snd r)) y_position)
       :: es ++ trace w /\
     Forall no_telemetry es).
Proof.
  cbv zeta. unfold loop_sensing.
  pose proof loop_reading_failed_no_telemetry as Hf. revert Hf.
  generalize loop_reading_failed. intros failed Hf.
  assert (Hs : forall w0, exists es,
             trace (snd (loop_reading_succeeded w0)) =
             Telemetry (floats (mem (snd (loop_reading_succeeded w0))) breath_rate)
                       (floats (mem (snd (loop_reading_succeeded w0))) heart_rate)
                       (floats (mem (snd (loop_reading_succeeded w0))) x_position)
                       (floats (mem (snd (loop_reading_succeeded w0))) y_position)
             :: es ++ trace w0 /\ Forall no_telemetry es).
  { exact (cycle_sends_last loop_collect_data loop_vitals_failed_block
             loop_position_vitals_failed loop_all_failed_block
             loop_position_block loop_position_fallback no_telemetry
             loop_collect_data_no_telemetry loop_vitals_failed_block_no_telemetry
             loop_position_vitals_failed_no_telemetry
             loop_all_failed_block_no_telemetry
             loop_position_block_no_telemetry
             loop_position_fallback_no_telemetry). }
  revert Hs. generalize loop_reading_succeeded. intros succeeded Hs.
  run. destruct (update_at _ _); run.
  - split; [discriminate|]. intros _.
    match goal with |- context [succeeded ?w0] => destruct (Hs w0) as (es & T & F) end.
    exists es. split; [exact T | exact F].
  - split; [|discriminate]. intros _.
    match goal with |- context [failed ?w0] => apply (Hf w0) end.
Qed.

(** ** The readings of a cycle are fresh *)

(** X9.  After the readings of a cycle, [breath_rate], [heart_rate] and
    [distance] hold what their getter delivered in this cycle, and 0 when
    it failed, never a value of an earlier cycle; the position is 0; and
    the two flags say whether both vital signs, and whether all three
    values, are 0. *)
Theorem loop_collect_data_fresh (w : World) :
  let r := loop_collect_data w in
  let b := value_or_zero (breath_at (oracle w) (calls w CgetBreathRate)) in
  let h := value_or_zero (heart_at (oracle w) (calls w CgetHeartRate)) in
  let d := value_or_zero (distance_at (oracle w) (calls w CgetDistance)) in
  floats (mem (snd r)) breath_rate = b /\
  floats (mem (snd r)) heart_rate = h /\
  floats (mem (snd r)) distance = d /\
  floats (mem (snd r)) x_position = 0%Q /\
  floats (mem (snd r)) y_position = 0%Q /\
  fst r = (feq b 0 && feq h 0, feq b 0 && feq h 0 && feq d 0).
Proof.
  cbv zeta. remember (loop_collect_data w) as r eqn:E. revert E.
  unfold loop_collect_data. run_all.
  repeat (split_stuck; run_all).
  all: intros ->; cbn [value_or_zero fst snd mem floats]; run_upd. all: repeat split.
Qed.

(** ** The position of a cycle *)

(** X10.  After the position block, [x_position] and [y_position] are the
    coordinates of the first target the driver reports, and 0 both when it
    reports no target or the call fails; the vital signs and the distance
    are left alone. *)
Theorem loop_position_block_first_target (w : World) :
  let w' := snd (loop_position_block w) in
  (floats (mem w') x_position, floats (mem w') y_position) =
    first_target (people_at (oracle w) (calls w CgetPeopleCounting)) /\
  floats (mem w') breath_rate = floats (mem w) breath_rate /\
  floats (mem w') heart_rate = floats (mem w) heart_rate /\
  floats (mem w') distance = floats (mem w) distance.
Proof.
  cbv zeta. remember (snd (loop_position_block w)) as w' eqn:E. revert E.
  unfold loop_position_block.
  pose proof same_mem_reset_position_communication as F.
  unfold rel, same_mem, frame in F. revert F.
  generalize reset_position_communication. intros act F.
  run_all.
  repeat (split_stuck; run_all).
  all: intros ->; cbn [first_target fst snd mem floats]; rewrite ?F; run;
    repeat split.
Qed.

(** ** The angle of the made-up position *)

Lemma fge_true a b : fge a b = true -> (b <= a)%Q.
Proof. unfold fge. apply Qle_bool_iff. Qed.

Lemma fge_false a b : fge a b = false -> (a < b)%Q.
Proof.
  unfold fge. intros H. apply Qnot_le_lt. intros Hle.
  apply Qle_bool_iff in Hle. congruence.
Qed.

Lemma loop_position_fallback_angle (w : World) :
  angle_ok (mem w) ->
  let a := floats (mem w) fallback_angle in
  let w' := snd (loop_position_fallback w) in
  let a' := floats (mem w') fallback_angle in
  angle_ok (mem w') /\
  (a' = a \/ a' = (a + 15)%Q \/ a' = 0%Q).
Proof.
  intros [H0 H1]. cbv zeta. unfold angle_ok.
  remember (snd (loop_position_fallback w)) as w' eqn:E. revert E.
  unfold loop_position_fallback. run_all.
  repeat (split_stuck; run_all); intros ->; run_prims; run_upd;
    repeat match goal with
           | H : fge _ _ = true |- _ => apply fge_true in H
           | H : fge _ _ = false |- _ => apply fge_false in H
           end;
    (split; [split; lra | auto]).
Qed.

Lemma loop_position_fallback_holds_angle_ok :
  rel (holds angle_ok) loop_position_fallback.
Proof. intros w H. apply (loop_position_fallback_angle w H). Qed.

#[local] Hint Resolve loop_position_fallback_holds_angle_ok : frames.

Lemma loop_before_sleep_holds_angle_ok : rel (holds angle_ok) loop_before_sleep.
Proof. frame_go (proper_holds angle_ok). Qed.

Lemma loop_after_sleep_holds_angle_ok : rel (holds angle_ok) loop_after_sleep.
Proof. frame_go (proper_holds angle_ok). Qed.

(** X11.  Over any number of passes of [loop()] that return, [fallback_angle]
    stays a number of degrees from 0 up to, not including, 360. *)
Theorem fallback_angle_in_range (n : nat) (w w' : World) :
  angle_ok (mem w) -> loop_times n w = Awake w' -> angle_ok (mem w').
Proof.
  intros H Hrun.
  exact (loop_times_awake_rel (holds angle_ok) (proper_holds angle_ok)
           loop_before_sleep_holds_angle_ok loop_after_sleep_holds_angle_ok
           n w w' Hrun H).
Qed.

Lemma fallback_angle_in_range_witness :
  floats (mem (last_world (loop_times 3 (cold_boot (distance_only_oracle 0)))))
    fallback_angle = 30%Q /\
  angle_ok (mem (last_world (loop_times 3 (cold_boot (distance_only_oracle 0))))).
Proof.
  split; [vm_compute; reflexivity|].
  apply (fallback_angle_in_range 3 (cold_boot (distance_only_oracle 0))).
  - unfold angle_ok. vm_compute. split; [discriminate | reflexivity].
  - apply awake_last_world. vm_compute. reflexivity.
Defined.

(** ** The consecutive-failure check of [loop()] *)

(** [consecutive_failures] grows by at most [k]. *)
Definition grows (k : Z) : World -> World -> Prop :=
  frame (fun m m' =>
           0 <= ulongs m consecutive_failures ->
           0 <= ulongs m' consecutive_failures <= ulongs m consecutive_failures + k).

Lemma proper_grows_0 : proper_rel (grows 0).
Proof.
  apply proper_frame.
  - intros m H. lia.
  - intros a b c H1 H2 H. specialize (H1 H). specialize (H2 ltac:(lia)). lia.
Qed.

Lemma grows_weaken (j k : Z) {A : Type} (m : Act A) :
  j <= k -> rel (grows j) m -> rel (grows k) m.
Proof. intros Hjk H w Hpre. specialize (H w Hpre). cbv beta in H. lia. Qed.

Lemma grows_bind (j k : Z) {A B : Type} (m : Act A) (f : A -> Act B) :
  0 <= j -> rel (grows j) m -> (forall a, rel (grows k) (f a)) ->
  rel (grows (j + k)) (bind m f).
Proof.
  intros Hj Hm Hf w Hpre. unfold bind.
  pose proof (Hm w Hpre) as H1. cbv beta in H1.
  pose proof (Hf (fst (m w)) (snd (m w)) ltac:(lia)) as H2. cbv beta in H2.
  lia.
Qed.

Lemma grows_same (w w' : World) :
  ulongs (mem w') consecutive_failures = ulongs (mem w) consecutive_failures ->
  grows 0 w w'.
Proof. intros E H. rewrite E. lia. Qed.

Lemma grows_cleared (w : World) :
  grows 0 w (with_mem w (set_ulong (mem w) consecutive_failures 0)) .
Proof. intros H. cbn. change (wrap32 0) with 0. lia. Qed.

Ltac grows_side :=
  solve [ intros; apply grows_same; reflexivity
        | intros; apply grows_cleared ].

Lemma check_serial_communication_grows : rel (grows 1) check_serial_communication.
Proof.
  unfold check_serial_communication.
  repeat (apply (grows_bind 0 1); [lia | rel_go proper_grows_0 grows_side no_known | intros ?]).
  match goal with |- rel _ (if ?c then _ else _) => destruct c end.
  - intros w H. unfold incU. run.
    pose proof (wrap32_range (ulongs (mem w) consecutive_failures + 1)) as R.
    unfold in_u32 in R. unfold wrap32 in *.
    pose proof (Z.mod_le (ulongs (mem w) consecutive_failures + 1) 4294967296
                  ltac:(lia) ltac:(lia)).
    lia.
  - apply (grows_weaken 0 1); [lia|]. rel_go proper_grows_0 grows_side no_known.
Qed.

Lemma perform_system_diagnostic_grows : rel (grows 1) perform_system_diagnostic.
Proof.
  unfold perform_system_diagnostic.
  apply (grows_bind 0 1); [lia | rel_go proper_grows_0 grows_side no_known | intros ?].
  apply (grows_bind 0 1); [lia | rel_go proper_grows_0 grows_side no_known | intros ?].
  exact check_serial_communication_grows.
Qed.

Lemma periodically_grows (k : Z) (mark : ulong_var) (period : Z) (action : Act unit) :
  0 <= k -> mark <> consecutive_failures ->
  rel (grows k) action -> rel (grows k) (periodically mark period action).
Proof.
  intros Hk Hmark Ha. unfold periodically.
  apply (grows_bind 0 k); [lia | rel_go proper_grows_0 grows_side no_known | intros last].
  apply (grows_bind 0 k); [lia | rel_go proper_grows_0 grows_side no_known | intros due].
  destruct due; cbn [when].
  - apply (grows_weaken (k + 0) k); [lia|].
    apply (grows_bind k 0); [lia | exact Ha | intros _].
    apply (rel_bind _ proper_grows_0); [apply (rel_millis _ proper_grows_0) | intros now].
    apply rel_setU. intros w. apply grows_same. cbn. apply upd_other. exact Hmark.
  - apply (grows_weaken 0 k); [lia|]. apply (rel_ret _ proper_grows_0).
Qed.

Lemma loop_periodic_checks_grows : rel (grows 2) loop_periodic_checks.
Proof.
  unfold loop_periodic_checks.
  apply (grows_bind 1 1);
    [lia
    | apply periodically_grows;
        [lia | discriminate | exact perform_system_diagnostic_grows]
    | intros _].
  apply (grows_bind 0 1); [lia | rel_go proper_grows_0 grows_side no_known | intros _].
  apply (grows_weaken (1 + 0) 1); [lia|].
  apply (grows_bind 1 0);
    [lia
    | apply periodically_grows;
        [lia | discriminate | exact check_serial_communication_grows]
    | intros _].
  rel_go proper_grows_0 grows_side no_known.
Qed.

Lemma loop_before_sleep_grows : rel (grows 2) loop_before_sleep.
Proof.
  unfold loop_before_sleep.
  apply (grows_bind 0 2); [lia | rel_go proper_grows_0 grows_side no_known | intros _].
  apply (grows_weaken (2 + 0) 2); [lia|].
  apply (grows_bind 2 0); [lia | exact loop_periodic_checks_grows | intros _].
  rel_go proper_grows_0 grows_side no_known.
Qed.

Lemma loop_operation_time_check_grows : rel (grows 0) loop_operation_time_check.
Proof. rel_go proper_grows_0 grows_side no_known. Qed.

Lemma loop_heartbeat_grows : rel (grows 0) loop_heartbeat.
Proof. rel_go proper_grows_0 grows_side no_known. Qed.

Lemma loop_consecutive_failures_check_idle (w : World) :
  ulongs (mem w) consecutive_failures < MAX_CONSECUTIVE_FAILURES ->
  snd (loop_consecutive_failures_check w) = w.
Proof.
  intros H. unfold loop_consecutive_failures_check.
  hide safe_reset_sensor. hide is_reset_safe. hide reset_sensor_system.
  apply Z.leb_gt in H. run. rewrite H. reflexivity.
Qed.

Ltac alert_side :=
  solve [ intros; apply extends_same_trace; reflexivity
        | intros; apply extends_event; reflexivity ].

Lemma loop_before_sleep_no_failure_alert :
  rel (extends no_failure_alert) loop_before_sleep.
Proof. rel_go (proper_extends no_failure_alert) alert_side no_known. Qed.

Lemma loop_operation_time_check_no_failure_alert :
  rel (extends no_failure_alert) loop_operation_time_check.
Proof. rel_go (proper_extends no_failure_alert) alert_side no_known. Qed.

Lemma loop_heartbeat_no_failure_alert : rel (extends no_failure_alert) loop_heartbeat.
Proof. rel_go (proper_extends no_failure_alert) alert_side no_known. Qed.

Lemma loop_sensing_no_failure_alert : rel (extends no_failure_alert) loop_sensing.
Proof. rel_go (proper_extends no_failure_alert) alert_side no_known. Qed.

Lemma loop_after_sleep_failures (w : World) :
  0 <= ulongs (mem w) consecutive_failures <= 16 ->
  0 <= ulongs (mem (snd (loop_after_sleep w))) consecutive_failures <= 14 /\
  extends no_failure_alert w (snd (loop_after_sleep w)).
Proof.
  intros Hpre. unfold loop_after_sleep.
  pose proof (loop_consecutive_failures_check_idle w) as Hidle.
  revert Hidle. generalize loop_consecutive_failures_check. intros check Hidle.
  pose proof (conj loop_operation_time_check_grows
                   loop_operation_time_check_no_failure_alert) as Hop.
  revert Hop. generalize loop_operation_time_check. intros op [Gop Top].
  pose proof (conj loop_heartbeat_grows loop_heartbeat_no_failure_alert) as Hhb.
  revert Hhb. generalize loop_heartbeat. intros hb [Ghb Thb].
  pose proof (conj loop_sensing_counts loop_sensing_no_failure_alert) as Hs.
  revert Hs. generalize loop_sensing. intros sensing [Cs Ts].
  unfold bind, delay. cbn [snd mem trace with_clock].
  rewrite Hidle by (unfold MAX_CONSECUTIVE_FAILURES; lia).
  set (w1 := snd (op w)). set (w2 := snd (hb w1)). set (w3 := snd (sensing w2)).
  pose proof (Gop w ltac:(lia)) as G1. fold w1 in G1. cbv beta in G1.
  pose proof (Ghb w1 ltac:(lia)) as G2. fold w2 in G2. cbv beta in G2.
  pose proof (Cs w2) as C3. cbv zeta in C3. fold w3 in C3.
  split.
  - rewrite C3.
    pose proof (wrap32_range (ulongs (mem w2) consecutive_failures + 1)) as R.
    unfold in_u32 in R.
    rewrite (wrap32_small (ulongs (mem w2) consecutive_failures + 1)) in *
      by (unfold in_u32; lia).
    destruct (fst (sensing w2)); [lia|].
    destruct (Z.leb_spec 15 (ulongs (mem w2) consecutive_failures + 1)); lia.
  - eapply extends_trans; [exact (Top w)|]. fold w1.
    eapply extends_trans; [exact (Thb w1)|]. fold w2.
    eapply extends_trans; [exact (Ts w2)|]. fold w3.
    apply extends_same_trace. reflexivity.
Qed.

Lemma loop_pass_failures (w w' : World) :
  0 <= ulongs (mem w) consecutive_failures <= 14 ->
  loop w = Awake w' ->
  0 <= ulongs (mem w') consecutive_failures <= 14 /\
  extends no_failure_alert w w'.
Proof.
  intros Hpre. unfold loop.
  pose proof (loop_before_sleep_grows w ltac:(lia)) as Hb. cbv beta in Hb.
  pose proof (loop_before_sleep_no_failure_alert w) as Tb.
  revert Hb Tb. generalize (snd (loop_before_sleep w)). intros w0 Hb Tb.
  destruct (loop_hourly_sleep w0) as [w1|w1] eqn:E1; [|discriminate].
  destruct (loop_emergency_sleep w1) as [w2|w2] eqn:E2; [|discriminate].
  apply loop_hourly_sleep_awake in E1. destruct E1 as [E1 _].
  apply loop_emergency_sleep_awake in E2.
  assert (M : mem w2 = mem w0) by (rewrite E2, E1; reflexivity).
  assert (T : trace w2 = trace w0) by (rewrite E2, E1; reflexivity).
  destruct (loop_after_sleep_failures w2) as [Ha Ta]; [rewrite M; lia|].
  revert Ha Ta. generalize (snd (loop_after_sleep w2)). intros w3 Ha Ta H.
  assert (E : w3 = w') by congruence. subst w3.
  split; [exact Ha|].
  eapply extends_trans; [exact Tb|].
  eapply extends_trans; [apply extends_same_trace; exact T | exact Ta].
Qed.

(** X12.  From a pass of [loop()] that starts with [consecutive_failures]
    between 0 and 14, as after every boot, the counter is between 0 and 14
    again after any number of passes that return, and the alert of the
    consecutive-failure check is never logged: the counter is below
    [MAX_CONSECUTIVE_FAILURES] whenever that check reads it, because the
    fifteenth failed read clears it and the serial diagnostics add at
    most two failures per pass. *)
Theorem consecutive_failures_check_never_fires (n : nat) (w w' : World) :
  0 <= ulongs (mem w) consecutive_failures <= 14 ->
  loop_times n w = Awake w' ->
  0 <= ulongs (mem w') consecutive_failures <= 14 /\
  extends no_failure_alert w w'.
Proof.
  revert w. induction n as [|n IH]; intros w Hpre; cbn [loop_times].
  - intros H. inversion H; subst. split; [exact Hpre | apply extends_refl].
  - destruct (loop w) as [w1|w1] eqn:E; [|discriminate].
    intros H. destruct (loop_pass_failures w w1 Hpre E) as [H1 T1].
    destruct (IH w1 H1 H) as [H2 T2].
    split; [exact H2 | exact (extends_trans _ _ _ _ T1 T2)].
Qed.

Lemma consecutive_failures_check_never_fires_witness :
  0 <= ulongs (mem (last_world (loop_times 3 (first_loop (silent_oracle 0)))))
         consecutive_failures <= 14.
Proof.
  apply (consecutive_failures_check_never_fires 3 (first_loop (silent_oracle 0))).
  - vm_compute. split; discriminate.
  - vm_compute. reflexivity.
Defined.

(** ** The two failure counters over a pass of [loop()] *)


Lemma loop_awake_sensing (w w' : World) :
  loop w = Awake w' ->
  w' = snd (delay 500 (snd (loop_sensing (sensing_world w)))).
Proof.
  unfold loop, sensing_world.
  generalize (snd (loop_before_sleep w)). intros w0.
  destruct (loop_hourly_sleep w0) as [w1|w1] eqn:E1; [|discriminate].
  destruct (loop_emergency_sleep w1) as [w2|w2] eqn:E2; [|discriminate].
  apply loop_hourly_sleep_awake in E1. destruct E1 as [E1 _].
  apply loop_emergency_sleep_awake in E2. subst w1 w2.
  generalize (snd (millis (snd (millis w0)))). intros w2.
  unfold loop_after_sleep.
  generalize loop_consecutive_failures_check loop_operation_time_check
    loop_heartbeat loop_sensing.
  intros check op hb sensing H. inversion H. reflexivity.
Qed.

Lemma loop_before_sleep_keeps_all_failed : rel (keeps all_failed_view) loop_before_sleep.
Proof. frame_go (proper_keeps all_failed_view). Qed.

Lemma loop_consecutive_failures_check_keeps_all_failed :
  rel (keeps all_failed_view) loop_consecutive_failures_check.
Proof. frame_go (proper_keeps all_failed_view). Qed.

Lemma loop_operation_time_check_keeps_all_failed :
  rel (keeps all_failed_view) loop_operation_time_check.
Proof. frame_go (proper_keeps all_failed_view). Qed.

Lemma loop_heartbeat_keeps_all_failed : rel (keeps all_failed_view) loop_heartbeat.
Proof. frame_go (proper_keeps all_failed_view). Qed.

Lemma loop_sensing_failed_keeps_all_failed (w : World) :
  fst (loop_sensing w) = false ->
  ulongs (mem (snd (loop_sensing w))) consecutive_all_failed_count =
  ulongs (mem w) consecutive_all_failed_count.
Proof.
  unfold loop_sensing.
  pose proof loop_reading_failed_keeps_all_failed as F. revert F.
  generalize loop_reading_failed loop_reading_succeeded. intros failed succeeded F.
  run. destruct (update_at _ _); run; [discriminate|].
  intros _. match goal with |- context [failed ?w0] => exact (F w0) end.
Qed.

Lemma sensing_world_failures (w : World) :
  0 <= ulongs (mem w) consecutive_failures <= 14 ->
  0 <= ulongs (mem (sensing_world w)) consecutive_failures
    <= ulongs (mem w) consecutive_failures + 2.
Proof.
  intros Hpre. unfold sensing_world.
  pose proof (loop_before_sleep_grows w ltac:(lia)) as Hb. cbv beta in Hb.
  revert Hb. generalize (snd (loop_before_sleep w)). intros w0 Hb.
  assert (M : mem (snd (millis (snd (millis w0)))) = mem w0) by reflexivity.
  revert M. generalize (snd (millis (snd (millis w0)))). intros w2 M.
  pose proof (loop_consecutive_failures_check_idle w2) as Hidle.
  revert Hidle. generalize loop_consecutive_failures_check. intros check Hidle.
  pose proof loop_operation_time_check_grows as Gop.
  revert Gop. generalize loop_operation_time_check. intros op Gop.
  pose proof loop_heartbeat_grows as Ghb.
  revert Ghb. generalize loop_heartbeat. intros hb Ghb.
  rewrite Hidle by (rewrite M; unfold MAX_CONSECUTIVE_FAILURES; lia).
  pose proof (Gop w2 ltac:(rewrite M; lia)) as G1. cbv beta in G1.
  pose proof (Ghb (snd (op w2)) ltac:(lia)) as G2. cbv beta in G2.
  rewrite M in G1. lia.
Qed.

Lemma sensing_world_all_failed (w : World) :
  ulongs (mem (sensing_world w)) consecutive_all_failed_count =
  ulongs (mem w) consecutive_all_failed_count.
Proof.
  unfold sensing_world.
  pose proof (loop_before_sleep_keeps_all_failed w) as Hb. cbv beta in Hb.
  revert Hb. generalize (snd (loop_before_sleep w)). intros w0 Hb.
  assert (M : mem (snd (millis (snd (millis w0)))) = mem w0) by reflexivity.
  revert M. generalize (snd (millis (snd (millis w0)))). intros w2 M.
  pose proof loop_consecutive_failures_check_keeps_all_failed as Hc.
  revert Hc. generalize loop_consecutive_failures_check. intros check Hc.
  pose proof loop_operation_time_check_keeps_all_failed as Ho.
  revert Ho. generalize loop_operation_time_check. intros op Ho.
  pose proof loop_heartbeat_keeps_all_failed as Hh.
  revert Hh. generalize loop_heartbeat. intros hb Hh.
  rewrite (Hh _), (Ho _), (Hc _), M. exact Hb.
Qed.



(** ** The serial diagnostic *)

Lemma wrap32_sub (a b : Z) : wrap32 (wrap32 a - wrap32 b) = wrap32 (a - b).
Proof. unfold wrap32. symmetry. apply Zminus_mod. Qed.

Lemma wait_for_response_enough (start_clock : Z) (fuel extra : nat) (w : World) :
  ticks_bounded (oracle w) ->
  0 <= clock w - start_clock ->
  1010 - 10 * Z.of_nat fuel <= clock w - start_clock < 1010 ->
  wait_for_response (fuel + extra) (wrap32 start_clock) w =
  wait_for_response fuel (wrap32 start_clock) w.
Proof.
  revert w. induction fuel as [|fuel IH]; intros w Hticks H0 Hd.
  - lia.
  - cbn [Nat.add wait_for_response]. run.
    rewrite wrap32_sub.
    pose proof (Hticks (calls w Cmillis)) as Ht.
    pose proof (N2Z.is_nonneg (tick_at (oracle w) (calls w Cmillis))) as Ht0.
    rewrite wrap32_small by (unfold in_u32; lia).
    destruct (Z.ltb_spec (clock w + Z.of_N (tick_at (oracle w) (calls w Cmillis))
                          - start_clock) 1000) as [Hlt|Hge]; run; [|reflexivity].
    destruct (available_at _ _ =? 0); run; [|reflexivity].
    apply IH; cbn [oracle clock with_clock with_calls]; [exact Hticks | lia | lia].
Qed.

(** X13.  The wait [while (millis() - start_time < 1000)] of
    [check_serial_communication], which polls the link and waits 10 ms,
    ends after at most 101 polls: more turns change nothing, as long as no
    single clock read jumps by 2^32 - 1010 ms or more. *)
Theorem wait_for_response_at_most_101_polls (extra : nat) (w : World) :
  ticks_bounded (oracle w) ->
  wait_for_response (101 + extra) (wrap32 (clock w)) w =
  wait_for_response 101 (wrap32 (clock w)) w.
Proof.
  intros H. apply wait_for_response_enough; [exact H | lia | lia].
Qed.

Lemma wait_for_response_at_most_101_polls_witness :
  wait_for_response (101 + 7) (wrap32 (clock (first_loop (silent_oracle 3))))
    (first_loop (silent_oracle 3)) =
  wait_for_response 101 (wrap32 (clock (first_loop (silent_oracle 3))))
    (first_loop (silent_oracle 3)).
Proof.
  apply (wait_for_response_at_most_101_polls 7 (first_loop (silent_oracle 3))).
  intros i. reflexivity.
Defined.

(** Every variable but [consecutive_failures] is left alone. *)
Definition only_failures (m m' : Memory) : Prop :=
  (forall v, v <> consecutive_failures -> ulongs m' v = ulongs m v) /\
  ints m' = ints m /\ floats m' = floats m.

Lemma proper_only_failures : proper_rel (frame only_failures).
Proof.
  apply proper_frame.
  - intros m. repeat split.
  - intros a b c (U1 & I1 & F1) (U2 & I2 & F2). repeat split; try congruence.
    intros v Hv. rewrite (U2 v Hv). apply (U1 v Hv).
Qed.

Ltac only_failures_side :=
  solve [ intros; repeat split
        | intros; repeat split; intros; cbn; apply upd_other; congruence ].

Ltac text_side :=
  solve [ intros; apply extends_same_trace; reflexivity
        | intros; apply extends_event; exact I ].

(** The counter is cleared or counts one more. *)
Definition cleared_or_counted (m m' : Memory) : Prop :=
  ulongs m' consecutive_failures = 0 \/
  ulongs m' consecutive_failures = wrap32 (ulongs m consecutive_failures + 1).

Lemma cleared_or_counted_after {A B : Type} (m : Act A) (f : A -> Act B) :
  rel (keeps failures_view) m ->
  (forall a, rel (frame cleared_or_counted) (f a)) ->
  rel (frame cleared_or_counted) (bind m f).
Proof.
  intros Hm Hf w. unfold bind, frame, cleared_or_counted.
  pose proof (Hf (fst (m w)) (snd (m w))) as H.
  unfold frame, cleared_or_counted in H.
  rewrite (Hm w) in H. exact H.
Qed.

(** X14.  [check_serial_communication] either clears
    [consecutive_failures] or counts one failure more; it writes no other
    counter and no float; and all it sends to the sensor are text
    commands: it never empties the receive buffer, writes a frame or
    restarts the link. *)
Theorem check_serial_communication_outcome (w : World) :
  let w' := snd (check_serial_communication w) in
  (ulongs (mem w') consecutive_failures = 0 \/
   ulongs (mem w') consecutive_failures =
     wrap32 (ulongs (mem w) consecutive_failures + 1)) /\
  ((forall v, v <> consecutive_failures -> ulongs (mem w') v = ulongs (mem w) v) /\
   ints (mem w') = ints (mem w) /\ floats (mem w') = floats (mem w)) /\
  extends is_text_command w w'.
Proof.
  cbv zeta. split; [|split].
  - revert w. change (rel (frame cleared_or_counted) check_serial_communication).
    unfold check_serial_communication.
    repeat (apply cleared_or_counted_after;
            [frame_go (proper_keeps failures_view) | intros ?]).
    match goal with |- rel _ (if ?c then _ else _) => destruct c end.
    + intros w. right. unfold incU. run. reflexivity.
    + intros w. left. reflexivity.
  - revert w. change (rel (frame only_failures) check_serial_communication).
    rel_go proper_only_failures only_failures_side no_known.
  - revert w. change (rel (extends is_text_command) check_serial_communication).
    rel_go (proper_extends is_text_command) text_side no_known.
Qed.

(** ** When the sensor link is restarted *)

(** The events of [l] in front of the older trace [t]. *)
Ltac prefix_of l t :=
  lazymatch l with
  | t => constr:(@nil Event)
  | ?e :: ?r => let p := prefix_of r t in constr:(e :: p)
  end.

Ltac new_events_exist :=
  lazymatch goal with
  | |- exists es, ?l = es ++ ?t /\ _ =>
      let p := prefix_of l t in exists p; split; [reflexivity|]
  end.

Ltac flags_known :=
  repeat match goal with
         | H : negb _ = true |- _ => apply negb_true_iff in H
         | H : negb _ = false |- _ => apply negb_false_iff in H
         end;
  repeat match goal with
         | H : update_at _ _ = _ |- _ => rewrite H
         end.

(** X15.  [test_all_reset_methods] tries the Tiny Frame reset, then the ASCII
    reset, then the restart of the link: it closes and reopens the link
    and starts the driver again exactly when the update after the Tiny
    Frame reset and the update after the ASCII reset both fail, and not at
    all when one of them succeeds.  It changes no variable. *)
Theorem test_all_reset_methods_restart (w : World) :
  let w' := snd (test_all_reset_methods w) in
  let retest i := update_at (oracle w) (calls w Cupdate + i) in
  exists es,
    trace w' = es ++ trace w /\
    filter is_link_restart es =
      (if retest 1%nat || retest 3%nat then []
       else [SensorDriverBegin; SensorSerialBegin 115200; SensorSerialEnd]) /\
    mem w' = mem w.
Proof.
  cbv zeta. remember (snd (test_all_reset_methods w)) as w' eqn:E. revert E.
  unfold test_all_reset_methods, reset_radar_tiny_frame, reset_radar_ascii,
    reset_sensor_via_serial.
  pose proof (conj (same_mem_probe_sensor 5)
                   (rel_probe_sensor quiet proper_quiet 5)) as F.
  unfold rel, same_mem, frame, quiet in F. revert F.
  generalize (probe_sensor 5). intros probe [Fm Ft].
  run_all.
  replace (calls w Cupdate + 1)%nat with (S (calls w Cupdate)) by lia.
  replace (calls w Cupdate + 3)%nat with (S (S (S (calls w Cupdate)))) by lia.
  repeat (split_stuck; run_all); intros ->; run_prims; rewrite ?Fm, ?Ft; run_prims;
    new_events_exist; flags_known; split; reflexivity.
Qed.

(** X16.  A cycle whose update failed restarts the link exactly when a reset
    was authorized in it, and a reset is authorized only when the failure
    is at least the fifteenth in a row. *)
Theorem loop_reading_failed_restart (w : World) :
  let w' := snd (loop_reading_failed w) in
  exists es,
    trace w' = es ++ trace w /\
    filter is_link_restart es =
      (if existsb is_authorization es
       then [SensorDriverBegin; SensorSerialBegin 115200; SensorSerialEnd]
       else []) /\
    (existsb is_authorization es = true ->
       15 <= wrap32 (ulongs (mem w) consecutive_failures + 1)).
Proof.
  cbv zeta. remember (snd (loop_reading_failed w)) as w' eqn:E. revert E.
  unfold loop_reading_failed, test_serial_communication, safe_reset_sensor,
    is_reset_safe, reset_sensor_via_serial.
  pose proof (conj (same_mem_probe_sensor 5)
                   (rel_probe_sensor quiet proper_quiet 5)) as F.
  unfold rel, same_mem, frame, quiet in F. revert F.
  generalize (probe_sensor 5). intros probe [Fm Ft].
  run_all.
  repeat (split_stuck; run_all); intros ->; run_prims; rewrite ?Fm, ?Ft; run_prims;
    new_events_exist; cbn [filter existsb is_link_restart is_authorization orb];
    (split; [reflexivity|]);
    first [ discriminate | intros _; apply Z.leb_le; assumption ].
Qed.

(** X17.  [reset_sensor_via_serial] closes and reopens the link and starts the
    driver again, waits six seconds in all, then polls the sensor until
    the first answer, five times at most, waiting 500 ms after each poll
    without answer.  It changes no variable. *)
Theorem reset_sensor_via_serial_polls (w : World) :
  let w' := snd (reset_sensor_via_serial w) in
  let answers :=
    map (fun i => update_at (oracle w) (calls w Cupdate + i)%nat) (seq 0 5) in
  trace w' =
    SensorDriverBegin :: SensorSerialBegin 115200 :: SensorSerialEnd :: trace w /\
  calls w' Cupdate = (calls w Cupdate + Nat.min (S (failed_polls answers)) 5)%nat /\
  clock w' = clock w + 6000 + 500 * Z.of_nat (failed_polls answers) /\
  mem w' = mem w.
Proof.
  cbv zeta. remember (snd (reset_sensor_via_serial w)) as w' eqn:E. revert E.
  unfold reset_sensor_via_serial. cbn [probe_sensor map seq].
  rewrite !Nat.add_0_r.
  replace (calls w Cupdate + 1)%nat with (S (calls w Cupdate)) by lia.
  replace (calls w Cupdate + 2)%nat with (S (S (calls w Cupdate))) by lia.
  replace (calls w Cupdate + 3)%nat with (S (S (S (calls w Cupdate)))) by lia.
  replace (calls w Cupdate + 4)%nat with (S (S (S (S (calls w Cupdate))))) by lia.
  run_all.
  repeat (split_stuck; run_all); intros ->; run_prims;
    repeat match goal with H : update_at _ _ = _ |- _ => rewrite H end;
    cbn [failed_polls Nat.min]; run_upd; repeat split; lia.
Qed.

(** ** The reset budget across a deep sleep *)

(** X18.  [last_reset_time_rtc] survives a deep sleep and [millis()] starts
    again at 0: while the clock is behind the mark, the unsigned
    difference [millis() - last_reset_time_rtc] wraps around, and
    [is_reset_safe] authorizes a reset although less than
    [MIN_RESET_INTERVAL] may have passed since the last one. *)
Theorem is_reset_safe_after_clock_restart (w : World) :
  ulongs (mem w) reset_count_this_session < MAX_RESETS_PER_SESSION ->
  fst (millis w) < ulongs (mem w) last_reset_time_rtc < 4294967296 ->
  ulongs (mem w) last_reset_time_rtc - fst (millis w)
    <= 4294967296 - MIN_RESET_INTERVAL ->
  fst (is_reset_safe w) = true.
Proof.
  intros Hc Hl Hd. rewrite is_reset_safe_answer.
  apply andb_true_iff. split; apply negb_true_iff.
  - apply Z.leb_gt. exact Hc.
  - apply Z.ltb_ge.
    pose proof (wrap32_range (clock w + Z.of_N (tick_at (oracle w) (calls w Cmillis)))) as R.
    revert Hl Hd. unfold millis. run. intros Hl Hd.
    unfold in_u32 in R.
    rewrite wrap32_borrow by lia. lia.
Qed.

Lemma is_reset_safe_after_clock_restart_witness :
  fst (is_reset_safe woken_after_reset) = true.
Proof.
  apply (is_reset_safe_after_clock_restart woken_after_reset);
    vm_compute; try split; first [reflexivity | discriminate].
Defined.

(** X19.  After a wake-up from deep sleep by the timer, [setup()] takes the
    branch of a normal wake-up whatever the sleep was: it logs it, runs
    [reset_sensor_system], which closes and reopens the link without
    asking [is_reset_safe], and the session starts with the boot counter
    one higher and the reset and failure counters at 0.  [bootCount] is
    an [int]: the statement is for a counter below [INT_MAX], where the
    increment is defined, and the new value is an [int] again. *)
Theorem setup_after_deep_sleep (asleep : World) :
  -2147483648 <= ints (mem asleep) bootCount < 2147483647 ->
  let w' := snd (setup_until_wakeup_check true (wake_from_deep_sleep asleep)) in
  (exists es,
     trace w' = es ++ trace asleep /\
     es = [SensorDriverBegin; SensorDrain; SensorSerialBegin 115200;
           SensorSerialEnd; Log MsgWokeNormal; SensorDriverBegin;
           SensorSerialBegin 115200]) /\
  ints (mem w') bootCount = ints (mem asleep) bootCount + 1 /\
  -2147483648 <= ints (mem w') bootCount <= 2147483647 /\
  ulongs (mem w') reset_count_this_session = 0 /\
  ulongs (mem w') consecutive_failures = 0 /\
  ulongs (mem w') successful_readings = 0 /\
  ulongs (mem w') failed_readings = 0 /\
  bools (mem w') is_hourly_sleep_mode = false.
Proof.
  intros Hrange. cbv zeta.
  remember (snd (setup_until_wakeup_check true (wake_from_deep_sleep asleep)))
    as w' eqn:E. revert E.
  unfold setup_until_wakeup_check, check_library_functions, reset_sensor_system,
    wake_from_deep_sleep, wake_memory.
  run_all. cbn [initial_memory bools]. run_all.
  intros ->. run_prims. run_upd. cbn [initial_memory ulongs ints bools].
  split; [new_events_exist; reflexivity|]. repeat split; lia.
Qed.

Lemma setup_after_deep_sleep_witness :
  let asleep := last_world (loop_times 16 (cold_boot (silent_oracle 1000))) in
  let w' := snd (setup_until_wakeup_check true (wake_from_deep_sleep asleep)) in
  is_asleep (loop_times 16 (cold_boot (silent_oracle 1000))) = true /\
  ints (mem asleep) bootCount = 1 /\
  ints (mem w') bootCount = 2 /\
  ulongs (mem w') reset_count_this_session = 0.
Proof.
  cbv zeta.
  assert (E : ints (mem (last_world
                (loop_times 16 (cold_boot (silent_oracle 1000))))) bootCount = 1)
    by (vm_compute; reflexivity).
  destruct (setup_after_deep_sleep
              (last_world (loop_times 16 (cold_boot (silent_oracle 1000)))))
    as (_ & B & _ & R & _).
  - rewrite E. lia.
  - split; [vm_compute; reflexivity|]. split; [exact E|].
    split; [rewrite B, E; reflexivity | exact R].
Defined.

(** ** The [int] counters of the recovery blocks *)

Ltac compare_known :=
  repeat match goal with
         | H : (_ <=? _) = true |- _ => apply Z.leb_le in H
         | H : (_ <=? _) = false |- _ => apply Z.leb_gt in H
         end.

Lemma loop_complete_failure_check_holds_counters_ok :
  rel (holds counters_ok) loop_complete_failure_check.
Proof.
  intros w [H1 H2]. unfold frame, counters_ok.
  remember (snd (loop_complete_failure_check w)) as w' eqn:E. revert E.
  unfold loop_complete_failure_check.
  pose proof same_mem_force_complete_sensor_reinitialization as F.
  unfold rel, same_mem, frame in F. revert F.
  generalize force_complete_sensor_reinitialization. intros act F.
  run_all.
  repeat (split_stuck; run_all); intros ->; run_prims; rewrite ?F; run_prims;
    run_upd; compare_known; unfold MAX_RECOVERY_ATTEMPTS in *; lia.
Qed.

Lemma loop_position_recovery_holds_counters_ok :
  rel (holds counters_ok) loop_position_recovery.
Proof.
  intros w [H1 H2]. unfold frame, counters_ok.
  remember (snd (loop_position_recovery w)) as w' eqn:E. revert E.
  unfold loop_position_recovery.
  pose proof same_mem_force_complete_sensor_reinitialization as F.
  unfold rel, same_mem, frame in F. revert F.
  generalize force_complete_sensor_reinitialization. intros act F.
  pose proof same_mem_attempt_position_recovery as G.
  unfold rel, same_mem, frame in G. revert G.
  generalize attempt_position_recovery. intros act2 G.
  run_all.
  repeat (split_stuck; run_all); intros ->; run_prims; rewrite ?F, ?G; run_prims;
    run_upd; compare_known; unfold MAX_RECOVERY_ATTEMPTS in *; lia.
Qed.

#[local] Hint Resolve loop_complete_failure_check_holds_counters_ok
  loop_position_recovery_holds_counters_ok : frames.

Lemma loop_before_sleep_holds_counters_ok : rel (holds counters_ok) loop_before_sleep.
Proof. frame_go (proper_holds counters_ok). Qed.

Lemma loop_after_sleep_holds_counters_ok : rel (holds counters_ok) loop_after_sleep.
Proof. frame_go (proper_holds counters_ok). Qed.

(** X20.  Over any number of passes of [loop()] that return,
    [complete_failure_count] stays between 0 and 4 and
    [recovery_attempts] between 0 and 2: the two [int] counters are
    cleared when they reach their threshold and never overflow. *)
Theorem recovery_counters_in_range (n : nat) (w w' : World) :
  counters_ok (mem w) -> loop_times n w = Awake w' -> counters_ok (mem w').
Proof.
  intros H Hrun.
  exact (loop_times_awake_rel (holds counters_ok) (proper_holds counters_ok)
           loop_before_sleep_holds_counters_ok loop_after_sleep_holds_counters_ok
           n w w' Hrun H).
Qed.

Lemma recovery_counters_in_range_witness :
  counters_ok (mem (last_world (loop_times 8 (first_loop (silent_oracle 1000))))).
Proof.
  apply (recovery_counters_in_range 8 (first_loop (silent_oracle 1000))).
  - vm_compute. repeat split; discriminate.
  - vm_compute. reflexivity.
Defined.

(** ** [setup()]: the wait for the sensor *)

Lemma wait_for_activation_enough (start_clock : Z) (fuel extra : nat) (w : World) :
  ticks_short (oracle w) ->
  (1 <= fuel)%nat ->
  0 <= clock w - start_clock < 30100 + 2147483648 ->
  30100 - 100 * Z.of_nat fuel <= clock w - start_clock ->
  wait_for_activation_from (fuel + extra) (wrap32 start_clock) w =
    wait_for_activation_from fuel (wrap32 start_clock) w /\
  (fst (wait_for_activation_from fuel (wrap32 start_clock) w) = false ->
   30000 <= clock (snd (wait_for_activation_from fuel (wrap32 start_clock) w))
            - start_clock).
Proof.
  revert w. induction fuel as [|fuel IH]; intros w Hticks Hf H0 Hd; [lia|].
  cbn [Nat.add wait_for_activation_from]. run_all.
  rewrite wrap32_sub.
  pose proof (Hticks (calls w Cmillis)) as Ht.
  pose proof (N2Z.is_nonneg (tick_at (oracle w) (calls w Cmillis))) as Ht0.
  rewrite wrap32_small by (unfold in_u32; lia).
  destruct (Z.ltb_spec (clock w + Z.of_N (tick_at (oracle w) (calls w Cmillis))
                        - start_clock) 30000) as [Hlt|Hge]; run_all;
    [|split; [reflexivity | intros _; lia]].
  pose proof (Hticks (S (calls w Cmillis))) as Ht1.
  pose proof (N2Z.is_nonneg (tick_at (oracle w) (S (calls w Cmillis)))) as Ht10.
  pose proof (Hticks (S (S (calls w Cmillis)))) as Ht2.
  pose proof (N2Z.is_nonneg (tick_at (oracle w) (S (S (calls w Cmillis))))) as Ht20.
  destruct fuel as [|fuel]; [lia|].
  repeat (split_stuck; run_all);
    try (split; [reflexivity | discriminate]);
    match goal with
    | |- context [wait_for_activation_from (S fuel) _ ?w1] =>
        apply (IH w1); cbn [oracle clock]; [exact Hticks | lia | lia | lia]
    end.
Qed.

Section ActivationRules.
Variable R : World -> World -> Prop.
Hypothesis PR : proper_rel R.

Lemma rel_wait_for_activation_from (n : nat) (start : Z) :
  rel R (wait_for_activation_from n start).
Proof.
  induction n as [|n IH]; cbn [wait_for_activation_from];
    repeat first [ rel_structure PR | exact IH ].
Qed.

Lemma rel_wait_for_sensor_activation : rel R wait_for_sensor_activation.
Proof.
  unfold wait_for_sensor_activation.
  repeat first [ rel_structure PR | apply rel_wait_for_activation_from ].
Qed.
End ActivationRules.

(** X21.  [wait_for_sensor_activation] makes at most 301 turns of its loop
    (more turns change nothing), answers false only when 30 seconds have
    passed since it read its start time, writes nothing to the sensor and
    changes no variable, as long as no single clock read jumps by 2^30 ms
    or more. *)
Theorem wait_for_sensor_activation_gives_up_after_30s (extra : nat) (w : World) :
  ticks_short (oracle w) ->
  let start := snd (millis w) in
  let r := wait_for_sensor_activation w in
  wait_for_activation_from (301 + extra) (wrap32 (clock start)) start = r /\
  (fst r = false -> 30000 <= clock (snd r) - clock start) /\
  mem (snd r) = mem w /\ trace (snd r) = trace w.
Proof.
  intros Hticks. cbv zeta.
  assert (E : wait_for_sensor_activation w =
              wait_for_activation_from 301 (wrap32 (clock (snd (millis w))))
                (snd (millis w))) by reflexivity.
  destruct (wait_for_activation_enough (clock (snd (millis w))) 301 extra
              (snd (millis w))) as [A B]; [exact Hticks | lia | lia | lia |].
  rewrite E. split; [exact A|]. split; [exact B|]. rewrite <- E. split.
  - exact (rel_wait_for_sensor_activation same_mem proper_same_mem w).
  - exact (rel_wait_for_sensor_activation quiet proper_quiet w).
Qed.

Ltac activation_known PR :=
  idtac;
  lazymatch goal with
  | |- rel _ wait_for_sensor_activation => apply (rel_wait_for_sensor_activation _ PR)
  end.

Lemma wait_for_sensor_activation_gives_up_after_30s_witness :
  30000 <=
  clock (snd (wait_for_sensor_activation (power_on (silent_oracle 3))))
  - clock (snd (millis (power_on (silent_oracle 3)))).
Proof.
  destruct (wait_for_sensor_activation_gives_up_after_30s 0
              (power_on (silent_oracle 3))) as (_ & B & _).
  - intros i. reflexivity.
  - apply B. vm_compute. reflexivity.
Defined.

(** ** [setup()]: what the first pass of [loop()] starts from *)

Ltac clean_side :=
  solve [ intros ? H; exact H
        | intros ? (H1 & H2); split; [reflexivity | exact H2] ].

Lemma setup_holds_starts_clean woke : rel (holds starts_clean) (setup woke).
Proof.
  rel_go (proper_holds starts_clean) clean_side
    ltac:(activation_known (proper_holds starts_clean)).
Qed.

Lemma starts_clean_initial_memory : starts_clean initial_memory.
Proof.
  unfold starts_clean, counters_ok, sim_ok, angle_ok. cbn.
  repeat split; first [reflexivity | discriminate].
Qed.

Lemma starts_clean_wake_memory (m : Memory) : starts_clean (wake_memory m).
Proof.
  unfold starts_clean, counters_ok, sim_ok, angle_ok. cbn.
  repeat split; first [reflexivity | discriminate].
Qed.

Ltac restart_side :=
  solve [ intros; apply extends_same_trace; reflexivity
        | intros; apply extends_event; reflexivity ].

Lemma setup_sensor_activation_no_restart :
  rel (extends no_link_restart) setup_sensor_activation.
Proof.
  rel_go (proper_extends no_link_restart) restart_side
    ltac:(activation_known (proper_extends no_link_restart)).
Qed.

(** X22.  After [setup()], from power-on as after a deep sleep, the failure
    and reset counters are 0 and the recovery counters, the simulated
    values and the angle of the made-up position are in their ranges; on a
    cold boot the link is opened once, at 115200 baud, the driver started
    once, and the link never closed. *)
Theorem setup_starts_clean (woke_by_timer : bool) (w : World) :
  (mem w = initial_memory \/ exists asleep, mem w = wake_memory asleep) ->
  let w' := snd (setup woke_by_timer w) in
  starts_clean (mem w') /\
  (woke_by_timer = false ->
   exists es,
     trace w' = es ++ SensorDriverBegin :: SensorSerialBegin 115200 :: trace w /\
     Forall no_link_restart es).
Proof.
  intros Hm. cbv zeta. split.
  - apply (setup_holds_starts_clean woke_by_timer w).
    destruct Hm as [-> | [asleep ->]];
      [apply starts_clean_initial_memory | apply starts_clean_wake_memory].
  - intros ->. unfold setup.
    pose proof setup_sensor_activation_no_restart as F. revert F.
    generalize setup_sensor_activation. intros act F.
    unfold bind.
    destruct (F (snd (setup_until_wakeup_check false w))) as (es & T & Fa).
    exists es. rewrite T. split; [|exact Fa]. f_equal.
Qed.

Lemma setup_starts_clean_witness :
  starts_clean (mem (snd (setup false (power_on (silent_oracle 0))))).
Proof.
  apply (setup_starts_clean false (power_on (silent_oracle 0))).
  left. reflexivity.
Defined.

(** ** Recovery actions outside the budget *)

(** X23.  [force_complete_sensor_reinitialization] closes and reopens the link
    and starts the driver again without writing any variable: the forced
    re-initializations do not count in [reset_count_this_session] and do
    not move [last_reset_time_rtc]. *)
Theorem forced_reinitialization_uncounted (w : World) :
  let w' := snd (force_complete_sensor_reinitialization w) in
  mem w' = mem w /\
  exists es,
    trace w' = es ++ trace w /\
    filter is_link_restart es =
      [SensorDriverBegin; SensorSerialBegin 115200; SensorSerialEnd].
Proof.
  cbv zeta. remember (snd (force_complete_sensor_reinitialization w)) as w' eqn:E.
  revert E.
  unfold force_complete_sensor_reinitialization, configure_sensor_continuous_mode,
    configure_sensor_continuous_mode_ascii, reconfigure_position_system.
  run_all. intros ->. run_prims. split; [reflexivity|].
  new_events_exist. reflexivity.
Qed.

(** ** The hourly sleep *)

Lemma loop_hourly_sleep_due (w : World) :
  check_timeout_safe_at (fst (millis w)) (ulongs (mem w) last_hourly_sleep)
    HOURLY_SLEEP_INTERVAL = true ->
  exists asleep,
    loop_hourly_sleep w = Asleep asleep /\
    trace asleep = DeepSleep DEEP_SLEEP_DURATION :: Log MsgHourlySleep :: trace w /\
    bools (mem asleep) is_hourly_sleep_mode = true /\
    ulongs (mem asleep) last_hourly_sleep = fst (millis (snd (millis w))).
Proof.
  intros D. unfold loop_hourly_sleep.
  destruct ((last <- getU last_hourly_sleep ;;
             check_timeout_safe last HOURLY_SLEEP_INTERVAL) w) as [due w'] eqn:E.
  revert E. run. intros E. inversion E; subst; clear E.
  revert D. run. intros D. rewrite D.
  eexists. split; [reflexivity|]. unfold enter_deep_sleep. run.
  rewrite wrap32_idem. repeat split.
Qed.

(** X24.  Whenever the hourly check of a pass of [loop()] finds the sleep due,
    the pass ends in the hourly deep sleep, whatever the state of the
    emergency timeout, which is checked after it: the flag is set,
    [last_hourly_sleep] takes the tick read next, and the sleep primitive
    is called for [DEEP_SLEEP_DURATION]. *)
Theorem hourly_sleep_takes_precedence (w : World) :
  let w0 := snd (loop_before_sleep w) in
  check_timeout_safe_at (fst (millis w0)) (ulongs (mem w0) last_hourly_sleep)
    HOURLY_SLEEP_INTERVAL = true ->
  exists asleep,
    loop w = Asleep asleep /\
    trace asleep = DeepSleep DEEP_SLEEP_DURATION :: Log MsgHourlySleep :: trace w0 /\
    bools (mem asleep) is_hourly_sleep_mode = true /\
    ulongs (mem asleep) last_hourly_sleep = fst (millis (snd (millis w0))).
Proof.
  cbv zeta. intros D.
  destruct (loop_hourly_sleep_due _ D) as (asleep & E & T & B & U).
  exists asleep. unfold loop. rewrite E. auto.
Qed.

Lemma hourly_sleep_takes_precedence_witness :
  exists asleep, loop after_an_hour = Asleep asleep.
Proof.
  destruct (hourly_sleep_takes_precedence after_an_hour) as (asleep & E & _).
  - vm_compute. reflexivity.
  - exists asleep. exact E.
Defined.

(** X25.  [last_hourly_sleep] survives a deep sleep and [millis()] starts again
    at 0: in a pass of [loop()] whose hourly check reads a clock that is
    behind the mark, the wraparound branch of [check_timeout_safe] takes
    the clock for wrapped, finds far more than an hour elapsed, and the
    pass ends in the hourly deep sleep again. *)
Theorem hourly_sleep_after_clock_restart (w : World) :
  let w0 := snd (loop_before_sleep w) in
  fst (millis w0) < ulongs (mem w0) last_hourly_sleep < 4294967296 ->
  ulongs (mem w0) last_hourly_sleep - fst (millis w0)
    < 4294967295 - HOURLY_SLEEP_INTERVAL ->
  exists asleep,
    loop w = Asleep asleep /\
    trace asleep = DeepSleep DEEP_SLEEP_DURATION :: Log MsgHourlySleep :: trace w0.
Proof.
  cbv zeta. intros Hl Hd.
  assert (D : check_timeout_safe_at (fst (millis (snd (loop_before_sleep w))))
                (ulongs (mem (snd (loop_before_sleep w))) last_hourly_sleep)
                HOURLY_SLEEP_INTERVAL = true).
  { revert Hl Hd. generalize (snd (loop_before_sleep w)). intros w0 Hl Hd.
    assert (Hn : in_u32 (fst (millis w0))) by (unfold millis; run; apply wrap32_range).
    unfold check_timeout_safe_at.
    destruct (Z.ltb_spec (fst (millis w0)) (ulongs (mem w0) last_hourly_sleep));
      [|lia].
    cbv zeta. rewrite wraparound_total_time_exact
      by (unfold in_u32 in *; first [assumption | lia]).
    apply Z.ltb_lt. lia. }
  destruct (loop_hourly_sleep_due _ D) as (asleep & E & T & _).
  exists asleep. unfold loop. rewrite E. auto.
Qed.

Lemma hourly_sleep_after_clock_restart_witness :
  exists asleep, loop woken_after_hourly_sleep = Asleep asleep.
Proof.
  destruct (hourly_sleep_after_clock_restart woken_after_hourly_sleep)
    as (asleep & E & _).
  - vm_compute. split; reflexivity.
  - vm_compute. reflexivity.
  - exists asleep. exact E.
Defined.

(** ** The emergency sleep never comes early *)

Lemma loop_emergency_sleep_asleep (w asleep : World) :
  loop_emergency_sleep w = Asleep asleep ->
  check_timeout_safe_at (fst (millis w)) (ulongs (mem w) last_data_received)
    RESET_TIMEOUT = true /\
  trace asleep =
    DeepSleep DEEP_SLEEP_DURATION :: Log MsgEmergencyTimeout :: trace w.
Proof.
  unfold loop_emergency_sleep.
  destruct ((last <- getU last_data_received ;;
             check_timeout_safe last RESET_TIMEOUT) w) as [due w'] eqn:E.
  revert E. run. intros E. inversion E; subst; clear E.
  destruct (check_timeout_safe_at _ _ _); [|discriminate].
  intros H. inversion H. split; reflexivity.
Qed.

(** X26.  A pass of [loop()] whose hourly check lets it go on ends in deep
    sleep only through the emergency check, and only when the elapsed
    time that check computes since [last_data_received] is more than
    [RESET_TIMEOUT]: the emergency sleep never comes early. *)
Theorem emergency_sleep_only_after_timeout (w w1 asleep : World) :
  loop_hourly_sleep (snd (loop_before_sleep w)) = Awake w1 ->
  loop w = Asleep asleep ->
  RESET_TIMEOUT <
    elapsed_time_safe (fst (millis w1)) (ulongs (mem w1) last_data_received) /\
  trace asleep =
    DeepSleep DEEP_SLEEP_DURATION :: Log MsgEmergencyTimeout :: trace w1.
Proof.
  intros Hawake. unfold loop. rewrite Hawake.
  destruct (loop_emergency_sleep w1) as [w2|w2] eqn:E; [discriminate|].
  intros H. inversion H; subst; clear H.
  destruct (loop_emergency_sleep_asleep w1 asleep E) as [D T].
  rewrite check_timeout_safe_at_elapsed in D. apply Z.ltb_lt in D.
  split; [exact D | exact T].
Qed.

Lemma emergency_sleep_only_after_timeout_witness :
  RESET_TIMEOUT <
  elapsed_time_safe
    (fst (millis (snd (millis (snd (loop_before_sleep silent_for_ten_minutes))))))
    (ulongs (mem (snd (millis (snd (loop_before_sleep silent_for_ten_minutes)))))
       last_data_received).
Proof.
  apply (emergency_sleep_only_after_timeout silent_for_ten_minutes
           (snd (millis (snd (loop_before_sleep silent_for_ten_minutes))))
           (last_world (loop silent_for_ten_minutes))).
  - vm_compute. reflexivity.
  - vm_compute. reflexivity.
Defined.
